(** * AgriBot: intent routing, response generation, scheduled jobs,
      rate limiting and Telegram login, embedded from the JavaScript sources.

    Files covered:
    - [src/services/aiService.js]   (module [AIService])
    - [src/cron/cronJobs.js]        (module [CronJobs])
    - [src/middleware/rateLimiter.js] (module [RateLimiter])
    - [src/api/auth.js], [src/middleware/auth.js], [src/models/User.js]
      (modules [Auth], [AuthMore])
    - [src/services/weatherService.js], [src/services/marketService.js]
      (modules [WeatherService], [MarketService])
    - the [BotHandler] class and the [Conversation] model
      (modules [BotHandler], [BotHandlerAI], [ConversationModel])

    The modules [AIServiceMore], [CronJobsMore] and [RateLimiterMore] hold
    further functions of the files of [AIService], [CronJobs] and
    [RateLimiter].

    Conventions.  A JavaScript string is a [string] holding its UTF-8 bytes.
    All keywords the code searches for are ASCII, and an ASCII byte never
    occurs inside a multi-byte UTF-8 sequence, so [String.prototype.includes]
    on UTF-16 code units and the byte-wise [includes] below agree on them.
    Timestamps are [Z] milliseconds.  JavaScript numbers that hold decimal
    fractions (confidences, trust scores) are exact rationals [Q]. *)

From Stdlib Require Import ZArith QArith Qround List String Ascii Bool Lia Lqa.
From Stdlib Require Import Sorting.Permutation Sorting.Sorted.
From stdpp Require Import base option list gmap strings.

Import ListNotations.
Local Open Scope string_scope.
Local Open Scope list_scope.

(** ** JavaScript helpers shared by the modules *)

Module JS.

(** The two characters that cannot be written inside a literal. *)
Definition nl : string := String (ascii_of_nat 10) EmptyString.
Definition dq : string := String (ascii_of_nat 34) EmptyString.

(** [s.includes(kw)]: [kw] occurs in [s] at some position. *)
Fixpoint includes (s kw : string) : bool :=
  String.prefix kw s ||
  match s with
  | EmptyString => false
  | String _ s' => includes s' kw
  end.

(** [kw] occurs in [s]: [s] is some prefix, then [kw], then some suffix.
    This is what [includes] decides. *)
Definition substring (kw s : string) : Prop :=
  exists pre post : string, s = (pre ++ kw ++ post)%string.

(** [a || b] on strings: the empty string is falsy. *)
Definition or_str (a b : string) : string :=
  match a with
  | EmptyString => b
  | _ => a
  end.

(** [xs.join(sep)]. *)
Fixpoint join (sep : string) (xs : list string) : string :=
  match xs with
  | [] => EmptyString
  | [x] => x
  | x :: rest => x ++ sep ++ join sep rest
  end.

(** ASCII part of [toLowerCase] / [toUpperCase]: letters are mapped, every
    other byte is kept.  Used for concrete ASCII inputs; the general results
    are stated for an arbitrary case mapping. *)
Definition lower_ascii (c : ascii) : ascii :=
  let n := nat_of_ascii c in
  if (65 <=? n)%nat && (n <=? 90)%nat then ascii_of_nat (n + 32) else c.

Definition upper_ascii (c : ascii) : ascii :=
  let n := nat_of_ascii c in
  if (97 <=? n)%nat && (n <=? 122)%nat then ascii_of_nat (n - 32) else c.

Fixpoint map_string (f : ascii -> ascii) (s : string) : string :=
  match s with
  | EmptyString => EmptyString
  | String c s' => String (f c) (map_string f s')
  end.

Definition toLowerCase_ascii : string -> string := map_string lower_ascii.
Definition toUpperCase_ascii : string -> string := map_string upper_ascii.

(** [s.charAt(0)] and [s.slice(1)] on a byte string whose first character
    is ASCII. *)
Definition charAt0 (s : string) : string :=
  match s with
  | EmptyString => EmptyString
  | String c _ => String c EmptyString
  end.

Definition slice1 (s : string) : string :=
  match s with
  | EmptyString => EmptyString
  | String _ s' => s'
  end.

End JS.

(** ** Effects: collaborator state, exceptions and an event trace

    [Eff A] is a computation that reads and updates the state [Env] of the
    external collaborators, either returns a value or throws, and emits
    events (in chronological order).  [try_catch] is [try { } catch { }]. *)

Inductive Result (A : Type) : Type :=
| Ok (a : A)
| Throw (err : string).
Arguments Ok {A} a.
Arguments Throw {A} err.

Section Effects.
Context {Env Ev : Type}.

Definition Eff (A : Type) : Type := Env -> Result A * Env * list Ev.

Definition ret {A} (a : A) : Eff A := fun s => (Ok a, s, []).

Definition bind {A B} (m : Eff A) (f : A -> Eff B) : Eff B :=
  fun s =>
    match m s with
    | (Ok a, s1, t1) =>
        match f a s1 with
        | (r, s2, t2) => (r, s2, t1 ++ t2)
        end
    | (Throw e, s1, t1) => (Throw e, s1, t1)
    end.

Definition throw {A} (e : string) : Eff A := fun s => (Throw e, s, []).

Definition emit (ev : Ev) : Eff unit := fun s => (Ok tt, s, [ev]).

Definition try_catch {A} (m : Eff A) (handler : string -> Eff A) : Eff A :=
  fun s =>
    match m s with
    | (Ok a, s1, t1) => (Ok a, s1, t1)
    | (Throw e, s1, t1) =>
        match handler e s1 with
        | (r, s2, t2) => (r, s2, t1 ++ t2)
        end
    end.

(** [for (const x of xs) { body(x) }] *)
Fixpoint for_of {A} (xs : list A) (body : A -> Eff unit) : Eff unit :=
  match xs with
  | [] => ret tt
  | x :: rest => bind (body x) (fun _ => for_of rest body)
  end.

Definition result_of {A} (r : Result A * Env * list Ev) : Result A := r.1.1.
Definition env_of {A} (r : Result A * Env * list Ev) : Env := r.1.2.
Definition trace_of {A} (r : Result A * Env * list Ev) : list Ev := r.2.
End Effects.

Arguments Eff : clear implicits.

Notation "'do' x <- m ; k" := (bind m (fun x => k))
  (at level 10, x name, m at level 100, k at level 200).
Notation "'exec' m ; k" := (bind m (fun _ => k))
  (at level 10, m at level 100, k at level 200).

(** ** [src/services/aiService.js] *)

Module AIService.
Import JS.

(** [this.intents], in declaration order ([Object.entries] enumerates string
    keys in insertion order). *)
Definition intents : list (string * list string) :=
  [ ("greeting",   ["hello"; "hi"; "hey"; "good morning"; "good evening"]);
    ("weather",    ["weather"; "temperature"; "rain"; "sunny"; "cloudy"; "forecast"]);
    ("crops",      ["crop"; "plant"; "grow"; "seed"; "harvest"; "farming"]);
    ("market",     ["price"; "market"; "sell"; "buy"; "cost"; "rate"]);
    ("pest",       ["pest"; "insect"; "bug"; "disease"; "infection"; "treatment"]);
    ("irrigation", ["water"; "irrigation"; "watering"; "drought"; "moisture"]);
    ("fertilizer", ["fertilizer"; "nutrient"; "manure"; "compost"; "nitrogen"]);
    ("news",       ["news"; "latest"; "headlines"; "updates"; "article"]);
    ("help",       ["help"; "assist"; "support"; "guide"; "how to"]) ].

Record Entity : Type := { type : string; value : string }.

Definition crops : list string :=
  ["wheat"; "corn"; "rice"; "tomato"; "potato"; "soybean"].
Definition locations : list string :=
  ["kenya"; "nairobi"; "mombasa"; "kisumu"; "nakuru"].

Section Classifier.
(** [String.prototype.toLowerCase]. *)
Variable toLowerCase : string -> string.

(** [keywords.some(keyword => lowercaseText.includes(keyword))] *)
Definition matches (lowercaseText : string) (keywords : list string) : bool :=
  existsb (fun keyword => includes lowercaseText keyword) keywords.

(** The [for ... of Object.entries(...)] loop of [detectIntent]. *)
Fixpoint first_match (lowercaseText : string)
    (entries : list (string * list string)) : string :=
  match entries with
  | [] => "general"
  | (intent, keywords) :: rest =>
      if matches lowercaseText keywords then intent
      else first_match lowercaseText rest
  end.

Definition detectIntent (text : string) : string :=
  let lowercaseText := toLowerCase text in
  first_match lowercaseText intents.

Definition extractEntities (text : string) : list Entity :=
  let lowercaseText := toLowerCase text in
  let entities := [] in
  let entities :=
    fold_left (fun acc crop =>
      if includes lowercaseText crop
      then acc ++ [{| type := "crop"; value := crop |}] else acc)
      crops entities in
  let entities :=
    fold_left (fun acc location =>
      if includes lowercaseText location
      then acc ++ [{| type := "location"; value := location |}] else acc)
      locations entities in
  entities.
End Classifier.

(** *** Response generation *)

Record Button : Type := btn { button_text : string; callback_data : string }.

(** [{ inline_keyboard: [[...], ...] }] *)
Definition Keyboard : Type := list (list Button).

Record Response : Type :=
  { text : string;
    confidence : Q;
    keyboard : option Keyboard  (* [None]: the property is absent *) }.

(** The part of the [user] argument that the generators read. *)
Record AgriculturalProfile : Type :=
  { location : option string;
    cropsOfInterest : option (list string) }.

Record User : Type :=
  { firstName : string;
    agriculturalProfile : option AgriculturalProfile }.

Record CropInfo : Type :=
  { plantingTime : string;
    harvestTime : string;
    waterRequirement : string;
    commonDiseases : list string;
    tips : string }.

(** [this.cropDatabase] *)
Definition cropDatabase : list (string * CropInfo) :=
  [ ("wheat", {| plantingTime := "October-December";
                 harvestTime := "March-May";
                 waterRequirement := "Moderate";
                 commonDiseases := ["Rust"; "Smut"; "Blight"];
                 tips := "Plant in well-drained soil with pH 6.0-7.5" |});
    ("corn",  {| plantingTime := "April-June";
                 harvestTime := "August-October";
                 waterRequirement := "High";
                 commonDiseases := ["Corn Borer"; "Leaf Blight"];
                 tips := "Requires warm weather and regular watering" |});
    ("rice",  {| plantingTime := "June-July";
                 harvestTime := "October-December";
                 waterRequirement := "Very High";
                 commonDiseases := ["Blast"; "Bacterial Blight"];
                 tips := "Grows best in flooded fields" |}) ].

Fixpoint lookup_crop (name : string) (db : list (string * CropInfo))
    : option CropInfo :=
  match db with
  | [] => None
  | (k, info) :: rest => if String.eqb k name then Some info else lookup_crop name rest
  end.

(** What the generators do to the outside world. *)
Inductive Event : Type :=
| BackendCall (prompt : string)   (* [this.model.generateContent(prompt)] *)
| LogError (message : string).    (* [logger.error(message, error)] *)

(** The prompt templates. *)
Definition crop_prompt (userLocation originalText userCrops specificCrop : string)
    : string :=
  "You are an agricultural expert helping a farmer in " ++ userLocation ++ ". " ++ nl ++
  "                " ++ nl ++
  "Question: " ++ dq ++ originalText ++ dq ++ nl ++
  "User grows: " ++ userCrops ++ nl ++
  "Specific crop: " ++ specificCrop ++ nl ++ nl ++
  "Provide specific, actionable advice for crop management in Kenya's climate. Include:" ++ nl ++
  "- Planting/growing tips" ++ nl ++
  "- Seasonal considerations for Kenya" ++ nl ++
  "- Local farming practices" ++ nl ++
  "- Practical solutions" ++ nl ++ nl ++
  "Keep response under 150 words and use appropriate emojis.".

Definition pest_prompt (originalText : string) : string :=
  "You are a plant pathology expert helping a farmer in Kenya with pest management." ++ nl ++ nl ++
  "Question: " ++ dq ++ originalText ++ dq ++ nl ++ nl ++
  "Provide practical advice for pest identification and control in Kenya. Include:" ++ nl ++
  "- Common pests in Kenya" ++ nl ++
  "- Organic/sustainable control methods" ++ nl ++
  "- Prevention strategies" ++ nl ++
  "- When to seek professional help" ++ nl ++ nl ++
  "Keep response under 150 words with emojis.".

Definition irrigation_prompt (originalText : string) : string :=
  "You are an irrigation specialist helping a farmer in Kenya with water management." ++ nl ++ nl ++
  "Question: " ++ dq ++ originalText ++ dq ++ nl ++ nl ++
  "Provide practical irrigation advice for Kenya's climate including:" ++ nl ++
  "- Water-efficient techniques" ++ nl ++
  "- Seasonal watering strategies" ++ nl ++
  "- Drought management" ++ nl ++
  "- Local irrigation methods" ++ nl ++ nl ++
  "Keep response under 150 words with emojis.".

Definition fertilizer_prompt (originalText : string) : string :=
  "You are a soil fertility expert helping a farmer in Kenya with fertilizer and soil management." ++ nl ++ nl ++
  "Question: " ++ dq ++ originalText ++ dq ++ nl ++ nl ++
  "Provide practical fertilizer advice for Kenya including:" ++ nl ++
  "- Organic vs synthetic options" ++ nl ++
  "- Local soil conditions" ++ nl ++
  "- Nutrient management" ++ nl ++
  "- Cost-effective solutions" ++ nl ++ nl ++
  "Keep response under 150 words with emojis.".

Definition general_prompt (originalText userCrops userLocation : string) : string :=
  "You are an expert agricultural assistant helping farmers in Kenya. " ++ nl ++
  "            " ++ nl ++
  "User question: " ++ dq ++ originalText ++ dq ++ nl ++
  "User's crops of interest: " ++ userCrops ++ nl ++
  "User's location: " ++ userLocation ++ nl ++ nl ++
  "Provide a helpful, practical response about agriculture. Keep it concise (max 200 words) and include specific actionable advice. Use emojis appropriately. Focus on:" ++ nl ++
  "- Crop management" ++ nl ++
  "- Weather considerations" ++ nl ++
  "- Best practices" ++ nl ++
  "- Local farming conditions in Kenya" ++ nl ++ nl ++
  "If the question is not agriculture-related, politely redirect to farming topics.".

(** The canned replies. *)
Definition pest_fallback : Response :=
  {| text := "🐛 I can help you with pest management! For specific pest issues, please describe the symptoms you're seeing on your crops, and I'll provide targeted advice.";
     confidence := 0.7;
     keyboard := None |}.

Definition irrigation_fallback : Response :=
  {| text := "💧 I can help with irrigation planning! Consider drip irrigation for water efficiency, and time watering for early morning to reduce evaporation.";
     confidence := 0.7;
     keyboard := None |}.

Definition fertilizer_fallback : Response :=
  {| text := "🌱 For fertilizer advice, consider soil testing first. Organic compost and manure work well in Kenya's soils, plus DAP and CAN for specific nutrient needs.";
     confidence := 0.7;
     keyboard := None |}.

(** The last [return] of [generateCropResponse]: the static
    "which crop?" template. *)
Definition crop_static_template : Response :=
  {| text := "🌱 I'd be happy to help you with crop information! Could you specify which crop you're interested in? I have information about wheat, corn, rice, and many others.";
     confidence := 0.7;
     keyboard := Some
       [ [btn "🌾 Wheat" "crop_info:wheat"; btn "🌽 Corn" "crop_info:corn"];
         [btn "🍚 Rice" "crop_info:rice"; btn "🫘 Soybeans" "crop_info:soybeans"] ] |}.

Definition generateWeatherResponse : Response :=
  {| text := "🌤️ Let me get the latest weather information for you! Use /weather to get current conditions and forecasts for your location.";
     confidence := 0.8;
     keyboard := Some
       [ [btn "🌦️ Current Weather" "current_weather"; btn "📅 Forecast" "weather_forecast"] ] |}.

Definition generateMarketResponse : Response :=
  {| text := "📈 Let me help you with market price information! Use /market to get current prices for your crops, or specify which crop prices you'd like to know about.";
     confidence := 0.8;
     keyboard := Some
       [ [btn "🌾 Grain Prices" "market_grains"; btn "🥕 Vegetable Prices" "market_vegetables"] ] |}.

Definition generateHelpResponse : Response :=
  {| text :=
       "🤖 *AgriBot Help*" ++ nl ++ nl ++
       "I'm your intelligent agricultural assistant! I can help with:" ++ nl ++ nl ++
       "🌤️ Weather forecasts and alerts" ++ nl ++
       "🌱 Crop planting and care advice" ++ nl ++
       "📈 Market prices and trends" ++ nl ++
       "🐛 Pest and disease management" ++ nl ++
       "💧 Irrigation and water management" ++ nl ++
       "🌾 Fertilizer recommendations" ++ nl ++
       "📰 Latest agricultural news" ++ nl ++ nl ++
       "Just ask me anything about farming!";
     confidence := 1.0;
     keyboard := Some
       [ [btn "🌤️ Weather" "weather"; btn "🌱 Crops" "crops"];
         [btn "📊 Market" "market"; btn "📰 News" "news_general"];
         [btn "💡 Tips" "tips"] ] |}.

(** What the news provider answers. *)
Record NewsResult (Article : Type) : Type :=
  { success : bool;
    articles : list Article;
    error : option string }.
Arguments success {Article} _.
Arguments articles {Article} _.
Arguments error {Article} _.

Section Generator.
(** State of the outside world: the advice backend, the news provider,
    the random generator. *)
Variable Env : Type.

(** The advice backend: [generateContent(prompt)], [result.response] and
    [response.text()] taken together; [Throw] when any of them fails. *)
Variable generateContent : string -> Env -> Result string * Env.

Variable toUpperCase : string -> string.

(** [Math.floor(Math.random() * n)], a number below [n]. *)
Variable random_below : nat -> Env -> nat * Env.

(** The news provider: [newsService.getNewsByCategory(category)] and the
    renderer [newsService.formatNewsForTelegram(articles, limit)]. *)
Variable Article : Type.
Variable getNewsByCategory : string -> Env -> Result (NewsResult Article) * Env.
Variable formatNewsForTelegram : list Article -> nat -> Result string.

Local Abbreviation M := (Eff Env Event).

(** A call of the backend, recorded in the trace. *)
Definition callBackend (prompt : string) : M string :=
  fun s =>
    match generateContent prompt s with
    | (r, s') => (r, s', [BackendCall prompt])
    end.

Definition pickRandom (templates : list string) : M string :=
  fun s =>
    match random_below (length templates) s with
    | (i, s') => (Ok (nth i templates ""), s', [])
    end.

Definition generateGreetingResponse (user : User) : M Response :=
  let greetings :=
    [ ("Hello " ++ firstName user ++ "! 🌱 How can I help you with your farming today?")%string;
      "Hi there! 🚜 What agricultural question do you have for me?";
      "Welcome back! 🌾 Ready to grow something amazing together?" ] in
  do text <- pickRandom greetings;
  ret {| text := text;
         confidence := 0.9;
         keyboard := Some
           [ [btn "🌤️ Weather" "weather"; btn "🌱 Crops" "crops"];
             [btn "📊 Market" "market"; btn "💡 Tips" "tips"] ] |}.

Definition userLocation (user : User) : string :=
  or_str (default "" (agriculturalProfile user ≫= location)) "Kenya".

Definition userCrops (user : User) (dflt : string) : string :=
  or_str (default "" (join ", " <$> (agriculturalProfile user ≫= cropsOfInterest)))
         dflt.

Definition cropFacts (cropEntity : Entity) (crop : CropInfo) : Response :=
  {| text :=
       "🌾 *" ++ toUpperCase (charAt0 (value cropEntity)) ++ slice1 (value cropEntity)
         ++ " Information*" ++ nl ++ nl ++
       "🌱 Planting Time: " ++ plantingTime crop ++ nl ++
       "🌾 Harvest Time: " ++ harvestTime crop ++ nl ++
       "💧 Water Requirement: " ++ waterRequirement crop ++ nl ++
       "🦠 Common Diseases: " ++ join ", " (commonDiseases crop) ++ nl ++
       "💡 Tip: " ++ tips crop;
     confidence := 0.9;
     keyboard := None |}.

Definition generateCropResponse (entities : list Entity) (originalText : string)
    (user : User) : M Response :=
  let cropEntity := List.find (fun e => String.eqb (type e) "crop") entities in
  do answered <-
    (if includes originalText "how to" || includes originalText "when to"
        || includes originalText "best" || bool_decide (is_Some cropEntity)
     then
       try_catch
         (let specificCrop :=
            match cropEntity with Some e => value e | None => "farming" end in
          let prompt :=
            crop_prompt (userLocation user) originalText
                        (userCrops user "general crops") specificCrop in
          do text <- callBackend prompt;
          ret (Some {| text := text;
                       confidence := 0.9;
                       keyboard := Some
                         [ [btn "🌤️ Weather Info" "weather_info";
                            btn "📈 Market Prices" "market_info"];
                           [btn "💡 More Tips" "farming_tips"] ] |}))
         (fun error =>
            exec emit (LogError "Error generating AI crop response:");
            ret None)
     else ret None);
  match answered with
  | Some response => ret response
  | None =>
      (* Fallback to basic crop database *)
      match cropEntity with
      | Some e =>
          match lookup_crop (value e) cropDatabase with
          | Some crop => ret (cropFacts e crop)
          | None => ret crop_static_template
          end
      | None => ret crop_static_template
      end
  end.

Definition generatePestResponse (entities : list Entity) (originalText : string)
    : M Response :=
  try_catch
    (do text <- callBackend (pest_prompt originalText);
     ret {| text := text; confidence := 0.8; keyboard := None |})
    (fun error =>
       exec emit (LogError "Error generating pest response:");
       ret pest_fallback).

Definition generateIrrigationResponse (entities : list Entity)
    (originalText : string) : M Response :=
  try_catch
    (do text <- callBackend (irrigation_prompt originalText);
     ret {| text := text; confidence := 0.8; keyboard := None |})
    (fun error =>
       exec emit (LogError "Error generating irrigation response:");
       ret irrigation_fallback).

Definition generateFertilizerResponse (entities : list Entity)
    (originalText : string) : M Response :=
  try_catch
    (do text <- callBackend (fertilizer_prompt originalText);
     ret {| text := text; confidence := 0.8; keyboard := None |})
    (fun error =>
       exec emit (LogError "Error generating fertilizer response:");
       ret fertilizer_fallback).

Definition generateNewsResponse (entities : list Entity) (originalText : string)
    : M Response :=
  try_catch
    ((* Determine news category based on query *)
     let category :=
       if includes originalText "crop" || includes originalText "harvest"
       then "crops"
       else if includes originalText "tech" || includes originalText "innovation"
       then "technology"
       else if includes originalText "market" || includes originalText "price"
       then "market"
       else if includes originalText "weather" || includes originalText "climate"
       then "weather"
       else if includes originalText "sustainable" || includes originalText "organic"
       then "sustainability"
       else "general" in
     do newsResult <-
       (fun s => match getNewsByCategory category s with
                 | (r, s') => (r, s', [])
                 end);
     if success newsResult && (0 <? length (articles newsResult))%nat
     then
       do formattedNews <-
         (fun s => (formatNewsForTelegram (articles newsResult) 3, s, []));
       ret {| text := formattedNews;
              confidence := 0.9;
              keyboard := Some
                [ [btn "🌾 Crop News" "news_crops"; btn "💰 Market News" "news_market"];
                  [btn "🔬 Tech News" "news_technology";
                   btn "🌱 Sustainability" "news_sustainability"];
                  [btn "🔄 Refresh News" "news_refresh"] ] |}
     else
       ret {| text :=
                "📰 I'm having trouble fetching the latest agricultural news right now. "
                ++ or_str (default "" (error newsResult)) "Please try again later."
                ++ nl ++ nl ++
                "In the meantime, I can help you with:" ++ nl ++
                "• Crop advice" ++ nl ++
                "• Weather information" ++ nl ++
                "• Market prices" ++ nl ++
                "• Farming tips";
              confidence := 0.6;
              keyboard := Some
                [ [btn "🌤️ Weather" "weather"; btn "📈 Market" "market"];
                  [btn "🌱 Crops" "crops"; btn "💡 Tips" "tips"] ] |})
    (fun error =>
       exec emit (LogError "Error generating news response:");
       ret {| text := "📰 Sorry, I can't fetch news right now, but I'm here to help with all your agricultural questions! Ask me about crops, weather, markets, or farming techniques.";
              confidence := 0.5;
              keyboard := Some
                [ [btn "🌱 Crop Advice" "crops"; btn "🌤️ Weather" "weather"];
                  [btn "📈 Market Prices" "market"; btn "💡 Farming Tips" "tips"] ] |}).

Definition generateGeneralResponse (originalText : string)
    (entities : list Entity) (user : User) : M Response :=
  try_catch
    ((* Use Gemini AI for general agricultural questions *)
     let prompt :=
       general_prompt originalText (userCrops user "general farming")
                      (userLocation user) in
     do text <- callBackend prompt;
     ret {| text := text;
            confidence := 0.8;
            keyboard := Some
              [ [btn "🌤️ Weather" "weather_info"; btn "📈 Market" "market_info"];
                [btn "🌱 Crops" "crop_info"; btn "💡 Tips" "farming_tips"] ] |})
    (fun error =>
       exec emit (LogError "Error generating AI response:");
       (* Fallback to predefined responses *)
       let responses :=
         [ ("🤔 I'm not entirely sure about that specific question, but I'd be happy to help! Could you rephrase it or ask about:" ++ nl ++ nl ++
           "• Weather and climate" ++ nl ++
           "• Crop growing techniques" ++ nl ++
           "• Market prices" ++ nl ++
           "• Pest management" ++ nl ++
           "• Irrigation methods" ++ nl ++
           "• Fertilizers and soil health")%string;
           "🌱 That's an interesting agricultural question! While I'm still learning, I can definitely help you with weather, crops, markets, and farming techniques. What specifically would you like to know?";
           "🚜 I want to make sure I give you the best agricultural advice! Could you provide a bit more detail about what you're looking for? I'm great with weather, crop care, market info, and farming practices." ] in
       do text <- pickRandom responses;
       ret {| text := text;
              confidence := 0.5;
              keyboard := Some
                [ [btn "🌤️ Weather" "weather"; btn "📊 Market" "market"];
                  [btn "💡 Get Advice" "advice"; btn "❓ Help" "help"] ] |}).

(** The [switch (intent)] of [generateResponse]; the last branch is
    [default]. *)
Definition generateResponse (intent : string) (entities : list Entity)
    (originalText : string) (user : User) : M Response :=
  if String.eqb intent "greeting" then generateGreetingResponse user
  else if String.eqb intent "weather" then ret generateWeatherResponse
  else if String.eqb intent "crops" then generateCropResponse entities originalText user
  else if String.eqb intent "market" then ret generateMarketResponse
  else if String.eqb intent "pest" then generatePestResponse entities originalText
  else if String.eqb intent "irrigation" then generateIrrigationResponse entities originalText
  else if String.eqb intent "fertilizer" then generateFertilizerResponse entities originalText
  else if String.eqb intent "news" then generateNewsResponse entities originalText
  else if String.eqb intent "help" then ret generateHelpResponse
  else generateGeneralResponse originalText entities user.
End Generator.

End AIService.

(** ** [src/cron/cronJobs.js] *)

Module CronJobs.

(** The fields of a [User] document that the jobs read
    ([src/models/User.js]).  A field that may be missing is an [option]. *)
Record Coordinates : Type := { latitude : Q; longitude : Q }.

Record Location : Type :=
  { country : option string;
    state : option string;
    city : option string;
    coordinates : option Coordinates }.

Record Profile : Type :=
  { cropTypes : list string;
    location : option Location }.

Record NotificationSettings : Type :=
  { weather : bool; marketPrices : bool; tips : bool; alerts : bool }.

Record User : Type :=
  { telegramId : Z;
    firstName : string;
    profile : option Profile;
    notificationSettings : NotificationSettings;  (* [botData.notificationSettings] *)
    isBanned : bool                               (* [permissions.isBanned] *) }.

Inductive Event : Type :=
| LogInfo (message : string) (count : nat)
| LogWarn (message : string) (telegramId : Z)
| LogError (message : string)
| SendMessage (chatId : Z) (text : string) (delivered : bool)
    (* [this.bot.sendMessage(chatId, text, ...)] and whether it resolved *)
| Delay (ms : Z).

Section Notifications.
(** State of the collaborators: weather and market providers, the
    delivery channel. *)
Variable Env : Type.
Variables Weather MarketData : Type.

(** [weatherService.getAgriculturalWeather(location, cropType)] *)
Variable getAgriculturalWeather :
  Location -> option string -> Env -> Result Weather * Env.
(** [marketService.getMarketPrices(crops, location)] *)
Variable getMarketPrices :
  list string -> option Location -> Env -> Result MarketData * Env.
(** [this.bot.sendMessage(chatId, text, options)] *)
Variable sendMessage : Z -> string -> Env -> Result unit * Env.

(** The message renderers of the class; they build text from numbers and
    dates, and are kept abstract. *)
Variable formatWeatherUpdateMessage : Weather -> User -> Result string.
Variable formatMarketUpdateMessage : MarketData -> User -> Result string.

Local Abbreviation M := (Eff Env Event).

Definition call {A} (f : Env -> Result A * Env) : M A :=
  fun s => match f s with (r, s') => (r, s', []) end.

Definition pure_call {A} (r : Result A) : M A := fun s => (r, s, []).

Definition bot_sendMessage (chatId : Z) (text : string) : M unit :=
  fun s =>
    match sendMessage chatId text s with
    | (Ok u, s') => (Ok u, s', [SendMessage chatId text true])
    | (Throw e, s') => (Throw e, s', [SendMessage chatId text false])
    end.

Definition delay (ms : Z) : M unit := emit (Delay ms).

(** [User.find({ 'botData.notificationSettings.weather': true,
                'permissions.isBanned': false })] *)
Definition find_weather_users (collection : list User) : list User :=
  List.filter (fun u => weather (notificationSettings u) && negb (isBanned u))
              collection.

(** One turn of the loop of [sendWeatherUpdates]. *)
Definition weather_turn (user : User) : M unit :=
  try_catch
    (match profile user ≫= location with
     | Some loc =>
         match coordinates loc with
         | Some _ =>
             do weather <- call (getAgriculturalWeather loc
                                   (profile user ≫= (fun p => head (cropTypes p))));
             do message <- pure_call (formatWeatherUpdateMessage weather user);
             exec bot_sendMessage (telegramId user) message;
             (* Small delay to avoid rate limiting *)
             delay 100
         | None => ret tt (* continue: skip users without location *)
         end
     | None => ret tt
     end)
    (fun error =>
       emit (LogWarn "Failed to send weather update to user" (telegramId user))).

Definition sendWeatherUpdates (collection : list User) : M unit :=
  try_catch
    (let users := find_weather_users collection in
     exec emit (LogInfo "Sending weather updates to" (length users));
     for_of users weather_turn)
    (fun error => emit (LogError "Error in sendWeatherUpdates:")).

(** [User.find({ 'botData.notificationSettings.marketPrices': true,
                'permissions.isBanned': false,
                'profile.cropTypes.0': { $exists: true } })] *)
Definition find_market_users (collection : list User) : list User :=
  List.filter
    (fun u => marketPrices (notificationSettings u) && negb (isBanned u)
              && match profile u with
                 | Some p => negb (bool_decide (cropTypes p = []))
                 | None => false
                 end)
    collection.

(** One turn of the loop of [sendMarketUpdates]. *)
Definition market_turn (user : User) : M unit :=
  try_catch
    (match profile user with
     | Some p =>
         do marketData <- call (getMarketPrices (cropTypes p) (location p));
         do message <- pure_call (formatMarketUpdateMessage marketData user);
         exec bot_sendMessage (telegramId user) message;
         delay 100
     | None => throw "TypeError: Cannot read properties of undefined"
     end)
    (fun error =>
       emit (LogWarn "Failed to send market update to user" (telegramId user))).

Definition sendMarketUpdates (collection : list User) : M unit :=
  try_catch
    (let users := find_market_users collection in
     exec emit (LogInfo "Sending market updates to" (length users));
     for_of users market_turn)
    (fun error => emit (LogError "Error in sendMarketUpdates:")).
End Notifications.

(** *** [cleanupOldData] *)

(** A content snapshot ([AgriculturalData]) and a conversation record, with
    the fields the cleanup reads; [createdAt] in milliseconds. *)
Record AgriculturalData : Type := { data_id : Z; data_createdAt : Z }.

Record Conversation : Type := { _id : Z; userId : Z; createdAt : Z }.

Record Db : Type :=
  { agriculturalData : list AgriculturalData;
    users : list User;
    conversations : list Conversation }.

(** [.sort({ createdAt: -1 })]: newest first.  Records with equal
    [createdAt] keep their stored order; the database leaves the order of
    ties open, and no result below depends on it. *)
Fixpoint insert_desc (c : Conversation) (sorted : list Conversation)
    : list Conversation :=
  match sorted with
  | [] => [c]
  | d :: rest =>
      if (createdAt d <? createdAt c)%Z then c :: d :: rest
      else d :: insert_desc c rest
  end.

Fixpoint sort_desc (cs : list Conversation) : list Conversation :=
  match cs with
  | [] => []
  | c :: rest => insert_desc c (sort_desc rest)
  end.

Definition thirtyDaysAgo (now : Z) : Z := (now - 30 * 24 * 60 * 60 * 1000)%Z.

(** The database calls of [cleanupOldData]; each reads or rewrites one
    collection and is taken not to fail. *)

(** [AgriculturalData.deleteMany({ createdAt: { $lt: cutoff } })],
    returning [deletedCount]. *)
Definition AgriculturalData_deleteMany_lt (cutoff : Z) : Eff Db Event nat :=
  fun db =>
    let kept :=
      List.filter (fun d => negb (data_createdAt d <? cutoff)%Z)
                  (agriculturalData db) in
    (Ok (length (agriculturalData db) - length kept)%nat,
     {| agriculturalData := kept;
        users := users db;
        conversations := conversations db |},
     []).

(** [User.find({}, 'telegramId')] *)
Definition User_find_all : Eff Db Event (list User) :=
  fun db => (Ok (users db), db, []).

(** [Conversation.find({ userId }).sort({ createdAt: -1 }).skip(1000)] *)
Definition find_beyond_1000 (uid : Z) (cs : list Conversation) : list Conversation :=
  skipn 1000 (sort_desc (List.filter (fun c => (userId c =? uid)%Z) cs)).

Definition Conversation_find_beyond_1000 (uid : Z) : Eff Db Event (list Conversation) :=
  fun db => (Ok (find_beyond_1000 uid (conversations db)), db, []).

(** [Conversation.deleteMany({ _id: { $in: conversationIds } })] *)
Definition deleteMany_in (conversationIds : list Z) (cs : list Conversation)
    : list Conversation :=
  List.filter (fun c => negb (existsb (Z.eqb (_id c)) conversationIds)) cs.

Definition Conversation_deleteMany_in (conversationIds : list Z) : Eff Db Event unit :=
  fun db =>
    (Ok tt,
     {| agriculturalData := agriculturalData db;
        users := users db;
        conversations := deleteMany_in conversationIds (conversations db) |},
     []).

Definition cleanupOldData (now : Z) : Eff Db Event unit :=
  try_catch
    ((* Clean old agricultural data *)
     do deletedCount <- AgriculturalData_deleteMany_lt (thirtyDaysAgo now);
     exec emit (LogInfo "Cleaned up old agricultural data records" deletedCount);
     (* Clean old conversation data (keep only last 1000 per user) *)
     do users <- User_find_all;
     for_of users (fun user =>
       do conversations <- Conversation_find_beyond_1000 (telegramId user);
       if (0 <? length conversations)%nat
       then
         let conversationIds := map _id conversations in
         Conversation_deleteMany_in conversationIds
       else ret tt))
    (fun error => emit (LogError "Error in cleanupOldData:")).

End CronJobs.

(** ** [src/middleware/rateLimiter.js] *)

Module RateLimiter.

(** *** The limiter objects *)

(** Options of a [RateLimiterMemory]: [points] per [duration] seconds. *)
Record Options : Type := { points : Z; duration : Z }.

(** Modelled from the spec: the entry that the store of a
    [RateLimiterMemory] (package rate-limiter-flexible, not part of the
    repository) keeps per key: points consumed in the open window, and
    the time (ms) at which the window closes. *)
Record Entry : Type := { value : Z; expiresAt : Z }.

(** Modelled from the spec: the object a [consume] of that package
    resolves or rejects with; the wrappers below read [msBeforeNext] and
    [remainingPoints] from it. *)
Record RateLimiterRes : Type :=
  { msBeforeNext : Z; remainingPoints : Z; consumedPoints : Z }.

Inductive Outcome : Type :=
| Resolved (res : RateLimiterRes)
| Rejected (rateLimiterRes : RateLimiterRes).

(** Modelled from the spec: the class [RateLimiterMemory] of the package
    rate-limiter-flexible, whose source is not part of the repository.  The
    specification gives its contract as [consume(identity, bucket) ->
    Allowed | Denied(retryAfter)], with [points] consumes allowed per window
    of [duration] seconds and a fresh allowance once the window has passed.
    The window of a key opens at its first consume and the allowance is
    reset when it closes: the callers in [rateLimiter.js] report
    [Date.now() + msBeforeNext] as [resetTime].  [now] is the clock in
    milliseconds at the call.  The option [execEvenly] only postpones the
    moment at which an allowed consume resolves and is left out. *)
Definition consume (opts : Options) (now : Z) (key : string)
    (store : gmap string Entry) : Outcome * gmap string Entry :=
  let entry :=
    match store !! key with
    | Some e =>
        if (now <? expiresAt e)%Z
        then {| value := value e + 1; expiresAt := expiresAt e |}
        else {| value := 1; expiresAt := now + duration opts * 1000 |}
    | None => {| value := 1; expiresAt := now + duration opts * 1000 |}
    end in
  let res :=
    {| msBeforeNext := expiresAt entry - now;
       remainingPoints := Z.max (points opts - value entry) 0;
       consumedPoints := value entry |} in
  (if (points opts <? value entry)%Z then Rejected res else Resolved res,
   <[key := entry]> store).

(** [parseInt(process.env.X) || dflt]: an unset or unparsable variable is
    [None]; zero is falsy. *)
Definition env_or (v : option Z) (dflt : Z) : Z :=
  match v with
  | Some 0%Z | None => dflt
  | Some n => n
  end.

Definition apiLimiter (RATE_LIMIT_MAX_REQUESTS RATE_LIMIT_WINDOW : option Z)
    : Options :=
  {| points := env_or RATE_LIMIT_MAX_REQUESTS 100;
     duration := env_or RATE_LIMIT_WINDOW 15 * 60 |}.

Definition botLimiter : Options := {| points := 30; duration := 60 |}.
Definition messageLimiter : Options := {| points := 60; duration := 60 |}.
Definition premiumLimiter : Options := {| points := 200; duration := 15 * 60 |}.

(** *** The wrappers *)

(** [Math.round(ms / 1000)]: to the nearest integer, halves upwards. *)
Definition round_seconds (ms : Z) : Z := ((ms + 500) / 1000)%Z.

(** [{ allowed: true }] or [{ allowed: false, remainingTime, message }];
    the message repeats [remainingTime] in words and is left out. *)
Record Check : Type := { allowed : bool; remainingTime : option Z }.

(** The shape shared by [checkBotRateLimit], [checkMessageRateLimit] and
    [checkPremiumRateLimit]: [try { await limiter.consume(userId); ... }
    catch (rateLimiterRes) { ... }]. *)
Definition check (limiter : Options) (now : Z) (userId : string)
    (store : gmap string Entry) : Check * gmap string Entry :=
  match consume limiter now userId store with
  | (Resolved _, store') => ({| allowed := true; remainingTime := None |}, store')
  | (Rejected rateLimiterRes, store') =>
      let remainingTime := round_seconds (msBeforeNext rateLimiterRes) in
      ({| allowed := false; remainingTime := Some remainingTime |}, store')
  end.

Definition checkBotRateLimit := check botLimiter.
Definition checkMessageRateLimit := check messageLimiter.
Definition checkPremiumRateLimit := check premiumLimiter.

(** The Express middleware [rateLimiter]: [next()] or a 429 reply with
    [retryAfter]. *)
Inductive Reply : Type :=
| Next
| TooManyRequests (retryAfter : Z) (limit : Z) (remaining : Z).

Definition rateLimiter (limiter : Options) (now : Z) (key : string)
    (store : gmap string Entry) : Reply * gmap string Entry :=
  match consume limiter now key store with
  | (Resolved _, store') => (Next, store')
  | (Rejected rateLimiterRes, store') =>
      let remainingTime := round_seconds (msBeforeNext rateLimiterRes) in
      (TooManyRequests remainingTime (points limiter)
                       (remainingPoints rateLimiterRes), store')
  end.

(** Successive [check]s of one key at the given times, oldest first. *)
Fixpoint check_all (limiter : Options) (times : list Z) (userId : string)
    (store : gmap string Entry) : list Check * gmap string Entry :=
  match times with
  | [] => ([], store)
  | now :: rest =>
      let '(c, store1) := check limiter now userId store in
      let '(cs, store2) := check_all limiter rest userId store1 in
      (c :: cs, store2)
  end.

(** *** [AdaptiveRateLimiter] *)

Record AdaptiveRateLimiter : Type :=
  { userScores : gmap Z Q;
    suspiciousThreshold : Q;
    trustedThreshold : Q }.

(** [constructor()] *)
Definition new_AdaptiveRateLimiter : AdaptiveRateLimiter :=
  {| userScores := ∅; suspiciousThreshold := 0.7; trustedThreshold := 0.3 |}.

Definition Qmax (a b : Q) : Q := if Qle_bool a b then b else a.
Definition Qltb (a b : Q) : bool := negb (Qle_bool b a).

(** [x || dflt] on numbers: zero is falsy. *)
Definition num_or (x : option Q) (dflt : Q) : Q :=
  match x with
  | Some q => if Qeq_bool q 0 then dflt else q
  | None => dflt
  end.

Definition calculateTrustScore (this : AdaptiveRateLimiter) (userId : Z)
    (messageCount commandCount reportCount : Q) : Q * AdaptiveRateLimiter :=
  let messageRatio := (commandCount / Qmax messageCount 1)%Q in
  let reportRatio := (reportCount / Qmax messageCount 1)%Q in
  (* Higher command ratio and report ratio = lower trust *)
  let score := Qmax 0 (1 - (messageRatio * 0.5 + reportRatio * 2))%Q in
  (score,
   {| userScores := <[userId := score]> (userScores this);
      suspiciousThreshold := suspiciousThreshold this;
      trustedThreshold := trustedThreshold this |}).

Definition getAdjustedLimit (this : AdaptiveRateLimiter) (userId : Z)
    (baseLimit : Z) : Z :=
  let trustScore := num_or (userScores this !! userId) 0.5 in
  if Qltb trustScore (trustedThreshold this)
  then Qfloor (inject_Z baseLimit * 0.5)    (* Reduce limit for untrusted users *)
  else if Qltb (suspiciousThreshold this) trustScore
  then Qfloor (inject_Z baseLimit * 1.5)    (* Increase limit for trusted users *)
  else baseLimit.

Definition shouldBlock (this : AdaptiveRateLimiter) (userId : Z) : bool :=
  let trustScore := num_or (userScores this !! userId) 0.5 in
  Qltb trustScore 0.1. (* Block users with very low trust scores *)

End RateLimiter.

(** ** Telegram login: [router.post('/telegram')], and the middleware
       [telegramAuth] of [src/middleware/auth.js] *)

Module Auth.

(** The fields of a [User] document that the two handlers touch. *)
Record User : Type :=
  { telegramId : Z;
    username : option string;
    firstName : option string;   (* [required: true] in the schema *)
    lastName : option string;
    lastInteraction : Z;         (* [botData.lastInteraction] *)
    lastActiveTime : Z;          (* [analytics.lastActiveTime] *)
    messageCount : Z;            (* [botData.messageCount] *)
    isBanned : bool;             (* [permissions.isBanned] *)
    banReason : option string }.

(** [req.body] of the login call, after [parseInt(authData.id)]. *)
Record AuthData : Type :=
  { id : Z;
    auth_username : option string;
    first_name : option string;
    last_name : option string;
    hash : option string }.

Inductive Event : Type :=
| LogInfo (message : string)
| LogError (message : string).

Inductive Reply : Type :=
| Json (token : string) (user : User)                  (* 200 *)
| BadRequest (message : string)                        (* 400 *)
| Unauthorized (message : string)                      (* 401 *)
| Forbidden (message : string) (banReason : option string)  (* 403 *)
| ServerError                                          (* 500 *)
| NextWith (user : User).                              (* [req.user = user; next()] *)

Section Handlers.
(** [validateTelegramLogin]: the HMAC check of the login data against the
    bot token and the age check; it returns or throws. *)
Variable validateTelegramLogin : AuthData -> Result unit.
(** [generateToken(user)] and [jwt.verify(token, secret)]. *)
Variable generateToken : User -> string.
Variable jwt_verify : string -> Result Z.

(** The accounts collection, keyed by [telegramId]. *)
Local Abbreviation M := (Eff (gmap Z User) Event).

Definition findOne (telegramId : Z) : M (option User) :=
  fun db => (Ok (db !! telegramId), db, []).

(** [user.save()]: schema validation, the pre-save hook, then the write. *)
Definition save (user : User) : M User :=
  fun db =>
    match firstName user with
    | None => (Throw "ValidationError: firstName is required", db, [])
    | Some _ => (Ok user, <[telegramId user := user]> db, [])
    end.

(** [userSchema.methods.updateLastInteraction] *)
Definition updateLastInteraction (now : Z) (user : User) : M User :=
  save {| telegramId := telegramId user;
          username := username user;
          firstName := firstName user;
          lastName := lastName user;
          lastInteraction := now;
          lastActiveTime := now;
          messageCount := messageCount user;
          isBanned := isBanned user;
          banReason := banReason user |}.

(** [new User({ telegramId, username, firstName, lastName })] with the
    schema defaults. *)
Definition new_User (now : Z) (a : AuthData) : User :=
  {| telegramId := id a;
     username := auth_username a;
     firstName := first_name a;
     lastName := last_name a;
     lastInteraction := now;
     lastActiveTime := now;
     messageCount := 0;
     isBanned := false;
     banReason := None |}.

Definition invalid_login_message (message : string) : bool :=
  JS.includes message "Invalid authentication data"
  || JS.includes message "Hash is required"
  || JS.includes message "too old".

(** [router.post('/telegram', ...)] *)
Definition post_telegram (now : Z) (authData : AuthData) : M Reply :=
  try_catch
    ((* Validate Telegram authentication data *)
     do _ <- (fun db => (validateTelegramLogin authData, db, []));
     (* Get or create user *)
     do found <- findOne (id authData);
     do user <-
       match found with
       | None =>
           (* Create new user *)
           do user <- save (new_User now authData);
           exec emit (LogInfo "New user registered via API");
           ret user
       | Some user =>
           (* Update existing user info *)
           let updated :=
             negb (bool_decide (username user = auth_username authData))
             || negb (bool_decide (firstName user = first_name authData))
             || negb (bool_decide (lastName user = last_name authData)) in
           let user :=
             {| telegramId := telegramId user;
                username := auth_username authData;
                firstName := first_name authData;
                lastName := last_name authData;
                lastInteraction := lastInteraction user;
                lastActiveTime := lastActiveTime user;
                messageCount := messageCount user;
                isBanned := isBanned user;
                banReason := banReason user |} in
           do user <- (if updated then save user else ret user);
           updateLastInteraction now user
       end;
     (* Check if user is banned *)
     if isBanned user
     then ret (Forbidden "Your account has been banned" (banReason user))
     else ret (Json (generateToken user) user))
    (fun error =>
       exec emit (LogError "Telegram authentication error:");
       if invalid_login_message error
       then ret (BadRequest error)
       else ret ServerError).

(** [telegramAuth], given the bearer token of the request. *)
Definition telegramAuth (now : Z) (token : option string) : M Reply :=
  try_catch
    (match token with
     | None => ret (Unauthorized "No authentication token provided")
     | Some token =>
         (* Verify JWT token *)
         do decoded <- (fun db => (jwt_verify token, db, []));
         do found <- findOne decoded;
         match found with
         | None => ret (Unauthorized "Invalid authentication token")
         | Some user =>
             (* Check if user is banned *)
             if isBanned user
             then ret (Forbidden "Your account has been banned" (banReason user))
             else
               (* Update last interaction *)
               do user <- updateLastInteraction now user;
               ret (NextWith user)
         end
     end)
    (fun error =>
       exec emit (LogError "Authentication error:");
       (* [error] is [error.name] here *)
       if String.eqb error "JsonWebTokenError"
       then ret (Unauthorized "Invalid authentication token")
       else if String.eqb error "TokenExpiredError"
       then ret (Unauthorized "Authentication token has expired")
       else ret ServerError).
End Handlers.

End Auth.

(** ** Vocabulary for the properties of the AI service *)

Module AIServiceSpec.
Import JS AIService.

(** Some keyword of the set occurs in the text. *)
Definition triggers (lowercaseText : string) (keywords : list string) : Prop :=
  exists kw, In kw keywords /\ substring kw lowercaseText.

Definition crop_entity (c : string) : Entity := {| type := "crop"; value := c |}.
Definition location_entity (l : string) : Entity :=
  {| type := "location"; value := l |}.

Definition is_backend_call (ev : Event) : bool :=
  match ev with
  | BackendCall _ => true
  | LogError _ => false
  end.

(** The intents that always go to the advice backend, each with its prompt
    template and its canned reply. *)
Definition advice_domains : list (string * ((string -> string) * Response)) :=
  [ ("pest", (pest_prompt, pest_fallback));
    ("irrigation", (irrigation_prompt, irrigation_fallback));
    ("fertilizer", (fertilizer_prompt, fertilizer_fallback)) ].

(** The shape shared by the three advice generators. *)
Definition advise {Env : Type} (generateContent : string -> Env -> Result string * Env)
    (prompt : string) (fallback : Response) (message : string)
    : Eff Env Event Response :=
  try_catch
    (do text <- callBackend Env generateContent prompt;
     ret {| text := text; confidence := 0.8; keyboard := None |})
    (fun error => exec emit (LogError message); ret fallback).

(** Collaborators for concrete runs: a backend that is down, a random
    generator that always gives 0, a news provider that is down. *)
Definition backend_down : string -> unit -> Result string * unit :=
  fun _ s => (Throw "backend unavailable", s).

Definition random_zero : nat -> unit -> nat * unit := fun _ s => (0%nat, s).

Definition news_down : string -> unit -> Result (NewsResult unit) * unit :=
  fun _ s => (Throw "news unavailable", s).

Definition format_news : list unit -> nat -> Result string := fun _ _ => Ok "".

Definition generate_backend_down : string -> list Entity -> string -> User
    -> Eff unit Event Response :=
  generateResponse unit backend_down toUpperCase_ascii random_zero unit
                   news_down format_news.

Definition farmer : User :=
  {| firstName := "Wanjiru"; agriculturalProfile := None |}.

Definition question : string := "What's the best time to plant corn?".

Definition corn : Entity := {| type := "crop"; value := "corn" |}.

Definition corn_facts : Response :=
  {| text :=
       "🌾 *Corn Information*" ++ nl ++ nl ++
       "🌱 Planting Time: April-June" ++ nl ++
       "🌾 Harvest Time: August-October" ++ nl ++
       "💧 Water Requirement: High" ++ nl ++
       "🦠 Common Diseases: Corn Borer, Leaf Blight" ++ nl ++
       "💡 Tip: Requires warm weather and regular watering";
     confidence := 0.9;
     keyboard := None |}.

End AIServiceSpec.

(** ** Vocabulary for the properties of the scheduled jobs *)

Module CronJobsSpec.
Import CronJobs.

Definition has_coordinates (u : User) : bool :=
  match profile u ≫= location with
  | Some loc => bool_decide (is_Some (coordinates loc))
  | None => false
  end.

(** Weather eligibility as the specification words it. *)
Definition weather_eligible (u : User) : bool :=
  weather (notificationSettings u) && negb (isBanned u) && has_coordinates u.

(** Recipients handed to the delivery channel, in order. *)
Definition sent_to (t : list Event) : list Z :=
  flat_map (fun ev => match ev with
                      | SendMessage chatId _ _ => [chatId]
                      | _ => []
                      end) t.

Definition is_delivered (ev : Event) : bool :=
  match ev with SendMessage _ _ true => true | _ => false end.
Definition is_failed_send (ev : Event) : bool :=
  match ev with SendMessage _ _ false => true | _ => false end.
Definition is_warning (ev : Event) : bool :=
  match ev with LogWarn _ _ => true | _ => false end.
Definition is_error (ev : Event) : bool :=
  match ev with LogError _ => true | _ => false end.

(** Successful sends, failed sends, logged per-recipient failures. *)
Definition delivered (t : list Event) : nat := length (List.filter is_delivered t).
Definition failed_sends (t : list Event) : nat :=
  length (List.filter is_failed_send t).
Definition warned (t : list Event) : nat := length (List.filter is_warning t).

(** The recipients in the order in which their turn ended, by a successful
    send or by a logged failure. *)
Definition outcome_ids (t : list Event) : list Z :=
  flat_map (fun ev => match ev with
                      | SendMessage chatId _ true => [chatId]
                      | LogWarn _ chatId => [chatId]
                      | _ => []
                      end) t.

(** What one turn of a notification loop leaves in the trace. *)
Inductive turn_trace (chatId : Z) : list Event -> Prop :=
| turn_render_failed message :
    turn_trace chatId [LogWarn message chatId]
| turn_delivered text ms :
    turn_trace chatId [SendMessage chatId text true; Delay ms]
| turn_send_failed text message :
    turn_trace chatId [SendMessage chatId text false; LogWarn message chatId].

(** A turn that reached the delivery channel. *)
Inductive turn_sent (chatId : Z) : list Event -> Prop :=
| sent_delivered text ms :
    turn_sent chatId [SendMessage chatId text true; Delay ms]
| sent_failed text message :
    turn_sent chatId [SendMessage chatId text false; LogWarn message chatId].

(** The weather provider and the renderer never fail. *)
Definition weather_rendering_succeeds (Env Weather : Type)
    (getAgriculturalWeather : Location -> option string -> Env -> Result Weather * Env)
    (formatWeatherUpdateMessage : Weather -> User -> Result string) : Prop :=
  (forall loc crop s, exists w s', getAgriculturalWeather loc crop s = (Ok w, s')) /\
  (forall w u, exists text, formatWeatherUpdateMessage w u = Ok text).

Definition market_rendering_succeeds (Env MarketData : Type)
    (getMarketPrices : list string -> option Location -> Env -> Result MarketData * Env)
    (formatMarketUpdateMessage : MarketData -> User -> Result string) : Prop :=
  (forall crops loc s, exists d s', getMarketPrices crops loc s = (Ok d, s')) /\
  (forall d u, exists text, formatMarketUpdateMessage d u = Ok text).

(** Collaborators for concrete runs: a weather provider that is down or
    up, a delivery channel that refuses the listed recipients. *)
Definition weather_down : Location -> option string -> unit -> Result unit * unit :=
  fun _ _ s => (Throw "Unable to fetch weather data", s).
Definition weather_up : Location -> option string -> unit -> Result unit * unit :=
  fun _ _ s => (Ok tt, s).
Definition market_up : list string -> option Location -> unit -> Result unit * unit :=
  fun _ _ s => (Ok tt, s).
Definition channel_refusing (refused : list Z) : Z -> string -> unit -> Result unit * unit :=
  fun chatId _ s =>
    if existsb (Z.eqb chatId) refused then (Throw "ETELEGRAM: 403 Forbidden", s)
    else (Ok tt, s).
Definition render_fixed (text : string) : unit -> User -> Result string :=
  fun _ _ => Ok text.

Definition nairobi : Location :=
  {| country := Some "Kenya"; state := None; city := Some "Nairobi";
     coordinates := Some {| latitude := -1.29; longitude := 36.82 |} |}.

Definition account (chatId : Z) (loc : option Location) (banned : bool) : User :=
  {| telegramId := chatId;
     firstName := "Achieng";
     profile := Some {| cropTypes := ["corn"]; location := loc |};
     notificationSettings :=
       {| weather := true; marketPrices := true; tips := true; alerts := true |};
     isBanned := banned |}.

Definition directory : list User :=
  [ account 1 (Some nairobi) false;
    account 2 None false;
    account 3 (Some nairobi) true;
    account 4 (Some nairobi) false;
    account 5 (Some nairobi) false ].

End CronJobsSpec.

(** Vocabulary for [cleanupOldData]. *)
Module CleanupSpec.
Import CronJobs.

(** The conversation records of one account. *)
Definition mine (uid : Z) (cs : list Conversation) : list Conversation :=
  List.filter (fun c => (userId c =? uid)%Z) cs.

(** The effect of one turn of the loop of [cleanupOldData] on the
    conversation records. *)
Definition trim_user (cs : list Conversation) (user : User) : list Conversation :=
  let found := find_beyond_1000 (telegramId user) cs in
  if (0 <? length found)%nat
  then deleteMany_in (map _id found) cs
  else cs.

(** What trimming leaves of one account's records. *)
Definition keep_latest (l : list Conversation) : list Conversation :=
  deleteMany_in (map _id (skipn 1000 (sort_desc l))) l.

(** Newest first. *)
Definition descending (l : list Conversation) : Prop :=
  StronglySorted (fun a b => (createdAt b <= createdAt a)%Z) l.

Definition day : Z := 24 * 60 * 60 * 1000.

Definition farmer_account : User :=
  {| telegramId := 7;
     firstName := "Otieno";
     profile := None;
     notificationSettings :=
       {| weather := true; marketPrices := true; tips := true; alerts := true |};
     isBanned := false |}.

(** One account with a single record written 90 days before the run. *)
Definition db_old_record : Db :=
  {| agriculturalData := [];
     users := [farmer_account];
     conversations := [ {| _id := 1; userId := 7; createdAt := 10 * day |} ] |}.

(** One account with 1001 records, all written in the last second before
    the run at [100 * day]; record [i] is written at [100 * day - 1001 + i]. *)
Definition db_busy_account : Db :=
  {| agriculturalData := [];
     users := [farmer_account];
     conversations :=
       map (fun i => {| _id := Z.of_nat i; userId := 7;
                        createdAt := 100 * day - 1001 + Z.of_nat i |})
           (seq 0 1001) |}.

End CleanupSpec.

(** Vocabulary for the rate limiter. *)
Module RateLimiterSpec.
Import RateLimiter.

(** Thirty commands in the first instant of a window. *)
Definition bot_burst : list Z := repeat 0%Z 30.

(** Every stored trust score lies in [0, 1]. *)
Definition scores_in_range (this : AdaptiveRateLimiter) : Prop :=
  forall userId score,
    userScores this !! userId = Some score -> (0 <= score /\ score <= 1)%Q.

End RateLimiterSpec.

(** Vocabulary for the login handlers. *)
Module AuthSpec.
Import Auth.

(** Login data that passes validation, and a fixed token. *)
Definition accept_login : AuthData -> Result unit := fun _ => Ok tt.
Definition fixed_token : User -> string := fun _ => "jwt".
Definition verify_as (telegramId : Z) : string -> Result Z := fun _ => Ok telegramId.

Definition banned_account : User :=
  {| telegramId := 42;
     username := Some "mkulima";
     firstName := Some "Juma";
     lastName := None;
     lastInteraction := 1000;
     lastActiveTime := 1000;
     messageCount := 17;
     isBanned := true;
     banReason := Some "spam" |}.

Definition accounts : gmap Z User := {[ 42%Z := banned_account ]}.

(** The banned account logs in again, under a new user name. *)
Definition login_again : AuthData :=
  {| id := 42;
     auth_username := Some "mkulima_ke";
     first_name := Some "Juma";
     last_name := None;
     hash := Some "5f2c" |}.

(** [user] with the names of the login data and the interaction times set
    to [now]: what the login handler writes for an existing account. *)
Definition touched (now : Z) (a : AuthData) (user : User) : User :=
  {| telegramId := telegramId user;
     username := auth_username a;
     firstName := first_name a;
     lastName := last_name a;
     lastInteraction := now;
     lastActiveTime := now;
     messageCount := messageCount user;
     isBanned := isBanned user;
     banReason := banReason user |}.

End AuthSpec.

(** ** Effects: a computation run inside another *)

Module EffMore.

(** A computation with events [E1] run inside one with events [E2]. *)
Definition lift {Env E1 E2 A} (f : E1 -> E2) (m : Eff Env E1 A) : Eff Env E2 A :=
  fun s => match m s with (r, s', t) => (r, s', map f t) end.

End EffMore.

(** ** [processMessage], and what its callers do with a reply *)

Module AIServiceMore.
Import JS AIService AIServiceSpec.

(** The object [processMessage] returns.  The reply of its [catch] branch
    has no [keyboard], [entities], [model] or [processingTime]. *)
Record Processed : Type :=
  { out_text : string;
    out_keyboard : option Keyboard;
    out_intent : string;
    out_entities : option (list Entity);
    out_confidence : Q;
    out_model : option string;
    out_processingTime : option Z }.

Definition error_reply : Processed :=
  {| out_text := "I apologize, but I'm having trouble processing your request right now. Please try again.";
     out_keyboard := None;
     out_intent := "error";
     out_entities := None;
     out_confidence := 0;
     out_model := None;
     out_processingTime := None |}.

Section Process.
Variable Env : Type.
Variable generateContent : string -> Env -> Result string * Env.
Variable toLowerCase : string -> string.
Variable toUpperCase : string -> string.
Variable random_below : nat -> Env -> nat * Env.
Variable Article : Type.
Variable getNewsByCategory : string -> Env -> Result (NewsResult Article) * Env.
Variable formatNewsForTelegram : list Article -> nat -> Result string.
(** [Date.now()] *)
Variable Date_now : Env -> Z * Env.

Definition now : Eff Env Event Z :=
  fun s => match Date_now s with (t, s') => (Ok t, s', []) end.

(** [processMessage(text, user)].  [text] is [None] when the caller passes
    something that is not a string (a message without text): the call
    [text.toLowerCase()] in [detectIntent] then throws. *)
Definition processMessage (text : option string) (user : User)
    : Eff Env Event Processed :=
  try_catch
    (do startTime <- now;
     do text <- match text with
                | Some t => ret t
                | None => throw "TypeError: Cannot read properties of undefined"
                end;
     (* Detect intent *)
     let intent := detectIntent toLowerCase text in
     (* Extract entities *)
     let entities := extractEntities toLowerCase text in
     (* Generate response based on intent *)
     do response <- generateResponse Env generateContent toUpperCase random_below
                      Article getNewsByCategory formatNewsForTelegram
                      intent entities text user;
     do endTime <- now;
     let processingTime := (endTime - startTime)%Z in
     ret {| out_text := AIService.text response;
            out_keyboard := keyboard response;
            out_intent := intent;
            out_entities := Some entities;
            out_confidence := confidence response;
            out_model := Some "agribot-gemini-v1";
            out_processingTime := Some processingTime |})
    (fun error =>
       exec emit (LogError "Error processing AI message:");
       ret error_reply).
End Process.

(** *** Vocabulary *)

Definition backend_calls (t : list Event) : nat :=
  length (List.filter is_backend_call t).

(** The intents whose generators have no call of the advice backend. *)
Definition offline_intents : list string :=
  ["greeting"; "weather"; "market"; "news"; "help"].

(** The names [detectIntent] can return. *)
Definition intent_names : list string := map fst intents ++ ["general"].

(** The confidence values that occur in the generators. *)
Definition confidence_levels : list Q := [0.5; 0.6; 0.7; 0.8; 0.9; 1.0]%Q.

(** The advice backend fails at every call. *)
Definition backend_always_fails {Env : Type}
    (generateContent : string -> Env -> Result string * Env) : Prop :=
  forall prompt s, exists e s', generateContent prompt s = (Throw e, s').

(** The crops that [cropDatabase] has a fact sheet for, in the order in
    which [extractEntities] looks for them. *)
Definition fact_sheet_crops : list string := ["wheat"; "corn"; "rice"].

(** All the [callback_data] values on the keyboards of a reply. *)
Definition callback_data_of (kb : option Keyboard) : list string :=
  match kb with
  | Some rows => map callback_data (concat rows)
  | None => []
  end.

(** The [callback_data] values that the generators put on keyboards. *)
Definition generator_callbacks : list string :=
  [ "weather"; "crops"; "market"; "tips";
    "current_weather"; "weather_forecast";
    "weather_info"; "market_info"; "farming_tips"; "crop_info";
    "crop_info:wheat"; "crop_info:corn"; "crop_info:rice"; "crop_info:soybeans";
    "market_grains"; "market_vegetables";
    "news_crops"; "news_market"; "news_technology"; "news_sustainability";
    "news_refresh"; "news_general";
    "advice"; "help" ].

(** What every generator guarantees about its run. *)
Definition well_shaped {Env : Type} (calls : nat)
    (run : Result Response * Env * list Event)
    : Prop :=
  exists r s' t,
    run = (Ok r, s', t) /\
    In (confidence r) confidence_levels /\
    incl (callback_data_of (keyboard r)) generator_callbacks /\
    (backend_calls t <= calls)%nat.

End AIServiceMore.

(** ** The [intent] field of the [Conversation] model *)

Module ConversationModel.

(** [enum] of the [intent] path of [conversationSchema]. *)
Definition intent_enum : list string :=
  [ "greeting"; "weather_query"; "crop_advice"; "market_prices";
    "pest_control"; "irrigation"; "fertilizer"; "disease_diagnosis";
    "general_agriculture"; "help"; "settings"; "subscription";
    "feedback"; "other" ].

End ConversationModel.

(** ** The [BotHandler] class: callback queries *)

Module BotHandler.

(** The keys of [this.callbackHandlers], as [setupCallbackHandlers]
    registers them. *)
Definition callbackHandlers : list string :=
  [ "setup_profile"; "toggle_notifications"; "select_crops";
    "weather_location"; "market_crop";
    "news_crops"; "news_market"; "news_technology"; "news_sustainability";
    "news_general"; "news_refresh" ].

(** [data.split(':')[0]]: the part before the first colon. *)
Fixpoint split_colon_head (data : string) : string :=
  match data with
  | EmptyString => EmptyString
  | String c rest =>
      if Ascii.eqb c ":" then EmptyString else String c (split_colon_head rest)
  end.

Inductive Event : Type :=
| Handled (action : string) (data : string)   (* a registered handler ran to its end *)
| HandlerFailed (action : string) (data : string)
| Answered (queryId : string) (alert : bool)  (* [answerCallbackQuery] *)
| LogError (message : string).

Section Callbacks.
Variable Env : Type.
(** The handler registered under a key, applied to the query. *)
Variable handler : string -> string -> Env -> Result unit * Env.
(** [this.bot.answerCallbackQuery(id, options)] *)
Variable answerCallbackQuery : string -> bool -> Env -> Result unit * Env.

Definition run_handler (action data : string) : Eff Env Event unit :=
  fun s =>
    match handler action data s with
    | (Ok u, s') => (Ok u, s', [Handled action data])
    | (Throw e, s') => (Throw e, s', [HandlerFailed action data])
    end.

Definition answer (queryId : string) (alert : bool) : Eff Env Event unit :=
  fun s =>
    match answerCallbackQuery queryId alert s with
    | (r, s') => (r, s', [Answered queryId alert])
    end.

(** [handleCallbackQuery(query)] with [query.id] and [query.data]. *)
Definition handleCallbackQuery (queryId data : string) : Eff Env Event unit :=
  try_catch
    (let action := split_colon_head data in
     exec (if existsb (String.eqb action) callbackHandlers
           then run_handler action data
           else ret tt);
     (* Answer callback query to remove loading state *)
     answer queryId false)
    (fun error =>
       exec emit (LogError "Error handling callback query:");
       answer queryId true).
End Callbacks.

Definition is_handler_event (ev : Event) : bool :=
  match ev with
  | Handled _ _ | HandlerFailed _ _ => true
  | _ => false
  end.

End BotHandler.

(** ** JavaScript numbers as rationals *)

Module Num.

(** [a < b], [a <= b] *)
Definition ltb (a b : Q) : bool := negb (Qle_bool b a).
Definition leb (a b : Q) : bool := Qle_bool a b.

(** [Math.round(x)]: the nearest integer, halves upwards. *)
Definition Math_round (x : Q) : Z := Qfloor (x + (1 # 2)).

(** [Math.floor(x)], [Math.abs(n)] *)
Definition Math_floor (x : Q) : Z := Qfloor x.
Definition Math_abs (n : Z) : Z := Z.abs n.

End Num.

(** ** [src/services/weatherService.js]: alerts and the most common
       condition *)

Module WeatherService.
Import CronJobs.
Local Open Scope Q_scope.

(** [weather.current], with the readings the alerts look at. *)
Record Current : Type := { temperature : Q; windSpeed : Q }.

Record Alert : Type :=
  { type : string; title : string; message : string; urgency : string }.

Inductive Event : Type :=
| LogError (message : string).

Definition generateWeatherAlerts (current : Current) : list Alert :=
  let alerts := [] in
  (* Extreme temperature alerts *)
  let alerts :=
    if Num.leb (temperature current) 0
    then alerts ++ [ {| type := "critical";
                        title := "Freezing Temperature";
                        message := "Protect crops from frost damage";
                        urgency := "immediate" |} ]
    else alerts in
  let alerts :=
    if Num.leb 40 (temperature current)
    then alerts ++ [ {| type := "critical";
                        title := "Extreme Heat";
                        message := "Provide shade and extra water for crops";
                        urgency := "immediate" |} ]
    else alerts in
  (* Wind alerts *)
  let alerts :=
    if Num.ltb 40 (windSpeed current)
    then alerts ++ [ {| type := "warning";
                        title := "Strong Winds";
                        message := "Secure equipment and check for crop damage";
                        urgency := "soon" |} ]
    else alerts in
  alerts.

Section Alerts.
Variable Env : Type.
(** [this.getCurrentWeather(location)], reduced to [weather.current];
    [location] is whatever the caller passes, also [undefined]. *)
Variable getCurrentWeather : option Location -> Env -> Result Current * Env.

Definition getWeatherAlerts (location : option Location)
    : Eff Env Event (list Alert) :=
  try_catch
    (do weather <- (fun s => match getCurrentWeather location s with
                             | (r, s') => (r, s', [])
                             end);
     let alerts := generateWeatherAlerts weather in
     ret alerts)
    (fun error =>
       exec emit (LogError "Error fetching weather alerts:");
       ret []).
End Alerts.

(** [counts[x]] after the [forEach] of [getMostCommonCondition]: how often
    [x] occurs. *)
Fixpoint count (x : string) (xs : list string) : nat :=
  match xs with
  | [] => 0%nat
  | y :: rest => ((if String.eqb x y then 1 else 0) + count x rest)%nat
  end.

(** [Object.keys(counts)]: the distinct entries in the order of their
    first occurrence (no weather description or icon code is an integer
    index, which would be listed first, or named like a property of
    [Object.prototype]). *)
Fixpoint keys_from (seen : list string) (xs : list string) : list string :=
  match xs with
  | [] => []
  | x :: rest =>
      if existsb (String.eqb x) seen then keys_from seen rest
      else x :: keys_from (x :: seen) rest
  end.

Definition keys (xs : list string) : list string := keys_from [] xs.

(** [getMostCommonCondition(conditions)], and [getMostCommonIcon], which
    has the same body: [Object.keys(counts).reduce((a, b) => counts[a] >
    counts[b] ? a : b)].  [reduce] of an empty array throws. *)
Definition getMostCommonCondition (conditions : list string) : Result string :=
  match keys conditions with
  | [] => Throw "TypeError: Reduce of empty array with no initial value"
  | k :: rest =>
      Ok (fold_left (fun a b => if (count b conditions <? count a conditions)%nat
                                then a else b)
                    rest k)
  end.

End WeatherService.

(** ** [src/services/marketService.js]: prices and alerts *)

Module MarketService.
Import JS CronJobs.
Local Open Scope Q_scope.

Record Fallback : Type := { fb_price : Q; fb_unit : string; fb_currency : string }.

(** [this.fallbackPrices] *)
Definition fallbackPrices : list (string * Fallback) :=
  [ ("wheat",    {| fb_price := 250; fb_unit := "per quintal"; fb_currency := "USD" |});
    ("corn",     {| fb_price := 200; fb_unit := "per quintal"; fb_currency := "USD" |});
    ("rice",     {| fb_price := 280; fb_unit := "per quintal"; fb_currency := "USD" |});
    ("soybeans", {| fb_price := 320; fb_unit := "per quintal"; fb_currency := "USD" |});
    ("cotton",   {| fb_price := 450; fb_unit := "per quintal"; fb_currency := "USD" |}) ].

(** [this.fallbackPrices[key]] for the table's own keys (a crop is not
    named like a property of [Object.prototype]). *)
Fixpoint lookup_fallback (key : string) (table : list (string * Fallback))
    : option Fallback :=
  match table with
  | [] => None
  | (k, f) :: rest => if String.eqb k key then Some f else lookup_fallback key rest
  end.

(** [priceData.price].  [getCropPrice] builds [{ value, currency, unit }];
    [getFallbackPrice] puts the table's entry [{ price, unit, currency }]
    there, so that the amount sits under [price] and [value] is absent. *)
Record Price : Type :=
  { value : option Q; amount : option Q; currency : string; unit : string }.
Record PriceChange : Type := { percentage : Q; direction : string }.

Record PriceData : Type :=
  { crop : string;
    variety : string;
    market : string;
    location : Location;
    price : Price;
    priceChange : PriceChange;
    quality : string;
    date : Z }.

Record Alert : Type :=
  { type : string;
    title : string;
    message : string;
    alert_crop : string;
    priority : string;
    timestamp : Z }.

Inductive Event : Type :=
| LogInfo (message : string)
| LogWarn (message : string)
| LogError (message : string).

(** [location || { country: 'Global', state: '', city: 'Average' }] *)
Definition location_or_global (location : option Location) : Location :=
  match location with
  | Some l => l
  | None => {| country := Some "Global"; state := Some ""; city := Some "Average";
               coordinates := None |}
  end.

(** [location?.city || dflt] *)
Definition city_or (location : option Location) (dflt : string) : string :=
  or_str (default "" (location ≫= city)) dflt.

Section Prices.
Variable Env : Type.
Variable toLowerCase : string -> string.
Variable toUpperCase : string -> string.
(** [Math.random()] and [Date.now()] *)
Variable Math_random : Env -> Q * Env.
Variable Date_now : Env -> Z * Env.
(** [new AgriculturalData({ marketPrices, dataSource: 'market-api',
      lastUpdated, validUntil }).save()] *)
Variable saveMarketData :
  list PriceData -> Z -> Z -> Env -> Result Datatypes.unit * Env.
(** [AgriculturalData.find({ 'marketPrices.0': { $exists: true } })
      .sort({ lastUpdated: -1 }).limit(1)], as the [marketPrices] of each
    document found. *)
Variable findCachedPrices : Env -> Result (list (list PriceData)) * Env.
(** How a template literal prints a number, or [undefined]. *)
Variable show_number : option Q -> string.

Local Abbreviation M := (Eff Env Event).

Definition random : M Q :=
  fun s => match Math_random s with (r, s') => (Ok r, s', []) end.

Definition now : M Z :=
  fun s => match Date_now s with (t, s') => (Ok t, s', []) end.

(** [getCropPrice(crop, location)].  The change is at most 5 percent up
    to the rounding of [Math.round]; the floating-point operations of the
    code differ from the exact ones here by far less than the half that
    [Math.round] decides on at these values. *)
Definition getCropPrice (crop : string) (location : option Location) : M PriceData :=
  try_catch
    (let basePrice :=
       match lookup_fallback (toLowerCase crop) fallbackPrices with
       | Some f => if Qeq_bool (fb_price f) 0 then 200 else fb_price f
       | None => 200
       end in
     do r1 <- random;
     let variance := ((r1 - 0.5) * 0.2)%Q in (* +-10% variance *)
     let currentPrice := Num.Math_round (basePrice * (1 + variance)) in
     do r2 <- random;
     let priceChange := ((r2 - 0.5) * 0.1)%Q in (* +-5% change *)
     let direction :=
       if Num.ltb 0 priceChange then "up"
       else if Num.ltb priceChange 0 then "down" else "stable" in
     do today <- now;
     ret {| crop := toLowerCase crop;
            variety := "standard";
            market := city_or location "Global";
            location := location_or_global location;
            price := {| value := Some (inject_Z currentPrice);
                        amount := None;
                        currency := "USD";
                        unit := "per quintal" |};
            priceChange :=
              {| percentage :=
                   inject_Z (Num.Math_abs (Num.Math_round (priceChange * 100)));
                 direction := direction |};
            quality := "Grade A";
            date := today |})
    (fun error =>
       exec emit (LogError "Error fetching price:");
       throw error).

Definition getFallbackPrice (crop : string) (location : option Location)
    : M PriceData :=
  match lookup_fallback (toLowerCase crop) fallbackPrices with
  | None =>
      do today <- now;
      ret {| crop := toLowerCase crop;
             variety := "standard";
             market := "Unknown";
             location := location_or_global location;
             price := {| value := Some 200; amount := None;
                         currency := "USD"; unit := "per quintal" |};
             priceChange := {| percentage := 0; direction := "stable" |};
             quality := "Standard";
             date := today |}
  | Some fallback =>
      do r1 <- random;
      do r2 <- random;
      do today <- now;
      ret {| crop := toLowerCase crop;
             variety := "standard";
             market := city_or location "Global";
             location := location_or_global location;
             price := {| value := None;
                         amount := Some (fb_price fallback);
                         currency := fb_currency fallback;
                         unit := fb_unit fallback |};
             priceChange :=
               {| percentage := inject_Z (Num.Math_floor (r1 * 5));
                  direction := if Num.ltb 0.5 r2 then "up" else "down" |};
             quality := "Standard";
             date := today |}
  end.

Definition storeMarketData (marketData : list PriceData) : M Datatypes.unit :=
  try_catch
    (do lastUpdated <- now;
     do t <- now;
     let validUntil := (t + 4 * 60 * 60 * 1000)%Z in (* Valid for 4 hours *)
     exec (fun s => match saveMarketData marketData lastUpdated validUntil s with
                    | (r, s') => (r, s', [])
                    end);
     emit (LogInfo "Market data stored successfully"))
    (fun error => emit (LogError "Error storing market data:")).

(** The [for (const crop of crops)] loop of [getMarketPrices], which pushes
    one entry per crop. *)
Fixpoint collect_prices (crops : list string) (location : option Location)
    : M (list PriceData) :=
  match crops with
  | [] => ret []
  | crop :: rest =>
      do priceData <-
        try_catch (getCropPrice crop location)
          (fun error =>
             exec emit (LogWarn "Failed to get price, using fallback");
             getFallbackPrice crop location);
      do others <- collect_prices rest location;
      ret (priceData :: others)
  end.

Definition getMarketPrices (crops : list string) (location : option Location)
    : M (list PriceData) :=
  try_catch
    (do marketData <- collect_prices crops location;
     (* Store in database *)
     exec storeMarketData marketData;
     ret marketData)
    (fun error =>
       exec emit (LogError "Error fetching market prices:");
       (* Return cached data if available *)
       do cachedData <- (fun s => match findCachedPrices s with
                                  | (r, s') => (r, s', [])
                                  end);
       match cachedData with
       | marketPrices :: _ =>
           ret (List.filter
                  (fun price => existsb (String.eqb (toLowerCase (crop price))) crops)
                  marketPrices)
       | [] =>
           (* Return fallback prices *)
           (fix fallbacks (cs : list string) : M (list PriceData) :=
              match cs with
              | [] => ret []
              | c :: rest =>
                  do p <- getFallbackPrice c location;
                  do ps <- fallbacks rest;
                  ret (p :: ps)
              end) crops
       end).

(** The alert that [getMarketAlerts] pushes for one price. *)
Definition alert_for (priceData : PriceData) (today : Z) : Alert :=
  let up := String.eqb (direction (priceChange priceData)) "up" in
  {| type := if up then "opportunity" else "warning";
     title := toUpperCase (charAt0 (crop priceData)) ++ slice1 (crop priceData)
              ++ " Price " ++ (if up then "Surge" else "Drop");
     message := crop priceData ++ " prices "
                ++ (if up then "increased" else "decreased") ++ " by "
                ++ show_number (Some (percentage (priceChange priceData))) ++ "% to $"
                ++ show_number (value (price priceData)) ++ "/"
                ++ unit (price priceData);
     alert_crop := crop priceData;
     priority := if Num.ltb 15 (percentage (priceChange priceData))
                 then "high" else "medium";
     timestamp := today |}.

(** The [prices.forEach] of [getMarketAlerts]. *)
Fixpoint alerts_of (prices : list PriceData) : M (list Alert) :=
  match prices with
  | [] => ret []
  | priceData :: rest =>
      (* Generate alerts based on significant price changes *)
      do mine <-
        (if Num.ltb 10 (percentage (priceChange priceData))
         then do today <- now; ret [alert_for priceData today]
         else ret []);
      do others <- alerts_of rest;
      ret (mine ++ others)
  end.

Definition getMarketAlerts (user : User) : M (list Alert) :=
  try_catch
    (let userCrops := default [] (cropTypes <$> profile user) in
     let userLocation := profile user ≫= CronJobs.location in
     (* Get current prices for user's crops *)
     if (0 <? length userCrops)%nat
     then
       do prices <- getMarketPrices userCrops userLocation;
       alerts_of prices
     else ret [])
    (fun error =>
       exec emit (LogError "Error generating market alerts:");
       ret []).
End Prices.

End MarketService.

(** ** [src/cron/cronJobs.js]: the tip job and the two alert jobs *)

Module CronJobsMore.
Import JS CronJobs EffMore.

(** A tip of an [AgriculturalData] document, with the fields the job
    reads. *)
Record Tip : Type :=
  { title : string;
    content : string;
    category : option string;
    applicableCrops : option (list string) }.

(** The fallback tips of [getDailyTips]. *)
Definition fallbackTips : list Tip :=
  [ {| title := "Early Morning Watering";
       content := "Water your crops early in the morning to reduce evaporation and prevent fungal diseases.";
       category := Some "irrigation";
       applicableCrops := None |};
    {| title := "Crop Rotation Benefits";
       content := "Rotate your crops to improve soil health and reduce pest and disease problems.";
       category := Some "planting";
       applicableCrops := None |};
    {| title := "Soil Testing";
       content := "Test your soil regularly to understand nutrient levels and pH for optimal crop growth.";
       category := Some "soil_management";
       applicableCrops := None |} ].

(** What a job leaves behind: its own log lines, sends and pauses, and the
    log lines of the services it calls. *)
Inductive Event : Type :=
| Job (e : CronJobs.Event)
| Weather (e : WeatherService.Event)
| Market (e : MarketService.Event).

(** [xs[i]] for an integer [i]. *)
Definition index {A} (xs : list A) (i : Z) : option A :=
  if (i <? 0)%Z then None else nth_error xs (Z.to_nat i).

(** How a template literal prints a string that may be absent. *)
Definition show_string (s : option string) : string := default "undefined" s.

Section Jobs.
Variable Env : Type.
(** [profile.interests], a field of the profile that the jobs of
    [CronJobs] do not read. *)
Variable profile_interests : Profile -> list string.
(** [Math.random()], [Date.now()], [new Date().getHours()] and
    [date.toLocaleString()] *)
Variable Math_random : Env -> Q * Env.
Variable Date_now : Env -> Z * Env.
Variable getHours : Env -> Z * Env.
Variable toLocaleString : Z -> string.
(** [AgriculturalData.find({ 'tips.0': { $exists: true } }, { tips: 1 })
      .limit(10)], as the [tips] of each document found. *)
Variable findTips : Env -> Result (list (list Tip)) * Env.
(** [this.bot.sendMessage(chatId, text, options)] *)
Variable sendMessage : Z -> string -> Env -> Result Datatypes.unit * Env.
(** The collaborators of the two services. *)
Variable getCurrentWeather :
  option Location -> Env -> Result WeatherService.Current * Env.
Variable toLowerCase : string -> string.
Variable toUpperCase : string -> string.
Variable saveMarketData :
  list MarketService.PriceData -> Z -> Z -> Env -> Result Datatypes.unit * Env.
Variable findCachedPrices :
  Env -> Result (list (list MarketService.PriceData)) * Env.
Variable show_number : option Q -> string.

Local Abbreviation M := (Eff Env Event).

Definition job {A} (m : Eff Env CronJobs.Event A) : M A := lift Job m.

Definition random : M Q :=
  fun s => match Math_random s with (r, s') => (Ok r, s', []) end.

Definition now : M Z :=
  fun s => match Date_now s with (t, s') => (Ok t, s', []) end.

Definition hours : M Z :=
  fun s => match getHours s with (t, s') => (Ok t, s', []) end.

(** *** Daily tips *)

Definition getDailyTips : M (list Tip) :=
  try_catch
    (do tips <- job (call Env findTips);
     if (0 <? length tips)%nat
     then ret (concat tips)
     else
       (* Fallback tips *)
       ret fallbackTips)
    (fun error =>
       exec emit (Job (LogError "Error getting daily tips:"));
       ret []).

(** The filter of [selectPersonalizedTip]:
    [userInterests.includes(tip.category) ||
     userCrops.some(crop => tip.applicableCrops?.includes(crop))]. *)
Definition relevant (user : User) (tip : Tip) : bool :=
  let userInterests := default [] (profile_interests <$> profile user) in
  let userCrops := default [] (cropTypes <$> profile user) in
  match category tip with
  | Some c => existsb (String.eqb c) userInterests
  | None => false
  end
  || existsb (fun crop =>
                match applicableCrops tip with
                | Some crops => existsb (String.eqb crop) crops
                | None => false
                end)
             userCrops.

Definition selectPersonalizedTip (tips : list Tip) (user : User) : M (option Tip) :=
  (* Try to find relevant tip *)
  let relevantTips := List.filter (relevant user) tips in
  let relevantTips :=
    if (length relevantTips =? 0)%nat then tips else relevantTips in
  do r <- random;
  ret (index relevantTips
         (Num.Math_floor (r * inject_Z (Z.of_nat (length relevantTips))))).

Definition formatTipMessage (tip : option Tip) (user : User) : M string :=
  do time <- hours;
  let greeting : string :=
    if (time <? 12)%Z then "Good morning"
    else if (time <? 17)%Z then "Good afternoon" else "Good evening" in
  match tip with
  | None => throw "TypeError: Cannot read properties of undefined (reading 'title')"
  | Some tip =>
      let message : string :=
        ("💡 *" ++ greeting ++ ", " ++ firstName user ++ "!*" ++ nl ++ nl)%string in
      let message : string :=
        (message ++ "*Daily Tip: " ++ title tip ++ "*" ++ nl ++ nl)%string in
      let message : string := (message ++ content tip ++ nl ++ nl)%string in
      let message : string :=
        match category tip with
        | Some (String c cs) =>
            (message ++ "📂 Category: " ++ String c cs ++ nl)%string
        | _ => message
        end in
      let message : string := (message ++ nl ++ "🌱 Happy farming!")%string in
      ret message
  end.

(** [User.find({ 'botData.notificationSettings.tips': true,
                'permissions.isBanned': false })] *)
Definition find_tip_users (collection : list User) : list User :=
  List.filter (fun u => CronJobs.tips (notificationSettings u) && negb (isBanned u))
              collection.

(** One turn of the loop of [sendDailyTips]. *)
Definition tip_turn (tips : list Tip) (user : User) : M Datatypes.unit :=
  try_catch
    (do personalizedTip <- selectPersonalizedTip tips user;
     do message <- formatTipMessage personalizedTip user;
     exec job (bot_sendMessage Env sendMessage (telegramId user) message);
     job (delay Env 100))
    (fun error =>
       emit (Job (LogWarn "Failed to send tip to user" (telegramId user)))).

Definition sendDailyTips (collection : list User) : M Datatypes.unit :=
  try_catch
    (let users := find_tip_users collection in
     exec emit (Job (LogInfo "Sending daily tips to" (length users)));
     (* Get seasonal and relevant tips *)
     do tips <- getDailyTips;
     for_of users (tip_turn tips))
    (fun error => emit (Job (LogError "Error in sendDailyTips:"))).

(** *** Weather alerts *)

Definition formatWeatherAlertMessage (alert : WeatherService.Alert) (user : User)
    : M string :=
  let urgencyEmoji : string :=
    if String.eqb (WeatherService.urgency alert) "immediate" then "🚨" else "⚠️" in
  let message : string := (urgencyEmoji ++ " *Weather Alert*" ++ nl ++ nl)%string in
  let message : string :=
    (message ++ "*" ++ WeatherService.title alert ++ "*" ++ nl)%string in
  let message : string :=
    (message ++ WeatherService.message alert ++ nl ++ nl)%string in
  match profile user ≫= CronJobs.location with
  | None => throw "TypeError: Cannot read properties of undefined (reading 'city')"
  | Some loc =>
      let message : string :=
        (message ++ "📍 Location: " ++ show_string (city loc) ++ nl)%string in
      do t <- now;
      let message : string := (message ++ "⏰ Time: " ++ toLocaleString t)%string in
      ret message
  end.

(** [User.find({ 'botData.notificationSettings.alerts': true,
                'permissions.isBanned': false,
                'profile.location.coordinates': { $exists: true } })] *)
Definition find_weather_alert_users (collection : list User) : list User :=
  List.filter
    (fun u => alerts (notificationSettings u) && negb (isBanned u)
              && match (profile u ≫= CronJobs.location) ≫= coordinates with
                 | Some _ => true
                 | None => false
                 end)
    collection.

(** One turn of the loop of [checkWeatherAlerts]. *)
Definition weather_alert_turn (user : User) : M Datatypes.unit :=
  try_catch
    (match profile user with
     | None => throw "TypeError: Cannot read properties of undefined (reading 'location')"
     | Some p =>
         do alerts <- lift Weather
                        (WeatherService.getWeatherAlerts Env getCurrentWeather
                           (CronJobs.location p));
         exec (if (0 <? length alerts)%nat
               then for_of alerts
                      (fun alert =>
                         do message <- formatWeatherAlertMessage alert user;
                         job (bot_sendMessage Env sendMessage
                                (telegramId user) message))
               else ret tt);
         job (delay Env 50)
     end)
    (fun error =>
       emit (Job (LogWarn "Failed to check weather alerts for user"
                    (telegramId user)))).

Definition checkWeatherAlerts (collection : list User) : M Datatypes.unit :=
  try_catch
    (let users := find_weather_alert_users collection in
     for_of users weather_alert_turn)
    (fun error => emit (Job (LogError "Error in checkWeatherAlerts:"))).

(** *** Market alerts *)

Definition formatMarketAlertMessage (alert : MarketService.Alert) (user : User)
    : string :=
  let typeEmoji : string :=
    if String.eqb (MarketService.type alert) "opportunity" then "💰" else "⚠️" in
  let message : string := (typeEmoji ++ " *Market Alert*" ++ nl ++ nl)%string in
  let message : string :=
    (message ++ "*" ++ MarketService.title alert ++ "*" ++ nl)%string in
  let message : string :=
    (message ++ MarketService.message alert ++ nl ++ nl)%string in
  let message : string :=
    (message ++ "⏰ " ++ toLocaleString (MarketService.timestamp alert))%string in
  message.

(** [User.find({ 'botData.notificationSettings.alerts': true,
                'permissions.isBanned': false,
                'profile.cropTypes.0': { $exists: true } })] *)
Definition find_market_alert_users (collection : list User) : list User :=
  List.filter
    (fun u => alerts (notificationSettings u) && negb (isBanned u)
              && match profile u with
                 | Some p => negb (bool_decide (cropTypes p = []))
                 | None => false
                 end)
    collection.

(** One turn of the loop of [checkMarketAlerts]. *)
Definition market_alert_turn (user : User) : M Datatypes.unit :=
  try_catch
    (do alerts <- lift Market
                    (MarketService.getMarketAlerts Env toLowerCase toUpperCase
                       Math_random Date_now saveMarketData findCachedPrices
                       show_number user);
     exec (if (0 <? length alerts)%nat
           then for_of alerts
                  (fun alert =>
                     let message := formatMarketAlertMessage alert user in
                     job (bot_sendMessage Env sendMessage (telegramId user) message))
           else ret tt);
     job (delay Env 50))
    (fun error =>
       emit (Job (LogWarn "Failed to check market alerts for user"
                    (telegramId user)))).

Definition checkMarketAlerts (collection : list User) : M Datatypes.unit :=
  try_catch
    (let users := find_market_alert_users collection in
     for_of users market_alert_turn)
    (fun error => emit (Job (LogError "Error in checkMarketAlerts:"))).
End Jobs.

(** *** Vocabulary for the statements about the services and the jobs *)

(** [Math.random()] returns a number of the interval from 0 (included) to
    1 (excluded), whatever the state of the generator. *)
Definition unit_interval {Env} (Math_random : Env -> Q * Env) : Prop :=
  forall s, (0 <= (Math_random s).1)%Q /\ ((Math_random s).1 < 1)%Q.

(** A price as [getCropPrice] makes it: for the crop asked and marked
    [Grade A]. *)
Definition simulated (toLowerCase : string -> string)
    (crop : string) (p : MarketService.PriceData) : Prop :=
  MarketService.crop p = toLowerCase crop /\
  MarketService.quality p = "Grade A".

(** The change of a price is the rounding of some draw of the generator. *)
Definition drawn_change {Env} (Math_random : Env -> Q * Env)
    (p : MarketService.PriceData) : Prop :=
  exists s,
    MarketService.percentage (MarketService.priceChange p) =
    inject_Z (Num.Math_abs (Num.Math_round (((Math_random s).1 - 0.5) * 0.1 * 100))).

Definition is_send (e : Event) : bool :=
  match e with
  | Job (SendMessage _ _ _) => true
  | _ => false
  end.

Definition is_job_warn (e : Event) : bool :=
  match e with
  | Job (LogWarn _ _) => true
  | _ => false
  end.

(** The accounts that were sent a message, in order. *)
Definition sends (t : list Event) : list Z :=
  omap (fun e => match e with
                 | Job (SendMessage chatId _ _) => Some chatId
                 | _ => None
                 end) t.

(** The accounts a warning was logged for, in order. *)
Definition warnings (t : list Event) : list Z :=
  omap (fun e => match e with
                 | Job (LogWarn _ id) => Some id
                 | _ => None
                 end) t.

(** Mild weather: above freezing, below 40 degrees, wind of at most
    40 km/h. *)
Definition mild (c : WeatherService.Current) : Prop :=
  (0 < WeatherService.temperature c)%Q /\ (WeatherService.temperature c < 40)%Q
  /\ (WeatherService.windSpeed c <= 40)%Q.

(** What a turn of the weather alert job leaves when the provider fails:
    the service's error line and the pause. *)
Definition silent_turn : list Event :=
  [ Weather (WeatherService.LogError "Error fetching weather alerts:");
    Job (Delay 50) ].

(** The number of alerts for the place of an account. *)
Definition alert_count (reading : option Location -> WeatherService.Current)
    (u : User) : nat :=
  match profile u with
  | Some p =>
      length (WeatherService.generateWeatherAlerts (reading (CronJobs.location p)))
  | None => 0
  end.

(** The weather provider fails for every location. *)
Definition weather_unavailable {Env}
    (getCurrentWeather :
       option Location -> Env -> Result WeatherService.Current * Env)
    : Prop :=
  forall loc s, exists e s', getCurrentWeather loc s = (Throw e, s').

(** The weather provider reports [reading loc] for [loc]. *)
Definition weather_reads {Env}
    (getCurrentWeather :
       option Location -> Env -> Result WeatherService.Current * Env)
    (reading : option Location -> WeatherService.Current) : Prop :=
  forall loc s, exists s', getCurrentWeather loc s = (Ok (reading loc), s').

(** The delivery channel accepts every message. *)
Definition channel_accepts {Env}
    (sendMessage : Z -> string -> Env -> Result Datatypes.unit * Env) : Prop :=
  forall chatId text s, exists s', sendMessage chatId text s = (Ok tt, s').

(** The tip store cannot be read. *)
Definition tips_unavailable {Env}
    (findTips : Env -> Result (list (list Tip)) * Env) : Prop :=
  forall s, exists e s', findTips s = (Throw e, s').

(** The tip store answers, and every document it returns holds a tip, as
    the query asks. *)
Definition tips_available {Env}
    (findTips : Env -> Result (list (list Tip)) * Env) : Prop :=
  forall s, exists docs s', findTips s = (Ok docs, s') /\ Forall (fun d => d <> []) docs.

(** Instances for the scenarios. *)
Definition half (s : Datatypes.unit) : Q * Datatypes.unit := (1 # 2, s).
Definition clock_zero (s : Datatypes.unit) : Z * Datatypes.unit := (0%Z, s).
Definition store_ok (_ : list MarketService.PriceData) (_ _ : Z) (s : Datatypes.unit)
    : Result Datatypes.unit * Datatypes.unit := (Ok tt, s).
Definition no_cache (s : Datatypes.unit)
    : Result (list (list MarketService.PriceData)) * Datatypes.unit := (Ok [], s).
Definition show_none (_ : option Q) : string := "".
Definition accept (_ : Z) (_ : string) (s : Datatypes.unit)
    : Result Datatypes.unit * Datatypes.unit := (Ok tt, s).
Definition no_weather (_ : option Location) (s : Datatypes.unit)
    : Result WeatherService.Current * Datatypes.unit := (Throw "ECONNREFUSED", s).
Definition frost : WeatherService.Current :=
  {| WeatherService.temperature := -2; WeatherService.windSpeed := 55 |}.
Definition frost_everywhere (_ : option Location) (s : Datatypes.unit)
    : Result WeatherService.Current * Datatypes.unit := (Ok frost, s).
Definition no_tips (s : Datatypes.unit)
    : Result (list (list Tip)) * Datatypes.unit := (Throw "MongoNetworkError", s).
Definition stored_tips (s : Datatypes.unit)
    : Result (list (list Tip)) * Datatypes.unit := (Ok [fallbackTips], s).
Definition no_interests (_ : Profile) : list string := [].
Definition show_date (_ : Z) : string := "today".

Definition nakuru : Location :=
  {| country := Some "Kenya"; state := None; city := Some "Nakuru";
     coordinates := Some {| latitude := -0.3; longitude := 36.08 |} |}.

Definition grower (id : Z) (banned : bool) : User :=
  {| telegramId := id;
     firstName := "Wanjiru";
     profile := Some {| cropTypes := ["wheat"; "corn"]; CronJobs.location := Some nakuru |};
     notificationSettings :=
       {| weather := true; marketPrices := true; CronJobs.tips := true; alerts := true |};
     isBanned := banned |}.

Definition growers : list User := [grower 7 false; grower 8 true; grower 9 false].

End CronJobsMore.

(** ** [src/middleware/rateLimiter.js]: status, reset and the adaptive
       middleware *)

Module RateLimiterMore.
Import RateLimiter.

(** The stores of the three module-level limiters [apiLimiter],
    [botLimiter] and [messageLimiter]. *)
Record Stores : Type :=
  { apiStore : gmap string Entry;
    botStore : gmap string Entry;
    messageStore : gmap string Entry }.

(** What [getRateLimitStatus] returns; [resetTime] is [null] or a time in
    milliseconds. *)
Record Status : Type :=
  { remaining : Z; total : Z; resetTime : option Z; blocked : bool }.

Inductive Event : Type :=
| LogInfo (message : string)
| LogError (message : string).

Section Library.
(** [limiter.get(key)] and [limiter.delete(key)] of the package
    rate-limiter-flexible; the statements below say what they ask of
    them. *)
Variable get :
  Options -> Z -> string -> gmap string Entry -> Result (option RateLimiterRes).
Variable delete :
  string -> gmap string Entry -> Result bool * gmap string Entry.
(** [apiLimiter], whose options come from the environment. *)
Variable apiOptions : Options.

Definition getRateLimitStatus (now : Z) (userId : string) (type : string)
    (stores : Stores) : Status :=
  let '(limiter, key, store) :=
    if String.eqb type "bot"
    then (botLimiter, ("bot_" ++ userId)%string, botStore stores)
    else if String.eqb type "message"
    then (messageLimiter, ("message_" ++ userId)%string, messageStore stores)
    else (apiOptions, userId, apiStore stores) in
  match get limiter now key store with
  | Ok (Some resRateLimiter) =>
      {| remaining := remainingPoints resRateLimiter;
         total := points limiter;
         resetTime := Some (now + msBeforeNext resRateLimiter)%Z;
         blocked := (remainingPoints resRateLimiter <=? 0)%Z |}
  | Ok None =>
      {| remaining := points limiter;
         total := points limiter;
         resetTime := None;
         blocked := false |}
  | Throw error =>
      {| remaining := 0; total := points limiter; resetTime := None; blocked := true |}
  end.

(** [resetRateLimit(userId, type)].  The three deletions are started one
    after the other, then awaited together: each of them runs, and one
    rejection makes the result [false]. *)
Definition resetRateLimit (userId : string) (type : string) (stores : Stores)
    : bool * Stores * list Event :=
  let all := String.eqb type "all" in
  let '(r1, api') :=
    if all || String.eqb type "api"
    then delete userId (apiStore stores)
    else (Ok true, apiStore stores) in
  let '(r2, bot') :=
    if all || String.eqb type "bot"
    then delete ("bot_" ++ userId)%string (botStore stores)
    else (Ok true, botStore stores) in
  let '(r3, message') :=
    if all || String.eqb type "message"
    then delete ("message_" ++ userId)%string (messageStore stores)
    else (Ok true, messageStore stores) in
  let stores' :=
    {| apiStore := api'; botStore := bot'; messageStore := message' |} in
  match r1, r2, r3 with
  | Ok _, Ok _, Ok _ => (true, stores', [LogInfo "Rate limit reset for user"])
  | _, _, _ => (false, stores', [LogError "Error resetting rate limit:"])
  end.
End Library.

(** The replies of [adaptiveRateLimiter]. *)
Inductive AdaptiveReply : Type :=
| Delegated (reply : Reply)        (* [return rateLimiter(req, res, next)] *)
| Restricted                       (* 429, access temporarily restricted *)
| Passed                           (* [next()] *)
| Exceeded (retryAfter : Z) (limit : Z) (remaining : Z).   (* 429 *)

Section Adaptive.
Variable apiOptions : Options.
(** The key of a numeric identity in a store. *)
Variable keyOf : Z -> string.

(** [adaptiveRateLimiter(req, res, next)], with [userId] the value of
    [req.user?.telegramId] and [ip] that of [req.ip]; the state is the
    store of [apiLimiter]. *)
Definition adaptiveRateLimiter (adaptiveLimiter : AdaptiveRateLimiter) (now : Z)
    (userId : option Z) (ip : string) (store : gmap string Entry)
    : AdaptiveReply * gmap string Entry :=
  let anonymous :=
    let '(reply, store') := rateLimiter apiOptions now ip store in
    (Delegated reply, store') in
  match userId with
  | None => anonymous
  | Some 0%Z => anonymous
  | Some userId =>
      (* Check if user should be blocked *)
      if shouldBlock adaptiveLimiter userId then (Restricted, store)
      else
        (* Get adjusted limit *)
        let adjustedLimit := getAdjustedLimit adaptiveLimiter userId 100 in
        (* Create temporary limiter with adjusted limit *)
        let tempLimiter := {| points := adjustedLimit; duration := 15 * 60 |} in
        match consume tempLimiter now (keyOf userId) ∅ with
        | (Resolved _, _) => (Passed, store)
        | (Rejected rateLimiterRes, _) =>
            let remainingTime := round_seconds (msBeforeNext rateLimiterRes) in
            (Exceeded remainingTime adjustedLimit (remainingPoints rateLimiterRes),
             store)
        end
  end.
End Adaptive.

(** *** Vocabulary *)

(** What the statements ask of [get]: a key that holds no entry has no
    status. *)
Definition get_absent
    (get : Options -> Z -> string -> gmap string Entry ->
           Result (option RateLimiterRes)) : Prop :=
  forall opts now key store, store !! key = None -> get opts now key store = Ok None.

(** What the statements ask of [delete]: the other keys keep their
    entries. *)
Definition delete_frame
    (delete : string -> gmap string Entry -> Result bool * gmap string Entry)
    : Prop :=
  forall key key' store, key' <> key -> (delete key store).2 !! key' = store !! key'.

(** The full allowance of a limiter, as a status. *)
Definition untouched (limiter : Options) : Status :=
  {| remaining := points limiter; total := points limiter;
     resetTime := None; blocked := false |}.

(** A store in memory. *)
Definition get_memory (opts : Options) (now : Z) (key : string)
    (store : gmap string Entry) : Result (option RateLimiterRes) :=
  Ok (match store !! key with
      | Some e =>
          if (now <? expiresAt e)%Z
          then Some {| msBeforeNext := expiresAt e - now;
                       remainingPoints := Z.max (points opts - value e) 0;
                       consumedPoints := value e |}
          else None
      | None => None
      end).

Definition delete_memory (key : string) (store : gmap string Entry)
    : Result bool * gmap string Entry :=
  (Ok (bool_decide (is_Some (store !! key))), base.delete key store).

Definition no_stores : Stores :=
  {| apiStore := ∅; botStore := ∅; messageStore := ∅ |}.

(** The stores after [userId] has sent commands and messages at the given
    times. *)
Definition after_traffic (commands messages : list Z) (userId : string)
    (stores : Stores) : Stores :=
  {| apiStore := apiStore stores;
     botStore := (check_all botLimiter commands userId (botStore stores)).2;
     messageStore :=
       (check_all messageLimiter messages userId (messageStore stores)).2 |}.

End RateLimiterMore.

(** ** [src/middleware/auth.js]: the check of the login data and the
       optional middleware *)

Module AuthMore.
Import JS Auth.

(** [24 * 60 * 60 * 1000] *)
Definition dayInMs : Z := 24 * 60 * 60 * 1000.

(** [dataCheckArr.sort()]: the default order of strings. *)
Fixpoint insert_sorted (x : string) (xs : list string) : list string :=
  match xs with
  | [] => [x]
  | y :: rest => if String.leb x y then x :: y :: rest else y :: insert_sorted x rest
  end.

Definition sort (xs : list string) : list string :=
  fold_right insert_sorted [] xs.

(** [data.auth_date], printed. *)
Fixpoint lookup_field (key : string) (data : list (string * string)) : option string :=
  match data with
  | [] => None
  | (k, v) :: rest => if String.eqb k key then Some v else lookup_field key rest
  end.

Section Validate.
(** The HMAC-SHA256 of a string under the key made of the bot token, in
    hexadecimal, and [parseInt], which gives [NaN] ([None]) for a value
    that does not start with a number. *)
Variable hmac_hex : string -> string.
Variable parseInt : string -> option Z.

(** [validateTelegramLogin(authData)], with [hash] the field of that name
    and [data] the other fields, in the order of the object, their values
    printed as a template literal prints them. *)
Definition validateTelegramLogin (now : Z) (hash : option string)
    (data : list (string * string)) : Result Datatypes.unit :=
  match hash with
  | None | Some EmptyString => Throw "Hash is required"
  | Some hash =>
      (* Create data check string *)
      let dataCheckArr := map (fun kv => (kv.1 ++ "=" ++ kv.2)%string) data in
      let dataCheckArr := sort dataCheckArr in
      let dataCheckString := join nl dataCheckArr in
      (* Calculate hash *)
      let calculatedHash := hmac_hex dataCheckString in
      (* Verify hash *)
      if negb (String.eqb calculatedHash hash)
      then Throw "Invalid authentication data"
      else
        (* Check auth date (should be within 1 day) *)
        match lookup_field "auth_date" data ≫= parseInt with
        | Some seconds =>
            if (dayInMs <? now - seconds * 1000)%Z
            then Throw "Authentication data is too old"
            else Ok tt
        | None => Ok tt (* [NaN > dayInMs] is false *)
        end
  end.
End Validate.

Section Optional.
Variable jwt_verify : string -> Result Z.

Local Abbreviation M := (Eff (gmap Z User) Event).

(** [user] after the assignments of [updateLastInteraction]. *)
Definition stamped (now : Z) (user : User) : User :=
  {| telegramId := telegramId user;
     username := username user;
     firstName := firstName user;
     lastName := lastName user;
     lastInteraction := now;
     lastActiveTime := now;
     messageCount := messageCount user;
     isBanned := isBanned user;
     banReason := banReason user |}.

(** [optionalAuth], given the bearer token of the request: it always
    calls [next()], and the result is [req.user] at that moment.  The
    account is attached before it is updated, so that a failure of the
    update leaves it attached. *)
Definition optionalAuth (now : Z) (token : option string) : M (option User) :=
  try_catch
    (match token with
     | Some token =>
         do decoded <- (fun db => (jwt_verify token, db, []));
         do found <- findOne decoded;
         match found with
         | Some user =>
             if negb (isBanned user)
             then
               exec try_catch (exec updateLastInteraction now user; ret tt)
                              (fun error => ret tt);
               ret (Some (stamped now user))
             else ret None
         | None => ret None
         end
     | None => ret None
     end)
    (fun error =>
       (* Continue without authentication for optional endpoints *)
       ret None).
End Optional.

(** *** Vocabulary *)

(** Every account is stored under its own identifier. *)
Definition keyed (db : gmap Z User) : Prop :=
  forall k u, db !! k = Some u -> telegramId u = k.

(** The login check, applied to the body of a request: [fields] gives the
    fields of the body other than [hash]. *)
Definition validate_body (hmac_hex : string -> string) (parseInt : string -> option Z)
    (now : Z) (fields : AuthData -> list (string * string))
    : AuthData -> Result Datatypes.unit :=
  fun authData => validateTelegramLogin hmac_hex parseInt now (hash authData)
                    (fields authData).

(** Instances for the scenarios. *)
Definition hmac_fixed (_ : string) : string := "5f2c".
Definition parse_seconds (s : string) : option Z :=
  if String.eqb s "1700000000" then Some 1700000000%Z else None.
Definition login_fields : list (string * string) :=
  [ ("id", "42"); ("first_name", "Juma"); ("username", "mkulima_ke");
    ("auth_date", "1700000000") ].

End AuthMore.

(** ** The [BotHandler] class: the reply to a plain message *)

Module BotHandlerAI.
Import JS AIService AIServiceMore EffMore.

(** The document that [handleAIResponse] builds for the [Conversation]
    model. *)
Record Conversation : Type :=
  { userId : Z;
    chatId : Z;
    messageId : Z;
    message_text : option string;
    botResponse_text : string;
    botResponse_type : string;
    intent : string;
    entities : option (list Entity);
    aiProcessing_confidence : Q;
    aiProcessing_model : option string }.

(** [msg], with the fields the handler reads. *)
Record Message : Type :=
  { from_id : Z; chat_id : Z; message_id : Z; msg_text : option string }.

Inductive Event : Type :=
| Typing (chatId : Z)
| Sent (chatId : Z) (text : string) (delivered : bool)
| Saved (conversation : Conversation) (stored : bool)
| LogError (message : string)
| Ai (e : AIService.Event).

(** The text of the [catch] branch. *)
Definition rephrase : string :=
  "I'm having trouble understanding your message. Could you please rephrase it?".

Section Reply.
Variable Env : Type.
(** The collaborators of [processMessage]. *)
Variable generateContent : string -> Env -> Result string * Env.
Variable toLowerCase : string -> string.
Variable toUpperCase : string -> string.
Variable random_below : nat -> Env -> nat * Env.
Variable Article : Type.
Variable getNewsByCategory : string -> Env -> Result (NewsResult Article) * Env.
Variable formatNewsForTelegram : list Article -> nat -> Result string.
Variable Date_now : Env -> Z * Env.
(** [this.bot.sendChatAction(chatId, 'typing')],
    [this.bot.sendMessage(chatId, text, options)] and
    [conversation.save()] *)
Variable sendChatAction : Z -> Env -> Result Datatypes.unit * Env.
Variable sendMessage : Z -> string -> Env -> Result Datatypes.unit * Env.
Variable save : Conversation -> Env -> Result Datatypes.unit * Env.

Local Abbreviation M := (Eff Env Event).

Definition bot_sendChatAction (chatId : Z) : M Datatypes.unit :=
  fun s => match sendChatAction chatId s with (r, s') => (r, s', [Typing chatId]) end.

Definition bot_sendMessage (chatId : Z) (text : string) : M Datatypes.unit :=
  fun s =>
    match sendMessage chatId text s with
    | (Ok u, s') => (Ok u, s', [Sent chatId text true])
    | (Throw e, s') => (Throw e, s', [Sent chatId text false])
    end.

Definition conversation_save (conversation : Conversation) : M Datatypes.unit :=
  fun s =>
    match save conversation s with
    | (Ok u, s') => (Ok u, s', [Saved conversation true])
    | (Throw e, s') => (Throw e, s', [Saved conversation false])
    end.

(** [handleAIResponse(msg, user)] *)
Definition handleAIResponse (msg : Message) (user : User) : M Datatypes.unit :=
  try_catch
    ((* Show typing indicator *)
     exec bot_sendChatAction (chat_id msg);
     (* Get AI response *)
     do response <- lift Ai
                      (processMessage Env generateContent toLowerCase toUpperCase
                         random_below Article getNewsByCategory
                         formatNewsForTelegram Date_now (msg_text msg) user);
     (* Send response *)
     exec bot_sendMessage (chat_id msg) (out_text response);
     (* Log conversation with AI data *)
     let conversation :=
       {| userId := from_id msg;
          chatId := chat_id msg;
          messageId := message_id msg;
          message_text := msg_text msg;
          botResponse_text := out_text response;
          botResponse_type :=
            match out_keyboard response with
            | Some _ => "inline_keyboard"
            | None => "text"
            end;
          intent := out_intent response;
          entities := out_entities response;
          aiProcessing_confidence := out_confidence response;
          aiProcessing_model := out_model response |} in
     conversation_save conversation)
    (fun error =>
       exec emit (LogError "Error processing AI response:");
       bot_sendMessage (chat_id msg) rephrase).
End Reply.

(** *** Vocabulary *)

(** The texts handed to the delivery channel, in order. *)
Definition sent_texts (t : list Event) : list string :=
  omap (fun e => match e with Sent _ text _ => Some text | _ => None end) t.

(** The conversations that were stored. *)
Definition stored (t : list Event) : list Conversation :=
  omap (fun e => match e with Saved c true => Some c | _ => None end) t.

(** The store validates the [intent] of a conversation against the enum
    of the schema, as Mongoose does on [save]. *)
Definition validates_intent {Env}
    (save : Conversation -> Env -> Result Datatypes.unit * Env) : Prop :=
  forall c s, ~ In (intent c) ConversationModel.intent_enum ->
              exists e s', save c s = (Throw e, s').

(** The channel accepts the typing indicator and every message. *)
Definition channel_up {Env}
    (sendChatAction : Z -> Env -> Result Datatypes.unit * Env)
    (sendMessage : Z -> string -> Env -> Result Datatypes.unit * Env) : Prop :=
  (forall chatId s, exists s', sendChatAction chatId s = (Ok tt, s')) /\
  (forall chatId text s, exists s', sendMessage chatId text s = (Ok tt, s')).

(** The intents of [detectIntent] that the schema admits. *)
Definition storable_intents : list string :=
  ["greeting"; "irrigation"; "fertilizer"; "help"].

(** Instances for the scenarios. *)
Definition typing_ok (_ : Z) (s : Datatypes.unit)
    : Result Datatypes.unit * Datatypes.unit := (Ok tt, s).
Definition send_ok (_ : Z) (_ : string) (s : Datatypes.unit)
    : Result Datatypes.unit * Datatypes.unit := (Ok tt, s).
Definition save_checked (c : Conversation) (s : Datatypes.unit)
    : Result Datatypes.unit * Datatypes.unit :=
  if existsb (String.eqb (intent c)) ConversationModel.intent_enum
  then (Ok tt, s)
  else (Throw "ValidationError: intent is not a valid enum value", s).
Definition clock (s : Datatypes.unit) : Z * Datatypes.unit := (0%Z, s).
Definition rain_question : Message :=
  {| from_id := 7; chat_id := 7; message_id := 1;
     msg_text := Some "will it rain tomorrow" |}.

End BotHandlerAI.

(** * Properties *)

(** ** Substring search *)

Module JSFacts.
Import JS.

Lemma prefix_true_split (p s : string) :
  String.prefix p s = true -> exists post : string, s = (p ++ post)%string.
Proof.
  revert s; induction p as [|c p IH]; intros s H.
  - exists s; reflexivity.
  - destruct s as [|d s]; simpl in H; [discriminate|].
    destruct (Ascii.ascii_dec c d) as [->|]; [|discriminate].
    destruct (IH _ H) as [post ->]. exists post; reflexivity.
Qed.

Lemma prefix_append (p post : string) :
  String.prefix p (p ++ post)%string = true.
Proof.
  induction p as [|c p IH]; simpl.
  - destruct post; reflexivity.
  - destruct (Ascii.ascii_dec c c); [assumption | congruence].
Qed.

Lemma includes_spec (s kw : string) :
  includes s kw = true <-> substring kw s.
Proof.
  split.
  - induction s as [|c s IH]; cbn [includes]; rewrite orb_true_iff; intros [H|H].
    + destruct (prefix_true_split _ _ H) as [post E].
      exists EmptyString, post. exact E.
    + discriminate.
    + destruct (prefix_true_split _ _ H) as [post E].
      exists EmptyString, post. exact E.
    + destruct (IH H) as (pre & post & ->).
      exists (String c pre), post. reflexivity.
  - intros (pre & post & ->).
    induction pre as [|c pre IH].
    + change ("" ++ kw ++ post)%string with (kw ++ post)%string.
      pose proof (prefix_append kw post) as Hp.
      destruct (kw ++ post)%string; cbn [includes]; rewrite Hp; reflexivity.
    + change (String c pre ++ kw ++ post)%string
        with (String c (pre ++ kw ++ post))%string.
      cbn [includes]. rewrite IH. apply orb_true_r.
Qed.

Lemma includes_false_spec (s kw : string) :
  includes s kw = false <-> ~ substring kw s.
Proof.
  rewrite <- includes_spec. destruct (includes s kw); split; congruence.
Qed.

End JSFacts.

(** ** Intent classification and entity extraction *)

Module AIServiceFacts.
Import JS JSFacts AIService AIServiceSpec.

Lemma matches_spec (lt : string) (kws : list string) :
  matches lt kws = true <-> triggers lt kws.
Proof.
  unfold matches, triggers. rewrite existsb_exists.
  split; intros (kw & Hin & H); exists kw; split; auto;
    apply includes_spec; assumption.
Qed.

Lemma first_match_split (lt : string) (entries : list (string * list string)) :
  (exists before intent kws after,
      entries = before ++ (intent, kws) :: after /\
      first_match lt entries = intent /\
      triggers lt kws /\
      Forall (fun e => ~ triggers lt e.2) before)
  \/ (first_match lt entries = "general" /\
      Forall (fun e => ~ triggers lt e.2) entries).
Proof.
  induction entries as [|[intent kws] rest IH]; simpl.
  - right; split; [reflexivity | constructor].
  - destruct (matches lt kws) eqn:Hm.
    + left. exists [], intent, kws, rest.
      repeat split; [apply matches_spec; assumption | constructor].
    + assert (Hn : ~ triggers lt kws).
      { intros H%matches_spec. congruence. }
      destruct IH as [(before & i & k & after & -> & Hr & Ht & Hb) | [Hr Hall]].
      * left. exists ((intent, kws) :: before), i, k, after.
        repeat split; auto.
      * right. split; auto.
Qed.

(** C1. [detectIntent] is total; its result is the first intent, in the
    declared order greeting, weather, crops, market, pest, irrigation,
    fertilizer, news, help, one of whose keywords occurs in the lower-cased
    text, and [general] when there is none.  In particular a text that
    triggers exactly one intent gets that intent, and a text that triggers
    none gets [general]. *)
Theorem detectIntent_first_match :
  map fst intents =
    ["greeting"; "weather"; "crops"; "market"; "pest"; "irrigation";
     "fertilizer"; "news"; "help"] /\
  forall (toLowerCase : string -> string) (text : string),
    let lt := toLowerCase text in
    ((exists before intent kws after,
         intents = before ++ (intent, kws) :: after /\
         detectIntent toLowerCase text = intent /\
         triggers lt kws /\
         Forall (fun e => ~ triggers lt e.2) before)
     \/ (detectIntent toLowerCase text = "general" /\
         Forall (fun e => ~ triggers lt e.2) intents)) /\
    (forall intent kws,
        In (intent, kws) intents -> triggers lt kws ->
        (forall i k, In (i, k) intents -> triggers lt k -> i = intent) ->
        detectIntent toLowerCase text = intent) /\
    ((forall i k, In (i, k) intents -> ~ triggers lt k) ->
     detectIntent toLowerCase text = "general").
Proof.
  split; [reflexivity|].
  intros toLowerCase text lt.
  unfold detectIntent. change (toLowerCase text) with lt.
  pose proof (first_match_split lt intents) as Hsplit.
  split; [exact Hsplit|]. split.
  - intros intent kws Hin Htr Honly.
    destruct Hsplit as [(before & i & k & after & E & Hr & Ht & _) | [_ Hall]].
    + rewrite Hr. apply Honly with k; [|assumption].
      rewrite E. apply in_or_app. right. left. reflexivity.
    + rewrite List.Forall_forall in Hall. destruct (Hall _ Hin Htr).
  - intros Hnone.
    destruct Hsplit as [(before & i & k & after & E & _ & Ht & _) | [Hr _]];
      [|assumption].
    destruct (Hnone i k); [|assumption].
    rewrite E. apply in_or_app. right. left. reflexivity.
Qed.

Lemma not_triggers_by_computation (lt : string) (kws : list string) :
  matches lt kws = false -> ~ triggers lt kws.
Proof. intros H Ht%matches_spec. congruence. Qed.

Lemma detectIntent_first_match_witness :
  detectIntent toLowerCase_ascii "Plant CORN" = "crops" /\
  detectIntent toLowerCase_ascii "xyz" = "general".
Proof.
  split.
  - apply (proj1 (proj2 (proj2 detectIntent_first_match toLowerCase_ascii "Plant CORN")))
      with (kws := ["crop"; "plant"; "grow"; "seed"; "harvest"; "farming"]).
    + simpl. tauto.
    + apply matches_spec. vm_compute. reflexivity.
    + intros i k Hin Ht. apply matches_spec in Ht.
      simpl in Hin.
      repeat (destruct Hin as [Hin|Hin];
              [inversion Hin; subst; clear Hin;
               first [reflexivity | vm_compute in Ht; discriminate]|]).
      destruct Hin.
  - apply (proj2 (proj2 (proj2 detectIntent_first_match toLowerCase_ascii "xyz"))).
    intros i k Hin. apply not_triggers_by_computation.
    simpl in Hin.
    repeat (destruct Hin as [Hin|Hin];
            [inversion Hin; subst; clear Hin; vm_compute; reflexivity|]).
    destruct Hin.
Defined.

Lemma fold_left_push {A B} (p : A -> bool) (f : A -> B) (xs : list A) (acc : list B) :
  fold_left (fun acc x => if p x then acc ++ [f x] else acc) xs acc
  = acc ++ map f (List.filter p xs).
Proof.
  revert acc; induction xs as [|x xs IH]; intros acc; simpl.
  - rewrite app_nil_r. reflexivity.
  - rewrite IH. destruct (p x); simpl; [rewrite <- app_assoc|]; reflexivity.
Qed.

Lemma extractEntities_eq (toLowerCase : string -> string) (text : string) :
  extractEntities toLowerCase text
  = map crop_entity (List.filter (includes (toLowerCase text)) crops)
    ++ map location_entity (List.filter (includes (toLowerCase text)) locations).
Proof.
  unfold extractEntities; cbv zeta.
  rewrite (fold_left_push (includes (toLowerCase text))
             (fun c => {| type := "crop"; value := c |}) crops []).
  rewrite (fold_left_push (includes (toLowerCase text))
             (fun l => {| type := "location"; value := l |})).
  reflexivity.
Qed.

Lemma In_map_filter {A B} (f : A -> B) (p : A -> bool) (xs : list A) (y : B) :
  In y (map f (List.filter p xs)) <-> exists x, f x = y /\ In x xs /\ p x = true.
Proof.
  rewrite in_map_iff. split; intros (x & E & H); exists x; split; auto;
    apply List.filter_In; assumption.
Qed.

Lemma NoDup_map_filter {A B} (f : A -> B) (p : A -> bool) (xs : list A) :
  (forall x y, f x = f y -> x = y) -> List.NoDup xs ->
  List.NoDup (map f (List.filter p xs)).
Proof.
  intros Hinj Hnd. induction Hnd as [|x xs Hx Hnd IH]; simpl; [constructor|].
  destruct (p x); simpl; [|assumption].
  constructor; [|assumption].
  rewrite in_map_iff. intros (y & E & Hy%List.filter_In).
  apply Hinj in E. subst y. tauto.
Qed.

Lemma crops_NoDup : List.NoDup crops.
Proof.
  unfold crops.
  repeat (constructor; [simpl; intuition discriminate|]). constructor.
Qed.

Lemma locations_NoDup : List.NoDup locations.
Proof.
  unfold locations.
  repeat (constructor; [simpl; intuition discriminate|]). constructor.
Qed.

(** C2. [extractEntities] reports every vocabulary word found in the
    lower-cased text: a crop entity for exactly the crop names that occur,
    a location entity for exactly the place names that occur, each once and
    nothing else; one message can give several entities of one type. *)
Theorem extractEntities_all_matches :
  (forall (toLowerCase : string -> string) (text : string),
     let lt := toLowerCase text in
     let r := extractEntities toLowerCase text in
     (forall c, In {| type := "crop"; value := c |} r
                <-> In c crops /\ substring c lt) /\
     (forall l, In {| type := "location"; value := l |} r
                <-> In l locations /\ substring l lt) /\
     (forall e, In e r -> type e = "crop" \/ type e = "location") /\
     List.NoDup r /\
     r = map crop_entity (List.filter (includes lt) crops)
         ++ map location_entity (List.filter (includes lt) locations)) /\
  extractEntities toLowerCase_ascii "Is corn or RICE better than wheat in Nakuru?"
  = [ {| type := "crop"; value := "wheat" |};
      {| type := "crop"; value := "corn" |};
      {| type := "crop"; value := "rice" |};
      {| type := "location"; value := "nakuru" |} ].
Proof.
  split; [|vm_compute; reflexivity].
  intros toLowerCase text lt r.
  assert (E : r = map crop_entity (List.filter (includes lt) crops)
                  ++ map location_entity (List.filter (includes lt) locations))
    by apply extractEntities_eq.
  clearbody r. subst r.
  split; [|split; [|split; [|split; [|reflexivity]]]].
  - intros c. rewrite in_app_iff, !In_map_filter. split.
    + intros [(x & Ex & Hin & Hp) | (x & Ex & _)]; [|discriminate].
      injection Ex as <-. split; [|apply includes_spec]; assumption.
    + intros [Hin Hs]. left. exists c.
      repeat split; [assumption | apply includes_spec; assumption].
  - intros l. rewrite in_app_iff, !In_map_filter. split.
    + intros [(x & Ex & _) | (x & Ex & Hin & Hp)]; [discriminate|].
      injection Ex as <-. split; [|apply includes_spec]; assumption.
    + intros [Hin Hs]. right. exists l.
      repeat split; [assumption | apply includes_spec; assumption].
  - intros e. rewrite in_app_iff, !In_map_filter.
    intros [(x & <- & _) | (x & <- & _)]; [left | right]; reflexivity.
  - apply List.NoDup_app.
    + apply NoDup_map_filter; [|apply crops_NoDup].
      intros x y H; injection H; auto.
    + apply NoDup_map_filter; [|apply locations_NoDup].
      intros x y H; injection H; auto.
    + intros e. rewrite !In_map_filter.
      intros (x & <- & _) (y & Ey & _). discriminate.
Qed.

(** *** Response generation *)

Lemma append_empty_r (s : string) : (s ++ "")%string = s.
Proof.
  induction s as [|c s IH]; [reflexivity|].
  change (String c (s ++ "")%string = String c s). congruence.
Qed.

Lemma substring_refl (s : string) : substring s s.
Proof.
  exists EmptyString, EmptyString. simpl.
  symmetry. apply append_empty_r.
Qed.

Lemma append_assoc (a b c : string) :
  ((a ++ b) ++ c)%string = (a ++ b ++ c)%string.
Proof.
  induction a as [|x a IH]; [reflexivity|].
  change (String x ((a ++ b) ++ c)%string = String x (a ++ b ++ c)%string).
  congruence.
Qed.

Lemma substring_app_r (kw p s : string) :
  substring kw s -> substring kw (p ++ s)%string.
Proof.
  intros (pre & post & ->). exists (p ++ pre)%string, post.
  symmetry. apply append_assoc.
Qed.

Lemma substring_app_l (kw s q : string) :
  substring kw s -> substring kw (s ++ q)%string.
Proof.
  intros (pre & post & ->). exists pre, (post ++ q)%string.
  rewrite !append_assoc. reflexivity.
Qed.

Section GeneratorFacts.
Variable Env : Type.
Variable generateContent : string -> Env -> Result string * Env.
Variable toUpperCase : string -> string.
Variable random_below : nat -> Env -> nat * Env.
Variable Article : Type.
Variable getNewsByCategory : string -> Env -> Result (NewsResult Article) * Env.
Variable formatNewsForTelegram : list Article -> nat -> Result string.

Local Abbreviation generate :=
  (generateResponse Env generateContent toUpperCase random_below Article
                    getNewsByCategory formatNewsForTelegram).

Lemma advise_run (prompt : string) (fallback : Response) (message : string)
    (s : Env) :
  match generateContent prompt s with
  | (Ok t, s1) =>
      advise generateContent prompt fallback message s
      = (Ok {| text := t; confidence := 0.8; keyboard := None |}, s1,
         [BackendCall prompt])
  | (Throw e, s1) =>
      advise generateContent prompt fallback message s
      = (Ok fallback, s1, [BackendCall prompt; LogError message])
  end.
Proof.
  unfold advise, try_catch, bind, callBackend, emit, ret.
  destruct (generateContent prompt s) as [[t|e] s1]; reflexivity.
Qed.

Lemma advice_intent_dispatch intent prompt fallback :
  In (intent, (prompt, fallback)) advice_domains ->
  exists message, forall entities originalText user,
    generate intent entities originalText user
    = advise generateContent (prompt originalText) fallback message.
Proof.
  simpl. intros [E|[E|[E|[]]]]; injection E as <- <- <-;
    eexists; intros; reflexivity.
Qed.

(** C3. For the intents pest, irrigation and fertilizer, [generateResponse]
    calls the advice backend exactly once, with the prompt of that domain
    around the user's text; it always returns a response and never throws;
    when the backend call fails the response is the canned reply of that
    domain, whose text is not empty and whose confidence is at most 0.7,
    and the three canned replies differ. *)
Theorem advice_intents_fall_back :
  forall intent prompt fallback,
    In (intent, (prompt, fallback)) advice_domains ->
    forall entities originalText user s,
      let run := generate intent entities originalText user s in
      List.filter is_backend_call (trace_of run)
        = [BackendCall (prompt originalText)] /\
      substring originalText (prompt originalText) /\
      (exists r, result_of run = Ok r) /\
      (forall e s', generateContent (prompt originalText) s = (Throw e, s') ->
         result_of run = Ok fallback /\
         text fallback <> "" /\
         (confidence fallback <= 0.7)%Q) /\
      (forall t s', generateContent (prompt originalText) s = (Ok t, s') ->
         result_of run = Ok {| text := t; confidence := 0.8; keyboard := None |}) /\
      (forall i p f, In (i, (p, f)) advice_domains -> f = fallback -> i = intent).
Proof.
  intros intent prompt fallback Hin entities originalText user s run.
  destruct (advice_intent_dispatch _ _ _ Hin) as [message Hgen].
  subst run. rewrite Hgen. clear Hgen.
  pose proof (advise_run (prompt originalText) fallback message s) as Hrun.
  assert (Hfb : text fallback <> "" /\ (confidence fallback <= 0.7)%Q).
  { simpl in Hin. destruct Hin as [E|[E|[E|[]]]]; injection E as <- <- <-;
      (split; [discriminate | unfold Qle; simpl; lia]). }
  assert (Hsub : substring originalText (prompt originalText)).
  { simpl in Hin. destruct Hin as [E|[E|[E|[]]]]; injection E as <- <- <-;
      do 5 apply substring_app_r; apply substring_app_l;
      apply substring_refl. }
  assert (Hdiff : forall i p f,
             In (i, (p, f)) advice_domains -> f = fallback -> i = intent).
  { intros i p f Hin' Ef. simpl in Hin, Hin'.
    destruct Hin as [E|[E|[E|[]]]]; injection E as <- <- <-;
      destruct Hin' as [E'|[E'|[E'|[]]]]; injection E' as <- <- <-;
      first [reflexivity | discriminate Ef]. }
  destruct (generateContent (prompt originalText) s) as [[t|e] s1];
    rewrite Hrun; unfold result_of, trace_of; simpl;
    (split; [reflexivity|]); (split; [exact Hsub|]);
    (split; [eexists; reflexivity|]);
    (split; [intros e' s' [=]; subst; tauto|]);
    (split; [intros t' s' [=]; subst; reflexivity | exact Hdiff]).
Qed.

(** With a crop entity among [entities], [generateCropResponse] asks the
    backend first; when that fails it answers from the crop table if the
    crop is in it, and with the static template otherwise. *)
Lemma generateCropResponse_with_crop entities originalText user s e :
  List.find (fun e => String.eqb (type e) "crop") entities = Some e ->
  let prompt :=
    crop_prompt (userLocation user) originalText
                (userCrops user "general crops") (value e) in
  match generateContent prompt s with
  | (Ok t, s1) =>
      generateCropResponse Env generateContent toUpperCase entities
                           originalText user s
      = (Ok {| text := t;
               confidence := 0.9;
               keyboard := Some
                 [ [btn "🌤️ Weather Info" "weather_info";
                    btn "📈 Market Prices" "market_info"];
                   [btn "💡 More Tips" "farming_tips"] ] |},
         s1, [BackendCall prompt])
  | (Throw _, s1) =>
      generateCropResponse Env generateContent toUpperCase entities
                           originalText user s
      = (Ok match lookup_crop (value e) cropDatabase with
            | Some crop => cropFacts toUpperCase e crop
            | None => crop_static_template
            end,
         s1, [BackendCall prompt; LogError "Error generating AI crop response:"])
  end.
Proof.
  intros Hfind prompt. unfold generateCropResponse. rewrite Hfind.
  rewrite (bool_decide_eq_true_2 (is_Some (Some e))) by eauto.
  rewrite !orb_true_r.
  unfold try_catch, bind, callBackend, emit, ret. fold prompt.
  destruct (generateContent prompt s) as [[t|err] s1]; [reflexivity|].
  destruct (lookup_crop (value e) cropDatabase); reflexivity.
Qed.
End GeneratorFacts.

Lemma advice_intents_fall_back_witness :
  result_of (generate_backend_down "pest" [] "aphids on my kale" farmer tt)
  = Ok pest_fallback.
Proof.
  apply (proj1 (proj2 (proj2 (proj2
           (advice_intents_fall_back unit backend_down toUpperCase_ascii
              random_zero unit news_down format_news
              "pest" pest_prompt pest_fallback (or_introl eq_refl)
              [] "aphids on my kale" farmer tt))))
         "backend unavailable" tt eq_refl).
Defined.

(** *** The corn question *)

(** C4, as the specification words it, fails: with the backend down the
    corn question is answered with the corn fact sheet of the crop table,
    not with the static "which crop?" template. *)
Lemma corn_question_backend_down_not_static :
  let run :=
    generate_backend_down (detectIntent toLowerCase_ascii question)
      (extractEntities toLowerCase_ascii question) question farmer tt in
  result_of run = Ok corn_facts /\ result_of run <> Ok crop_static_template.
Proof.
  assert (E : result_of
                (generate_backend_down (detectIntent toLowerCase_ascii question)
                   (extractEntities toLowerCase_ascii question) question farmer tt)
              = Ok corn_facts) by (vm_compute; reflexivity).
  cbv zeta. rewrite E. split; [reflexivity | discriminate].
Qed.

(** C4, amended.  For the text "What's the best time to plant corn?"
    [detectIntent] gives crops and [extractEntities] gives the single crop
    entity corn; [generateResponse] then calls the advice backend exactly
    once, with a prompt that contains "corn"; if the call succeeds its text
    is returned with confidence 0.9, and if it fails the reply is the corn
    fact sheet rendered from the crop table, with confidence 0.9. *)
Theorem corn_question_scenario :
  detectIntent toLowerCase_ascii question = "crops" /\
  extractEntities toLowerCase_ascii question = [corn] /\
  forall (Env : Type) (generateContent : string -> Env -> Result string * Env)
         random_below Article getNewsByCategory formatNewsForTelegram
         (user : User) (s : Env),
    let run :=
      generateResponse Env generateContent toUpperCase_ascii
        random_below Article getNewsByCategory formatNewsForTelegram
        "crops" [corn] question user s in
    let prompt :=
      crop_prompt (userLocation user) question
                  (userCrops user "general crops") "corn" in
    substring "corn" prompt /\
    List.filter is_backend_call (trace_of run) = [BackendCall prompt] /\
    (forall t s', generateContent prompt s = (Ok t, s') ->
       exists kb, result_of run
                  = Ok {| text := t; confidence := 0.9; keyboard := Some kb |}) /\
    (forall e s', generateContent prompt s = (Throw e, s') ->
       result_of run = Ok corn_facts).
Proof.
  split; [vm_compute; reflexivity|]. split; [vm_compute; reflexivity|].
  intros Env generateContent rnd Article news fmt user s run prompt.
  split.
  { unfold prompt, crop_prompt.
    do 15 apply substring_app_r. apply substring_app_l. apply substring_refl. }
  assert (Hgen : run = generateCropResponse Env generateContent toUpperCase_ascii
                          [corn] question user s) by reflexivity.
  pose proof (generateCropResponse_with_crop Env generateContent toUpperCase_ascii
                [corn] question user s corn eq_refl) as Hrun.
  cbv zeta in Hrun. change (value corn) with "corn" in Hrun.
  fold prompt in Hrun. rewrite Hgen. clear Hgen.
  destruct (generateContent prompt s) as [[t|e] s1]; rewrite Hrun;
    unfold result_of, trace_of; simpl.
  - split; [reflexivity|]. split; [|intros ? ? [=]].
    intros t' s' [=]; subst. eexists; reflexivity.
  - split; [reflexivity|]. split; [intros ? ? [=]|].
    intros e' s' _. vm_compute. reflexivity.
Qed.

Lemma corn_question_scenario_witness :
  result_of (generate_backend_down "crops" [corn] question farmer tt)
  = Ok corn_facts.
Proof.
  apply (proj2 (proj2 (proj2
           (proj2 (proj2 corn_question_scenario) unit backend_down
              random_zero unit news_down format_news farmer tt)))
         "backend unavailable" tt eq_refl).
Defined.

End AIServiceFacts.

(** ** Notification jobs *)

Module CronJobsFacts.
Import CronJobs CronJobsSpec.

Lemma sent_to_app t1 t2 : sent_to (t1 ++ t2) = sent_to t1 ++ sent_to t2.
Proof. apply flat_map_app. Qed.

Lemma outcome_ids_app t1 t2 :
  outcome_ids (t1 ++ t2) = outcome_ids t1 ++ outcome_ids t2.
Proof. apply flat_map_app. Qed.

Lemma delivered_app t1 t2 : delivered (t1 ++ t2) = (delivered t1 + delivered t2)%nat.
Proof. unfold delivered. rewrite List.filter_app, List.length_app. reflexivity. Qed.

Lemma failed_sends_app t1 t2 :
  failed_sends (t1 ++ t2) = (failed_sends t1 + failed_sends t2)%nat.
Proof. unfold failed_sends. rewrite List.filter_app, List.length_app. reflexivity. Qed.

Lemma warned_app t1 t2 : warned (t1 ++ t2) = (warned t1 + warned t2)%nat.
Proof. unfold warned. rewrite List.filter_app, List.length_app. reflexivity. Qed.

Lemma errors_app t1 t2 :
  List.filter is_error (t1 ++ t2) = List.filter is_error t1 ++ List.filter is_error t2.
Proof. apply List.filter_app. Qed.

Lemma turn_sent_turn_trace chatId t : turn_sent chatId t -> turn_trace chatId t.
Proof. intros []; constructor. Qed.

(** *** A loop whose turns catch their own failures *)

Section Loop.
Context {Env : Type}.
Variable body : User -> Eff Env Event unit.
(** The accounts the loop does not skip. *)
Variable served : User -> bool.

Hypothesis body_turn : forall u s,
  exists s' t, body u s = (Ok tt, s', t) /\
               if served u then turn_trace (telegramId u) t else t = [].

Lemma for_of_turns (us : list User) (s : Env) :
  exists s' t,
    for_of us body s = (Ok tt, s', t) /\
    outcome_ids t = map telegramId (List.filter served us) /\
    (delivered t + warned t)%nat = length (List.filter served us) /\
    (failed_sends t <= warned t)%nat /\
    List.filter is_error t = [] /\
    sublist (sent_to t) (map telegramId (List.filter served us)).
Proof.
  revert s; induction us as [|u us IH]; intros s.
  - exists s, []. repeat split; constructor.
  - destruct (body_turn u s) as (s1 & t1 & Hb & Ht).
    destruct (IH s1) as (s2 & t2 & Hl & Hids & Hcount & Hfail & Herr & Hsub).
    exists s2, (t1 ++ t2).
    split; [cbn [for_of]; unfold bind; rewrite Hb, Hl; reflexivity|].
    rewrite outcome_ids_app, delivered_app, warned_app, failed_sends_app,
      errors_app, sent_to_app, Hids, Herr.
    cbn [List.filter]. destruct (served u).
    + destruct Ht; cbn; repeat split; try lia; try (f_equal; assumption);
        first [ apply sublist_skip; assumption
              | apply sublist_cons; assumption ].
    + subst t1. cbn. repeat split; assumption || lia.
Qed.

(** When every served turn reaches the delivery channel. *)
Lemma for_of_all_sent (us : list User) (s : Env) :
  Forall (fun u => forall s, served u = true ->
                   turn_sent (telegramId u) (trace_of (body u s))) us ->
  sent_to (trace_of (for_of us body s)) = map telegramId (List.filter served us) /\
  failed_sends (trace_of (for_of us body s)) = warned (trace_of (for_of us body s)).
Proof.
  revert s; induction us as [|u us IH]; intros s Hall.
  - split; reflexivity.
  - inversion Hall as [|? ? Hu Hus]; subst.
    destruct (body_turn u s) as (s1 & t1 & Hb & Ht).
    destruct (for_of_turns us s1) as (s2 & t2 & Hl & _).
    specialize (IH s1 Hus). rewrite Hl in IH. unfold trace_of in IH. simpl in IH.
    destruct IH as [IH1 IH2].
    specialize (Hu s). rewrite Hb in Hu. unfold trace_of in Hu. simpl in Hu.
    cbn [for_of]. unfold bind, trace_of. rewrite Hb, Hl. simpl.
    rewrite sent_to_app, failed_sends_app, warned_app, IH1, IH2.
    cbn [List.filter]. destruct (served u).
    + destruct (Hu eq_refl); cbn; split; reflexivity || lia.
    + subst t1. split; reflexivity.
Qed.
End Loop.

(** *** The weather and market jobs *)

Section NotificationFacts.
Variable Env : Type.
Variables Weather MarketData : Type.
Variable getAgriculturalWeather :
  Location -> option string -> Env -> Result Weather * Env.
Variable getMarketPrices :
  list string -> option Location -> Env -> Result MarketData * Env.
Variable sendMessage : Z -> string -> Env -> Result unit * Env.
Variable formatWeatherUpdateMessage : Weather -> User -> Result string.
Variable formatMarketUpdateMessage : MarketData -> User -> Result string.

Local Abbreviation weather_turn' :=
  (weather_turn Env Weather getAgriculturalWeather sendMessage
                formatWeatherUpdateMessage).
Local Abbreviation market_turn' :=
  (market_turn Env MarketData getMarketPrices sendMessage
               formatMarketUpdateMessage).
Local Abbreviation sendWeatherUpdates' :=
  (sendWeatherUpdates Env Weather getAgriculturalWeather sendMessage
                      formatWeatherUpdateMessage).
Local Abbreviation sendMarketUpdates' :=
  (sendMarketUpdates Env MarketData getMarketPrices sendMessage
                     formatMarketUpdateMessage).

Local Abbreviation weather_rendering_succeeds' :=
  (weather_rendering_succeeds Env Weather getAgriculturalWeather
                              formatWeatherUpdateMessage).
Local Abbreviation market_rendering_succeeds' :=
  (market_rendering_succeeds Env MarketData getMarketPrices
                             formatMarketUpdateMessage).

Lemma weather_turn_spec (u : User) (s : Env) :
  exists s' t,
    weather_turn' u s = (Ok tt, s', t) /\
    if has_coordinates u then turn_trace (telegramId u) t else t = [].
Proof.
  unfold weather_turn, has_coordinates.
  destruct (profile u ≫= location) as [loc|]; [|eexists _, _; split; reflexivity].
  destruct (coordinates loc) as [c|]; [|eexists _, _; split; reflexivity].
  rewrite bool_decide_eq_true_2 by eauto.
  unfold try_catch, bind, call, pure_call, bot_sendMessage, delay, emit.
  destruct (getAgriculturalWeather loc _ s) as [[w|e] s1];
    [|eexists _, _; split; [reflexivity | constructor]].
  destruct (formatWeatherUpdateMessage w u) as [text|e];
    [|eexists _, _; split; [reflexivity | constructor]].
  destruct (sendMessage (telegramId u) text s1) as [[[]|e] s2];
    eexists _, _; (split; [reflexivity | constructor]).
Qed.

Lemma weather_turn_sent (u : User) (s : Env) :
  weather_rendering_succeeds' -> has_coordinates u = true ->
  turn_sent (telegramId u) (trace_of (weather_turn' u s)).
Proof.
  intros [Hw Hf]. unfold weather_turn, has_coordinates.
  destruct (profile u ≫= location) as [loc|]; [|discriminate].
  destruct (coordinates loc) as [c|]; [intros _ | intros H; discriminate H].
  unfold try_catch, bind, call, pure_call, bot_sendMessage, delay, emit, trace_of.
  destruct (Hw loc (profile u ≫= (fun p => head (cropTypes p))) s)
    as (w & s1 & ->).
  destruct (Hf w u) as (text & ->).
  destruct (sendMessage (telegramId u) text s1) as [[[]|e] s2]; constructor.
Qed.

Lemma market_turn_spec (u : User) (s : Env) :
  exists s' t,
    market_turn' u s = (Ok tt, s', t) /\ turn_trace (telegramId u) t.
Proof.
  unfold market_turn.
  unfold try_catch, bind, call, pure_call, bot_sendMessage, delay, emit, throw.
  destruct (profile u) as [p|];
    [|eexists _, _; split; [reflexivity | constructor]].
  destruct (getMarketPrices _ _ s) as [[d|e] s1];
    [|eexists _, _; split; [reflexivity | constructor]].
  destruct (formatMarketUpdateMessage d u) as [text|e];
    [|eexists _, _; split; [reflexivity | constructor]].
  destruct (sendMessage (telegramId u) text s1) as [[[]|e] s2];
    eexists _, _; (split; [reflexivity | constructor]).
Qed.

Lemma market_turn_sent (u : User) (s : Env) :
  market_rendering_succeeds' -> is_Some (profile u) ->
  turn_sent (telegramId u) (trace_of (market_turn' u s)).
Proof.
  intros [Hm Hf] [p Hp]. unfold market_turn. rewrite Hp.
  unfold try_catch, bind, call, pure_call, bot_sendMessage, delay, emit, trace_of.
  destruct (Hm (cropTypes p) (location p) s) as (d & s1 & ->).
  destruct (Hf d u) as (text & ->).
  destruct (sendMessage (telegramId u) text s1) as [[[]|e] s2]; constructor.
Qed.

Lemma weather_served_eligible (collection : list User) :
  List.filter has_coordinates (find_weather_users collection)
  = List.filter weather_eligible collection.
Proof.
  unfold find_weather_users, weather_eligible.
  induction collection as [|u us IH]; [reflexivity|].
  cbn [List.filter].
  destruct (weather (notificationSettings u) && negb (isBanned u));
    cbn [List.filter andb]; [destruct (has_coordinates u)|]; congruence.
Qed.

Lemma market_served_all (us : list User) :
  List.filter (fun _ => true) us = us.
Proof. induction us; cbn; congruence. Qed.

Lemma find_market_users_profile (collection : list User) :
  Forall (fun u => is_Some (profile u)) (find_market_users collection).
Proof.
  apply List.Forall_forall. intros u [_ H]%List.filter_In.
  destruct (profile u); [eauto|].
  rewrite andb_false_r in H. discriminate.
Qed.

Lemma counts_skip_info (message : string) (n : nat) (t : list Event) :
  outcome_ids (LogInfo message n :: t) = outcome_ids t /\
  sent_to (LogInfo message n :: t) = sent_to t /\
  warned (LogInfo message n :: t) = warned t /\
  delivered (LogInfo message n :: t) = delivered t /\
  failed_sends (LogInfo message n :: t) = failed_sends t /\
  List.filter is_error (LogInfo message n :: t) = List.filter is_error t.
Proof. repeat split. Qed.

Lemma sendWeatherUpdates_run (collection : list User) (s : Env) :
  exists s' t,
    sendWeatherUpdates' collection s
    = (Ok tt, s',
       LogInfo "Sending weather updates to"
               (length (find_weather_users collection)) :: t) /\
    for_of (find_weather_users collection) weather_turn' s = (Ok tt, s', t).
Proof.
  destruct (for_of_turns weather_turn' has_coordinates weather_turn_spec
              (find_weather_users collection) s) as (s' & t & Hl & _).
  exists s', t. split; [|assumption].
  unfold sendWeatherUpdates, try_catch, bind, emit. cbv zeta.
  rewrite Hl. reflexivity.
Qed.

Lemma sendMarketUpdates_run (collection : list User) (s : Env) :
  exists s' t,
    sendMarketUpdates' collection s
    = (Ok tt, s',
       LogInfo "Sending market updates to"
               (length (find_market_users collection)) :: t) /\
    for_of (find_market_users collection) market_turn' s = (Ok tt, s', t).
Proof.
  destruct (for_of_turns market_turn' (fun _ => true)
              (fun u s => market_turn_spec u s)
              (find_market_users collection) s) as (s' & t & Hl & _).
  exists s', t. split; [|assumption].
  unfold sendMarketUpdates, try_catch, bind, emit. cbv zeta.
  rewrite Hl. reflexivity.
Qed.


End NotificationFacts.

Lemma weather_up_succeeds :
  weather_rendering_succeeds unit unit weather_up (render_fixed "Good morning").
Proof.
  split.
  - intros loc crop s. exists tt, s. reflexivity.
  - intros w u. exists "Good morning". reflexivity.
Defined.

Lemma market_up_succeeds :
  market_rendering_succeeds unit unit market_up (render_fixed "Good morning").
Proof.
  split.
  - intros crops loc s. exists tt, s. reflexivity.
  - intros d u. exists "Good morning". reflexivity.
Defined.




End CronJobsFacts.

(** ** The cleanup job *)

Module CleanupFacts.
Import CronJobs CleanupSpec.

Lemma insert_desc_perm c l : Permutation (insert_desc c l) (c :: l).
Proof.
  induction l as [|d l IH]; cbn; [reflexivity|].
  destruct (createdAt d <? createdAt c)%Z; [reflexivity|].
  rewrite IH. apply perm_swap.
Qed.

Lemma sort_desc_perm l : Permutation (sort_desc l) l.
Proof.
  induction l as [|c l IH]; cbn; [reflexivity|].
  rewrite insert_desc_perm, IH. reflexivity.
Qed.

Lemma insert_desc_descending c l : descending l -> descending (insert_desc c l).
Proof.
  unfold descending. induction 1 as [|d l Hl IH Hd]; cbn.
  - repeat constructor.
  - destruct (createdAt d <? createdAt c)%Z eqn:E.
    + apply Z.ltb_lt in E. constructor; [constructor; assumption|].
      constructor; [lia|].
      rewrite List.Forall_forall in Hd |- *. intros x Hx.
      specialize (Hd x Hx). lia.
    + apply Z.ltb_ge in E. constructor; [assumption|].
      rewrite List.Forall_forall in Hd |- *. intros x Hx.
      apply (Permutation_in _ (insert_desc_perm c l)) in Hx.
      destruct Hx as [<-|Hx]; [assumption | apply Hd; assumption].
Qed.

Lemma sort_desc_descending l : descending (sort_desc l).
Proof.
  induction l as [|c l IH]; cbn; [constructor|].
  apply insert_desc_descending; assumption.
Qed.

Lemma descending_app a b :
  descending (a ++ b) ->
  forall x y, In x a -> In y b -> (createdAt y <= createdAt x)%Z.
Proof.
  unfold descending. induction a as [|c a IH]; cbn; intros H x y Hx Hy; [easy|].
  inversion H as [|? ? Hs Hall]; subst.
  destruct Hx as [<-|Hx]; [|eapply IH; eassumption].
  rewrite List.Forall_forall in Hall. apply Hall.
  apply in_or_app. right. assumption.
Qed.

Lemma NoDup_map_eq {A B} (f : A -> B) (l : list A) (a b : A) :
  List.NoDup (map f l) -> In a l -> In b l -> f a = f b -> a = b.
Proof.
  induction l as [|x l IH]; cbn; intros Hnd Ha Hb E; [easy|].
  inversion Hnd as [|? ? Hx Hl]; subst.
  destruct Ha as [<-|Ha], Hb as [<-|Hb]; try reflexivity.
  - destruct Hx. rewrite E. apply in_map; assumption.
  - destruct Hx. rewrite <- E. apply in_map; assumption.
  - apply IH; assumption.
Qed.

Lemma NoDup_map_filter_keep {A B} (f : A -> B) (p : A -> bool) (l : list A) :
  List.NoDup (map f l) -> List.NoDup (map f (List.filter p l)).
Proof.
  induction l as [|x l IH]; cbn; intros Hnd; [constructor|].
  inversion Hnd as [|? ? Hx Hl]; subst.
  destruct (p x); cbn; [|apply IH; assumption].
  constructor; [|apply IH; assumption].
  intros (y & E & [Hy _]%List.filter_In)%in_map_iff.
  apply Hx. rewrite <- E. apply in_map; assumption.
Qed.

Lemma NoDup_map_elements {A B} (f : A -> B) (l : list A) :
  List.NoDup (map f l) -> List.NoDup l.
Proof.
  induction l as [|x l IH]; cbn; intros Hnd; [constructor|].
  inversion Hnd as [|? ? Hx Hl]; subst.
  constructor; [|apply IH; assumption].
  intros Hin. apply Hx. apply in_map; assumption.
Qed.

Lemma deleteMany_in_In ids cs c :
  In c (deleteMany_in ids cs) <-> In c cs /\ ~ In (_id c) ids.
Proof.
  unfold deleteMany_in. rewrite List.filter_In, negb_true_iff.
  split; intros [Hc H]; split; try assumption.
  - intros Hin. apply not_true_iff_false in H. apply H.
    apply existsb_exists. exists (_id c). split; [assumption | apply Z.eqb_refl].
  - apply not_true_iff_false. intros (x & Hx & E%Z.eqb_eq)%existsb_exists.
    subst x. contradiction.
Qed.

Lemma deleteMany_in_nil cs : deleteMany_in [] cs = cs.
Proof. unfold deleteMany_in. cbn. induction cs; cbn; congruence. Qed.

Lemma trim_user_eq cs u :
  trim_user cs u = deleteMany_in (map _id (find_beyond_1000 (telegramId u) cs)) cs.
Proof.
  unfold trim_user. destruct (find_beyond_1000 (telegramId u) cs); cbn [length map].
  - rewrite deleteMany_in_nil. reflexivity.
  - reflexivity.
Qed.

Lemma filter_filter_comm {A} (p q : A -> bool) (l : list A) :
  List.filter p (List.filter q l) = List.filter q (List.filter p l).
Proof.
  induction l as [|x l IH]; cbn; [reflexivity|].
  destruct (p x) eqn:Hp, (q x) eqn:Hq; cbn; rewrite ?Hp, ?Hq; congruence.
Qed.

Lemma filter_ext_In' {A} (p q : A -> bool) (l : list A) :
  (forall x, In x l -> p x = q x) -> List.filter p l = List.filter q l.
Proof.
  induction l as [|x l IH]; cbn; intros H; [reflexivity|].
  rewrite (H x) by (left; reflexivity).
  rewrite IH by (intros y Hy; apply H; right; assumption). reflexivity.
Qed.

(** Trimming one account leaves the records of the others alone. *)
Lemma trim_user_other cs u uid :
  List.NoDup (map _id cs) -> uid <> telegramId u ->
  mine uid (trim_user cs u) = mine uid cs.
Proof.
  intros Hnd Hne. rewrite trim_user_eq. unfold mine, deleteMany_in.
  rewrite filter_filter_comm.
  rewrite (filter_ext_In' _ (fun _ => true)).
  - induction (List.filter _ cs) as [|x l IH]; cbn; congruence.
  - intros c [Hc Hu]%List.filter_In. apply Z.eqb_eq in Hu.
    apply negb_true_iff, not_true_iff_false.
    intros (x & Hx & E%Z.eqb_eq)%existsb_exists. subst x.
    apply in_map_iff in Hx as (d & Ed & Hd).
    unfold find_beyond_1000 in Hd.
    assert (Hd' : In d (List.filter (fun c => (userId c =? telegramId u)%Z) cs)).
    { apply (Permutation_in _ (sort_desc_perm _)).
      rewrite <- (firstn_skipn 1000). apply in_or_app. right. assumption. }
    apply List.filter_In in Hd' as [Hdcs Hdu]. apply Z.eqb_eq in Hdu.
    assert (d = c) by (eapply NoDup_map_eq; eassumption).
    subst d. congruence.
Qed.

(** Trimming an account keeps [keep_latest] of its records. *)
Lemma trim_user_mine cs u :
  mine (telegramId u) (trim_user cs u) = keep_latest (mine (telegramId u) cs).
Proof.
  rewrite trim_user_eq. unfold keep_latest, mine, deleteMany_in, find_beyond_1000.
  apply filter_filter_comm.
Qed.

Lemma trim_user_NoDup cs u :
  List.NoDup (map _id cs) -> List.NoDup (map _id (trim_user cs u)).
Proof.
  intros H. rewrite trim_user_eq. apply NoDup_map_filter_keep. assumption.
Qed.

Lemma trim_user_subset cs u c : In c (trim_user cs u) -> In c cs.
Proof. rewrite trim_user_eq. intros [H _]%deleteMany_in_In. assumption. Qed.

Lemma fold_trim_NoDup us cs :
  List.NoDup (map _id cs) -> List.NoDup (map _id (fold_left trim_user us cs)).
Proof.
  revert cs; induction us as [|u us IH]; cbn; intros cs H; [assumption|].
  apply IH, trim_user_NoDup, H.
Qed.

Lemma fold_trim_subset us cs c : In c (fold_left trim_user us cs) -> In c cs.
Proof.
  revert cs; induction us as [|u us IH]; cbn; intros cs H; [assumption|].
  eapply trim_user_subset, IH, H.
Qed.

Lemma fold_trim_other us cs uid :
  List.NoDup (map _id cs) -> ~ In uid (map telegramId us) ->
  mine uid (fold_left trim_user us cs) = mine uid cs.
Proof.
  revert cs; induction us as [|u us IH]; cbn [fold_left map In];
    intros cs Hnd Hn; [reflexivity|].
  rewrite IH; [| apply trim_user_NoDup; assumption | tauto].
  apply trim_user_other; [assumption | intros ->; tauto].
Qed.

Lemma fold_trim_mine us cs u :
  List.NoDup (map _id cs) -> List.NoDup (map telegramId us) -> In u us ->
  mine (telegramId u) (fold_left trim_user us cs)
  = keep_latest (mine (telegramId u) cs).
Proof.
  revert cs; induction us as [|v us IH]; cbn [fold_left map In];
    intros cs Hnd Hus Hin; [easy|].
  inversion Hus as [|? ? Hv Hrest]; subst.
  destruct Hin as [->|Hin].
  - rewrite fold_trim_other; [| apply trim_user_NoDup; assumption | assumption].
    apply trim_user_mine.
  - rewrite IH; [| apply trim_user_NoDup; assumption | assumption | assumption].
    rewrite trim_user_other; [reflexivity | assumption |].
    intros E. apply Hv. rewrite <- E. apply in_map; assumption.
Qed.

(** [keep_latest] keeps the first 1000 records of the newest-first order. *)
Lemma keep_latest_In l c :
  List.NoDup (map _id l) ->
  In c (keep_latest l) <-> In c (firstn 1000 (sort_desc l)).
Proof.
  intros Hnd. unfold keep_latest. rewrite deleteMany_in_In.
  pose proof (sort_desc_perm l) as Hp.
  assert (Hnd' : List.NoDup (map _id (firstn 1000 (sort_desc l))
                             ++ map _id (skipn 1000 (sort_desc l)))).
  { rewrite <- map_app, firstn_skipn.
    eapply Permutation_NoDup; [|exact Hnd].
    apply Permutation_map. symmetry. assumption. }
  split.
  - intros [Hc Hn].
    apply (Permutation_in _ (Permutation_sym Hp)) in Hc.
    rewrite <- (firstn_skipn 1000) in Hc. apply in_app_or in Hc as [Hc|Hc];
      [assumption|]. destruct Hn. apply in_map; assumption.
  - intros Hc. split.
    + apply (Permutation_in _ Hp). rewrite <- (firstn_skipn 1000).
      apply in_or_app. left. assumption.
    + intros Hin.
      apply NoDup_ListNoDup, list.NoDup_app in Hnd' as (_ & Hdisj & _).
      apply (Hdisj (_id c)); apply list_elem_of_In;
        [apply in_map|]; assumption.
Qed.

Lemma keep_latest_length l :
  List.NoDup (map _id l) ->
  length (keep_latest l) = Nat.min 1000 (length l).
Proof.
  intros Hnd.
  pose proof (sort_desc_perm l) as Hp.
  assert (Hs : List.NoDup (sort_desc l)).
  { eapply Permutation_NoDup; [symmetry; exact Hp|].
    eapply NoDup_map_elements; eassumption. }
  rewrite (Permutation_length
             (l' := firstn 1000 (sort_desc l))).
  - rewrite List.length_firstn, (Permutation_length Hp). reflexivity.
  - apply Stdlib.Sorting.Permutation.NoDup_Permutation.
    + unfold keep_latest, deleteMany_in. apply List.NoDup_filter.
      eapply NoDup_map_elements; eassumption.
    + rewrite <- (firstn_skipn 1000) in Hs.
      eapply List.NoDup_app_remove_r; eassumption.
    + intros c. apply keep_latest_In; assumption.
Qed.

Lemma keep_latest_small l :
  (length l <= 1000)%nat -> keep_latest l = l.
Proof.
  intros H. unfold keep_latest.
  rewrite skipn_all2; [apply deleteMany_in_nil|].
  rewrite (Permutation_length (sort_desc_perm l)). assumption.
Qed.

Lemma keep_latest_newest l kept removed :
  List.NoDup (map _id l) ->
  In kept (keep_latest l) -> In removed l -> ~ In removed (keep_latest l) ->
  (createdAt removed <= createdAt kept)%Z.
Proof.
  intros Hnd Hk Hr Hnr.
  rewrite keep_latest_In in Hk, Hnr by assumption.
  apply (Permutation_in _ (Permutation_sym (sort_desc_perm l))) in Hr.
  rewrite <- (firstn_skipn 1000) in Hr. apply in_app_or in Hr as [Hr|Hr];
    [contradiction|].
  eapply descending_app; [|eassumption|eassumption].
  rewrite firstn_skipn. apply sort_desc_descending.
Qed.

Lemma trim_loop_run (us : list User) (db : Db) :
  for_of us (fun user =>
    do conversations <- Conversation_find_beyond_1000 (telegramId user);
    if (0 <? length conversations)%nat
    then Conversation_deleteMany_in (map _id conversations)
    else ret tt) db
  = (Ok tt,
     {| agriculturalData := agriculturalData db;
        users := users db;
        conversations := fold_left trim_user us (conversations db) |},
     []).
Proof.
  revert db; induction us as [|u us IH]; intros db.
  - destruct db; reflexivity.
  - cbn [for_of fold_left]. unfold bind at 1.
    unfold bind at 1, Conversation_find_beyond_1000.
    unfold trim_user at 2.
    destruct (0 <? length (find_beyond_1000 (telegramId u) (conversations db)))%nat.
    + unfold Conversation_deleteMany_in. rewrite IH. reflexivity.
    + unfold ret. rewrite IH. destruct db; reflexivity.
Qed.

(** The run of [cleanupOldData], as a function of the database. *)
Lemma cleanupOldData_run (now : Z) (db : Db) :
  cleanupOldData now db
  = (Ok tt,
     {| agriculturalData :=
          List.filter (fun d => negb (data_createdAt d <? thirtyDaysAgo now)%Z)
                      (agriculturalData db);
        users := users db;
        conversations := fold_left trim_user (users db) (conversations db) |},
     [LogInfo "Cleaned up old agricultural data records"
        (length (agriculturalData db)
         - length (List.filter
                     (fun d => negb (data_createdAt d <? thirtyDaysAgo now)%Z)
                     (agriculturalData db)))]).
Proof.
  unfold cleanupOldData, try_catch, bind at 1, AgriculturalData_deleteMany_lt.
  unfold bind at 1, emit. unfold bind at 1, User_find_all.
  cbn [users]. rewrite trim_loop_run. reflexivity.
Qed.




End CleanupFacts.

(** ** Rate limiting *)

Module RateLimiterFacts.
Import RateLimiter RateLimiterSpec.

Lemma round_seconds_nonneg ms : (0 <= ms)%Z -> (0 <= round_seconds ms)%Z.
Proof. intros H. unfold round_seconds. apply Z.div_pos; lia. Qed.

Lemma round_seconds_pos ms : (0 < round_seconds ms)%Z <-> (500 <= ms)%Z.
Proof.
  unfold round_seconds. split; intros H.
  - destruct (Z_lt_le_dec ms 500) as [Hlt|]; [|assumption].
    assert ((ms + 500) / 1000 <= 0)%Z; [|lia].
    destruct (Z_lt_le_dec (ms + 500) 0) as [Hneg|Hpos].
    + assert ((ms + 500) / 1000 < 0)%Z by (apply Z.div_lt_upper_bound; lia). lia.
    + rewrite Z.div_small by lia. lia.
  - assert (1 <= (ms + 500) / 1000)%Z by (apply Z.div_le_lower_bound; lia). lia.
Qed.

(** A consume inside an open window that still has points left. *)
Lemma check_in_window limiter now key store v e :
  store !! key = Some {| value := v; expiresAt := e |} ->
  (now < e)%Z -> (v + 1 <= points limiter)%Z ->
  check limiter now key store
  = ({| allowed := true; remainingTime := None |},
     <[key := {| value := v + 1; expiresAt := e |}]> store).
Proof.
  intros Hs Hnow Hv. unfold check, consume. rewrite Hs. cbn.
  rewrite (proj2 (Z.ltb_lt _ _) Hnow). cbn.
  rewrite (proj2 (Z.ltb_ge _ _)) by lia. reflexivity.
Qed.

(** A consume inside an open window whose points are used up. *)
Lemma check_exhausted limiter now key store v e :
  store !! key = Some {| value := v; expiresAt := e |} ->
  (now < e)%Z -> (points limiter <= v)%Z ->
  check limiter now key store
  = ({| allowed := false; remainingTime := Some (round_seconds (e - now)) |},
     <[key := {| value := v + 1; expiresAt := e |}]> store).
Proof.
  intros Hs Hnow Hv. unfold check, consume. rewrite Hs. cbn.
  rewrite (proj2 (Z.ltb_lt _ _) Hnow). cbn.
  rewrite (proj2 (Z.ltb_lt _ _)) by lia. reflexivity.
Qed.

(** The first consume of a key, or the first after its window closed. *)
Lemma check_fresh limiter now key store :
  (1 <= points limiter)%Z ->
  (store !! key = None \/
   exists v e, store !! key = Some {| value := v; expiresAt := e |} /\ (e <= now)%Z) ->
  check limiter now key store
  = ({| allowed := true; remainingTime := None |},
     <[key := {| value := 1; expiresAt := now + duration limiter * 1000 |}]> store).
Proof.
  intros Hp Hs. unfold check, consume.
  destruct Hs as [-> | (v & e & -> & He)]; cbn.
  - rewrite (proj2 (Z.ltb_ge _ _)) by lia. reflexivity.
  - rewrite (proj2 (Z.ltb_ge _ _) He). cbn.
    rewrite (proj2 (Z.ltb_ge _ _)) by lia. reflexivity.
Qed.

Lemma check_all_in_window limiter times key store v e :
  store !! key = Some {| value := v; expiresAt := e |} ->
  Forall (fun t => (t < e)%Z) times ->
  (v + Z.of_nat (length times) <= points limiter)%Z ->
  Forall (fun c => allowed c = true) (check_all limiter times key store).1 /\
  (check_all limiter times key store).2 !! key
  = Some {| value := v + Z.of_nat (length times); expiresAt := e |}.
Proof.
  revert store v; induction times as [|now rest IH]; intros store v Hs Ht Hv.
  - cbn. rewrite Z.add_0_r. split; [constructor | assumption].
  - inversion Ht as [|? ? Hnow Hrest]; subst.
    cbn [check_all]. cbn [length] in Hv.
    rewrite (check_in_window limiter now key store v e) by (assumption || lia).
    destruct (IH (<[key := {| value := v + 1; expiresAt := e |}]> store) (v + 1)%Z)
      as [Hall Hst]; [apply lookup_insert_eq | assumption | lia |].
    destruct (check_all limiter rest key _) as [cs st]. cbn in *.
    split; [constructor; [reflexivity | assumption]|].
    rewrite Hst. f_equal. f_equal. lia.
Qed.

(** C8, as the specification words it, fails: the thirty-first command of
    a window, sent 200 ms before the window closes, is denied with a
    retry hint of zero seconds. *)
Lemma bot_limit_denied_with_zero_hint :
  let '(first, store) := check_all botLimiter bot_burst "1001" ∅ in
  let '(denied, _) := checkBotRateLimit 59800 "1001" store in
  Forall (fun c => allowed c = true) first /\
  length first = 30%nat /\
  allowed denied = false /\
  remainingTime denied = Some 0%Z.
Proof.
  destruct (check_all botLimiter bot_burst "1001" ∅) as [first store] eqn:E1.
  destruct (checkBotRateLimit 59800 "1001" store) as [denied store'] eqn:E2.
  assert (H1 : first = repeat {| allowed := true; remainingTime := None |} 30).
  { change first with (first, store).1. rewrite <- E1. vm_compute. reflexivity. }
  assert (H2 : store !! "1001" = Some {| value := 30; expiresAt := 60000 |}).
  { change store with (first, store).2. rewrite <- E1. vm_compute. reflexivity. }
  unfold checkBotRateLimit in E2.
  rewrite (check_exhausted botLimiter 59800 "1001" store 30 60000 H2) in E2
    by (cbn; lia).
  injection E2 as <- _. subst first.
  split; [repeat constructor|]. repeat split.
Qed.

(** C8, amended.  For a bucket with capacity N >= 1 and a window of D >= 1
    seconds and a fresh identity: N consumes inside the window that the
    first one opens all succeed; a further consume inside the same window
    is denied, with the hint round(msBeforeNext / 1000) seconds, which is
    never negative and is positive exactly when at least 500 ms of the
    window remain; once the window has passed a consume succeeds again. *)
Theorem window_allows_capacity_then_denies
    (limiter : Options) (key : string) (store : gmap string Entry)
    (t0 : Z) (rest : list Z) (t_denied t_after : Z) :
  (1 <= points limiter)%Z -> (1 <= duration limiter)%Z ->
  store !! key = None ->
  Z.of_nat (length (t0 :: rest)) = points limiter ->
  let close := (t0 + duration limiter * 1000)%Z in
  Forall (fun t => (t < close)%Z) rest ->
  (t_denied < close)%Z -> (close <= t_after)%Z ->
  let first := check_all limiter (t0 :: rest) key store in
  let denied := check limiter t_denied key first.2 in
  let again := check limiter t_after key denied.2 in
  Forall (fun c => allowed c = true) first.1 /\
  allowed denied.1 = false /\
  remainingTime denied.1 = Some (round_seconds (close - t_denied)) /\
  (0 <= round_seconds (close - t_denied))%Z /\
  ((0 < round_seconds (close - t_denied))%Z <-> (500 <= close - t_denied)%Z) /\
  allowed again.1 = true.
Proof.
  intros Hp Hd Hfresh Hlen close Hrest Hden Hafter first denied again.
  cbn [length] in Hlen.
  assert (Hfirst : Forall (fun c => allowed c = true) first.1 /\
                   first.2 !! key
                   = Some {| value := points limiter; expiresAt := close |}).
  { subst first. cbn [check_all].
    rewrite (check_fresh limiter t0 key store Hp (or_introl Hfresh)).
    fold close.
    destruct (check_all_in_window limiter rest key
                (<[key := {| value := 1; expiresAt := close |}]> store) 1 close)
      as [Hall Hst]; [apply lookup_insert_eq | assumption | lia |].
    destruct (check_all limiter rest key _) as [cs st]. cbn in *.
    split; [constructor; [reflexivity | assumption]|].
    rewrite Hst. f_equal. f_equal. lia. }
  destruct Hfirst as [Hall Hst].
  assert (Hdenied : denied
                    = ({| allowed := false;
                          remainingTime := Some (round_seconds (close - t_denied)) |},
                       <[key := {| value := points limiter + 1; expiresAt := close |}]>
                         first.2)).
  { subst denied. apply check_exhausted; [assumption | assumption | lia]. }
  assert (Hagain : allowed again.1 = true).
  { subst again. rewrite Hdenied. cbn [snd].
    rewrite (check_fresh limiter t_after key _ Hp); [reflexivity|].
    right. eexists _, _. split; [apply lookup_insert_eq | assumption]. }
  rewrite Hdenied. cbn [fst].
  split; [assumption|]. split; [reflexivity|]. split; [reflexivity|].
  split; [apply round_seconds_nonneg; lia|].
  split; [apply round_seconds_pos | assumption].
Qed.

Lemma window_allows_capacity_then_denies_witness :
  let first := check_all botLimiter bot_burst "1001" ∅ in
  let denied := check botLimiter 30000 "1001" first.2 in
  let again := check botLimiter 60000 "1001" denied.2 in
  Forall (fun c => allowed c = true) first.1 /\
  allowed denied.1 = false /\
  remainingTime denied.1 = Some (round_seconds (0 + 60 * 1000 - 30000)) /\
  (0 <= round_seconds (0 + 60 * 1000 - 30000))%Z /\
  ((0 < round_seconds (0 + 60 * 1000 - 30000))%Z
   <-> (500 <= 0 + 60 * 1000 - 30000)%Z) /\
  allowed again.1 = true.
Proof.
  refine (window_allows_capacity_then_denies botLimiter "1001" ∅ 0
            (repeat 0%Z 29) 30000 60000 _ _ _ _ _ _ _).
  - cbn; lia.
  - cbn; lia.
  - apply lookup_empty.
  - reflexivity.
  - cbn. repeat constructor.
  - cbn; lia.
  - cbn; lia.
Defined.

(** *** Trust scores *)

Lemma Qmax_spec a b : (Qmax a b == a \/ Qmax a b == b)%Q /\ (a <= Qmax a b)%Q /\ (b <= Qmax a b)%Q.
Proof.
  unfold Qmax. destruct (Qle_bool a b) eqn:E.
  - apply Qle_bool_iff in E. repeat split; [right; reflexivity | assumption | apply Qle_refl].
  - assert (H : ~ (a <= b)%Q) by (rewrite <- Qle_bool_iff; congruence).
    apply Qnot_le_lt in H.
    repeat split; [left; reflexivity | apply Qle_refl | apply Qlt_le_weak; assumption].
Qed.

Lemma ratio_nonneg (count messageCount : Q) :
  (0 <= count)%Q -> (0 <= count / Qmax messageCount 1)%Q.
Proof.
  intros H. apply Qle_shift_div_l.
  - destruct (Qmax_spec messageCount 1) as (_ & _ & H1).
    eapply Qlt_le_trans; [|exact H1]. reflexivity.
  - rewrite Qmult_0_l. assumption.
Qed.

(** For non-negative counts the score lies in [0, 1] and is stored. *)
Lemma calculateTrustScore_range this userId messageCount commandCount reportCount :
  (0 <= messageCount)%Q -> (0 <= commandCount)%Q -> (0 <= reportCount)%Q ->
  let r := calculateTrustScore this userId messageCount commandCount reportCount in
  (0 <= r.1 /\ r.1 <= 1)%Q /\
  userScores r.2 !! userId = Some r.1 /\
  (scores_in_range this -> scores_in_range r.2).
Proof.
  intros Hm Hc Hr r.
  assert (Hrange : (0 <= r.1 /\ r.1 <= 1)%Q).
  { subst r. cbn [calculateTrustScore fst].
    pose proof (ratio_nonneg commandCount messageCount Hc) as H1.
    pose proof (ratio_nonneg reportCount messageCount Hr) as H2.
    set (a := (commandCount / Qmax messageCount 1)%Q) in *.
    set (b := (reportCount / Qmax messageCount 1)%Q) in *.
    destruct (Qmax_spec 0 (1 - (a * 0.5 + b * 2))) as ([E|E] & H0 & _).
    - split; [assumption|]. rewrite E. discriminate.
    - split; [assumption|]. rewrite E.
      assert (0 <= a * 0.5 + b * 2)%Q.
      { apply Qle_trans with (0 + 0)%Q; [discriminate|].
        apply Qplus_le_compat; apply Qmult_le_0_compat;
          assumption || discriminate. }
      apply Qle_trans with (1 + - 0)%Q; [|discriminate].
      unfold Qminus. apply Qplus_le_compat; [apply Qle_refl|].
      apply Qopp_le_compat. assumption. }
  split; [assumption|]. split.
  - subst r. cbn. apply lookup_insert_eq.
  - intros Hinv u q. subst r. cbn [calculateTrustScore snd userScores].
    destruct (decide (userId = u)) as [->|Hne].
    + rewrite lookup_insert_eq. intros [= <-]. exact Hrange.
    + rewrite lookup_insert_ne by assumption. apply Hinv.
Qed.

(** [getAdjustedLimit] returns the base limit, half of it or one and a half
    times it, rounded down. *)
Lemma getAdjustedLimit_cases this userId baseLimit :
  getAdjustedLimit this userId baseLimit = Qfloor (inject_Z baseLimit * 0.5) \/
  getAdjustedLimit this userId baseLimit = baseLimit \/
  getAdjustedLimit this userId baseLimit = Qfloor (inject_Z baseLimit * 1.5).
Proof.
  unfold getAdjustedLimit.
  destruct (Qltb _ (trustedThreshold this)); [left; reflexivity|].
  destruct (Qltb (suspiciousThreshold this) _); [right; right | right; left];
    reflexivity.
Qed.

(** For a stored score other than zero, and for an account without a
    score, [shouldBlock] compares the score (0.5 when absent) with 0.1. *)
Lemma shouldBlock_nonzero this userId :
  match userScores this !! userId with
  | Some score =>
      ~ (score == 0)%Q -> (shouldBlock this userId = true <-> (score < 0.1)%Q)
  | None => shouldBlock this userId = false
  end.
Proof.
  unfold shouldBlock. destruct (userScores this !! userId) as [score|]; cbn.
  - intros Hnz. destruct (Qeq_bool score 0) eqn:E.
    + apply Qeq_bool_iff in E. contradiction.
    + unfold Qltb. rewrite negb_true_iff.
      rewrite <- not_true_iff_false, Qle_bool_iff.
      split; [apply Qnot_le_lt | apply Qlt_not_le].
  - reflexivity.
Qed.

(** C10 fails on a stored score of zero.  One report against one message
    gives the score 0, which is stored and lies below 0.1; [shouldBlock]
    then reads it as absent, takes 0.5 instead and does not block, and
    [getAdjustedLimit] returns the unreduced base limit. *)
Theorem shouldBlock_misses_zero_score :
  let r := calculateTrustScore new_AdaptiveRateLimiter 42 1 0 1 in
  userScores r.2 !! 42%Z = Some r.1 /\
  (r.1 == 0)%Q /\ (r.1 < 0.1)%Q /\
  shouldBlock r.2 42 = false /\
  getAdjustedLimit r.2 42 100 = 100%Z.
Proof.
  cbv zeta. split; [apply lookup_insert_eq|].
  split; [reflexivity|]. split; [reflexivity|].
  split; vm_compute; reflexivity.
Qed.

End RateLimiterFacts.

(** ** Telegram login *)

Module AuthFacts.
Import Auth AuthSpec.

Section HandlerFacts.
Variable validateTelegramLogin : AuthData -> Result unit.
Variable generateToken : User -> string.
Variable jwt_verify : string -> Result Z.

(** The login handler writes the account of a banned caller before it
    rejects the call. *)
Lemma post_telegram_banned_writes now authData db user name :
  validateTelegramLogin authData = Ok tt ->
  db !! id authData = Some user ->
  isBanned user = true ->
  first_name authData = Some name ->
  result_of (post_telegram validateTelegramLogin generateToken now authData db)
    = Ok (Forbidden "Your account has been banned" (banReason user)) /\
  env_of (post_telegram validateTelegramLogin generateToken now authData db)
    = <[telegramId user := touched now authData user]> db.
Proof.
  intros Hv Hf Hb Hn.
  unfold post_telegram, try_catch, bind, findOne, updateLastInteraction, save,
    ret, result_of, env_of.
  rewrite Hv, Hf. cbn.
  destruct (_ || _); cbn; rewrite ?Hn; cbn; rewrite ?Hn, ?Hb; cbn;
    unfold touched; rewrite ?Hn, ?Hb.
  - split; [reflexivity|]. apply insert_insert_eq.
  - split; reflexivity.
Qed.

(** The middleware [telegramAuth] rejects a banned caller without
    writing anything. *)
Lemma telegramAuth_banned_writes_nothing now token db telegramId user :
  jwt_verify token = Ok telegramId ->
  db !! telegramId = Some user ->
  isBanned user = true ->
  telegramAuth jwt_verify now (Some token) db
  = (Ok (Forbidden "Your account has been banned" (banReason user)), db, []).
Proof.
  intros Hv Hf Hb.
  unfold telegramAuth, try_catch, bind, findOne, ret.
  rewrite Hv, Hf, Hb. reflexivity.
Qed.
End HandlerFacts.

(** C9 fails on the login route.  A banned account that logs in again is
    answered with 403, but its stored record has been rewritten first: the
    user name is the new one and the interaction times are those of the
    call.  The middleware [telegramAuth] answers the same account with 403
    and leaves the record as it was. *)
Theorem post_telegram_rewrites_banned_account :
  let run := post_telegram accept_login fixed_token 5000 login_again accounts in
  let guarded := telegramAuth (verify_as 42) 5000 (Some "jwt") accounts in
  accounts !! 42%Z = Some banned_account /\ isBanned banned_account = true /\
  result_of run = Ok (Forbidden "Your account has been banned" (Some "spam")) /\
  env_of run !! 42%Z
  = Some {| telegramId := 42;
            username := Some "mkulima_ke";
            firstName := Some "Juma";
            lastName := None;
            lastInteraction := 5000;
            lastActiveTime := 5000;
            messageCount := 17;
            isBanned := true;
            banReason := Some "spam" |} /\
  env_of run <> accounts /\
  result_of guarded = Ok (Forbidden "Your account has been banned" (Some "spam")) /\
  env_of guarded = accounts.
Proof.
  cbv zeta.
  assert (Hf : accounts !! 42%Z = Some banned_account) by apply lookup_singleton_eq.
  destruct (post_telegram_banned_writes accept_login fixed_token 5000 login_again
              accounts banned_account "Juma" eq_refl Hf eq_refl eq_refl)
    as [Hr He].
  rewrite Hr, He.
  rewrite (telegramAuth_banned_writes_nothing (verify_as 42) 5000 "jwt" accounts
             42 banned_account eq_refl Hf eq_refl).
  split; [assumption|]. split; [reflexivity|]. split; [reflexivity|].
  split; [apply lookup_insert_eq|].
  split; [|split; reflexivity].
  intros E. apply (f_equal (fun m => m !! 42%Z)) in E.
  cbn [telegramId banned_account] in E.
  rewrite lookup_insert_eq, Hf in E. discriminate E.
Qed.

End AuthFacts.

(** ** More on the AI service *)

Module AIServiceMoreFacts.
Import JS JSFacts AIService AIServiceSpec AIServiceFacts AIServiceMore.

Lemma detectIntent_names (toLowerCase : string -> string) (text : string) :
  In (detectIntent toLowerCase text) intent_names.
Proof.
  unfold detectIntent.
  destruct (first_match_split (toLowerCase text) intents)
    as [(before & i & k & after & E & Hr & _) | [Hr _]]; rewrite Hr.
  - unfold intent_names. apply in_or_app. left.
    rewrite E, map_app. apply in_or_app. right. left. reflexivity.
  - unfold intent_names. apply in_or_app. right. left. reflexivity.
Qed.

Section ShapeFacts.
Variable Env : Type.
Variable generateContent : string -> Env -> Result string * Env.
Variable toUpperCase : string -> string.
Variable random_below : nat -> Env -> nat * Env.
Variable Article : Type.
Variable getNewsByCategory : string -> Env -> Result (NewsResult Article) * Env.
Variable formatNewsForTelegram : list Article -> nat -> Result string.

Local Abbreviation generate :=
  (generateResponse Env generateContent toUpperCase random_below Article
                    getNewsByCategory formatNewsForTelegram).

Ltac shape :=
  eexists _, _, _; split; [reflexivity|];
  split; [cbn; tauto|];
  split; [intros d; cbn; tauto | unfold backend_calls; cbn; lia].

Lemma greeting_shape user s :
  well_shaped 0 (generateGreetingResponse Env random_below user s).
Proof.
  unfold generateGreetingResponse, pickRandom, bind, ret.
  destruct (random_below _ s) as [i s']. shape.
Qed.

Lemma news_shape entities originalText s :
  well_shaped 0 (generateNewsResponse Env Article getNewsByCategory
                   formatNewsForTelegram entities originalText s).
Proof.
  unfold generateNewsResponse, try_catch, bind, ret, emit.
  destruct (getNewsByCategory _ s) as [[newsResult|e] s']; [|shape].
  destruct (success newsResult && _); [|shape].
  destruct (formatNewsForTelegram _ _); shape.
Qed.

Lemma general_shape originalText entities user s :
  well_shaped 1 (generateGeneralResponse Env generateContent random_below
                   originalText entities user s).
Proof.
  unfold generateGeneralResponse, try_catch, bind, ret, emit, callBackend, pickRandom.
  destruct (generateContent _ s) as [[t|e] s']; [shape|].
  destruct (random_below _ s') as [i s'']. shape.
Qed.

Lemma crop_shape entities originalText user s :
  well_shaped 1 (generateCropResponse Env generateContent toUpperCase
                   entities originalText user s).
Proof.
  unfold generateCropResponse, try_catch, bind, ret, emit, callBackend.
  destruct (_ || _).
  - destruct (generateContent _ s) as [[t|e] s']; [shape|].
    destruct (List.find _ entities) as [e'|]; [|shape].
    destruct (lookup_crop _ _); shape.
  - destruct (List.find _ entities) as [e'|]; [|shape].
    destruct (lookup_crop _ _); shape.
Qed.

Lemma advice_shape prompt fallback message s :
  In fallback [pest_fallback; irrigation_fallback; fertilizer_fallback] ->
  well_shaped 1 (advise generateContent prompt fallback message s).
Proof.
  intros Hf. unfold advise, try_catch, bind, ret, emit, callBackend.
  destruct (generateContent _ s) as [[t|e] s']; [shape|].
  cbn in Hf. destruct Hf as [<-|[<-|[<-|[]]]]; shape.
Qed.

Lemma well_shaped_weaken n m (run : Result Response * Env * list Event) :
  (n <= m)%nat -> well_shaped n run -> well_shaped m run.
Proof.
  intros Hle (r & s' & t & E & Hc & Hk & Hb).
  exists r, s', t. repeat split; try assumption. lia.
Qed.

Lemma generateResponse_shape intent entities originalText user s :
  well_shaped (if existsb (String.eqb intent) offline_intents then 0 else 1)
              (generate intent entities originalText user s).
Proof.
  unfold generateResponse.
  destruct (String.eqb_spec intent "greeting") as [->|N1];
    [apply greeting_shape|].
  destruct (String.eqb_spec intent "weather") as [->|N2]; [unfold ret; shape|].
  destruct (String.eqb_spec intent "crops") as [->|N3]; [apply crop_shape|].
  destruct (String.eqb_spec intent "market") as [->|N4]; [unfold ret; shape|].
  destruct (String.eqb_spec intent "pest") as [->|N5].
  { apply (advice_shape (pest_prompt originalText) pest_fallback
             "Error generating pest response:"). cbn; tauto. }
  destruct (String.eqb_spec intent "irrigation") as [->|N6].
  { apply (advice_shape (irrigation_prompt originalText) irrigation_fallback
             "Error generating irrigation response:"). cbn; tauto. }
  destruct (String.eqb_spec intent "fertilizer") as [->|N7].
  { apply (advice_shape (fertilizer_prompt originalText) fertilizer_fallback
             "Error generating fertilizer response:"). cbn; tauto. }
  destruct (String.eqb_spec intent "news") as [->|N8]; [apply news_shape|].
  destruct (String.eqb_spec intent "help") as [->|N9]; [unfold ret; shape|].
  assert (E : existsb (String.eqb intent) offline_intents = false).
  { cbn. rewrite !orb_false_r.
    repeat (rewrite (proj2 (String.eqb_neq _ _)) by assumption).
    reflexivity. }
  rewrite E. apply general_shape.
Qed.


(** X2.  One call of [generateResponse] asks the advice backend at most
    once, and not at all for the intents greeting, weather, market, news
    and help, nor for a crops message that has neither a crop entity nor
    one of the cues "how to", "when to", "best". *)
Theorem generateResponse_backend_calls intent entities originalText user s :
  let t := trace_of (generate intent entities originalText user s) in
  (backend_calls t <= 1)%nat /\
  (In intent offline_intents -> backend_calls t = 0%nat) /\
  (intent = "crops" ->
   List.find (fun e => String.eqb (type e) "crop") entities = None ->
   includes originalText "how to" = false ->
   includes originalText "when to" = false ->
   includes originalText "best" = false ->
   generate intent entities originalText user s = (Ok crop_static_template, s, [])).
Proof.
  cbv zeta.
  destruct (generateResponse_shape intent entities originalText user s)
    as (r & s' & t & E & _ & _ & Hb).
  split; [|split].
  - rewrite E. unfold trace_of. cbn [snd]. destruct (existsb _ _); lia.
  - intros Hin. rewrite E. unfold trace_of. cbn [snd].
    assert (Hoff : existsb (String.eqb intent) offline_intents = true).
    { apply existsb_exists. exists intent. split; [assumption|apply String.eqb_refl]. }
    rewrite Hoff in Hb. lia.
  - intros -> Hfind H1 H2 H3.
    change (generate "crops" entities originalText user s)
      with (generateCropResponse Env generateContent toUpperCase entities
              originalText user s).
    unfold generateCropResponse. rewrite Hfind, H1, H2, H3.
    rewrite bool_decide_eq_false_2 by (intros [x Hx]; discriminate).
    reflexivity.
Qed.
End ShapeFacts.

Lemma generateResponse_backend_calls_witness :
  generate_backend_down "crops" [] "my maize is yellow" farmer tt
  = (Ok crop_static_template, tt, []).
Proof.
  exact (proj2 (proj2 (generateResponse_backend_calls unit backend_down
           toUpperCase_ascii random_zero unit news_down format_news
           "crops" [] "my maize is yellow" farmer tt))
         eq_refl eq_refl eq_refl eq_refl eq_refl).
Defined.

(** *** [generateCropResponse] after [extractEntities] *)

Lemma find_app_first {A} (p : A -> bool) (l1 l2 : list A) :
  List.find p (l1 ++ l2)
  = match List.find p l1 with Some x => Some x | None => List.find p l2 end.
Proof.
  induction l1 as [|x l1 IH]; cbn; [reflexivity|].
  destruct (p x); [reflexivity | exact IH].
Qed.

Lemma find_map_filter {A B} (f : A -> B) (q : B -> bool) (p : A -> bool)
    (l : list A) :
  (forall x, q (f x) = true) ->
  List.find q (map f (List.filter p l)) = option_map f (List.find p l).
Proof.
  intros Hq. induction l as [|x l IH]; cbn; [reflexivity|].
  destruct (p x); cbn; [rewrite Hq; reflexivity | exact IH].
Qed.

Lemma find_map_none {A B} (f : A -> B) (q : B -> bool) (l : list A) :
  (forall x, q (f x) = false) -> List.find q (map f l) = None.
Proof.
  intros Hq. induction l as [|x l IH]; cbn; [reflexivity|].
  rewrite Hq. exact IH.
Qed.

(** The crop entity that [generateCropResponse] picks from the entities of
    [extractEntities] is the first vocabulary word found, in vocabulary
    order. *)
Lemma first_crop_entity (toLowerCase : string -> string) (text : string) :
  List.find (fun e => String.eqb (type e) "crop") (extractEntities toLowerCase text)
  = option_map crop_entity (List.find (includes (toLowerCase text)) crops).
Proof.
  rewrite extractEntities_eq, find_app_first.
  rewrite (find_map_filter crop_entity) by reflexivity.
  destruct (List.find (includes (toLowerCase text)) crops); [reflexivity|].
  apply find_map_none. reflexivity.
Qed.

(** X3.  With the backend down, [generateCropResponse] applied to the
    entities of [extractEntities] answers with a fact sheet exactly when
    the lower-cased text names wheat, corn or rice, and then with the sheet
    of the first of these in that order, wherever they stand in the text;
    for every other text, also one that names tomato, potato or soybean,
    it answers with the static template. *)
Theorem crop_reply_when_backend_down
    (Env : Type) (generateContent : string -> Env -> Result string * Env)
    (toLowerCase toUpperCase : string -> string)
    (text : string) (user : User) (s : Env) :
  backend_always_fails generateContent ->
  let reply :=
    result_of (generateCropResponse Env generateContent toUpperCase
                 (extractEntities toLowerCase text) text user s) in
  match List.find (includes (toLowerCase text)) fact_sheet_crops with
  | Some c =>
      exists info, lookup_crop c cropDatabase = Some info /\
                   reply = Ok (cropFacts toUpperCase (crop_entity c) info)
  | None => reply = Ok crop_static_template
  end.
Proof.
  intros Hdown reply.
  assert (Hreply : reply
            = Ok match List.find (includes (toLowerCase text)) crops with
                 | Some c => match lookup_crop c cropDatabase with
                             | Some info => cropFacts toUpperCase (crop_entity c) info
                             | None => crop_static_template
                             end
                 | None => crop_static_template
                 end).
  { subst reply. pose proof (first_crop_entity toLowerCase text) as Hfind.
    destruct (List.find (includes (toLowerCase text)) crops) as [c|];
      cbn [option_map] in Hfind.
    - pose proof (generateCropResponse_with_crop Env generateContent toUpperCase
                    _ text user s _ Hfind) as Hrun.
      cbv zeta in Hrun. cbn [value crop_entity] in Hrun.
      destruct (Hdown (crop_prompt (userLocation user) text
                         (userCrops user "general crops") c) s) as (e & s' & Hc).
      rewrite Hc in Hrun. rewrite Hrun. unfold result_of. cbn [fst].
      destruct (lookup_crop c cropDatabase); reflexivity.
    - unfold generateCropResponse. rewrite Hfind.
      rewrite bool_decide_eq_false_2 by (intros [x Hx]; discriminate).
      rewrite orb_false_r.
      unfold try_catch, bind, ret, emit, callBackend, result_of.
      destruct (_ || _); [|reflexivity].
      destruct (Hdown (crop_prompt (userLocation user) text
                         (userCrops user "general crops") "farming") s)
        as (e & s' & ->).
      reflexivity. }
  rewrite Hreply. unfold fact_sheet_crops, crops. cbn [List.find].
  destruct (includes (toLowerCase text) "wheat"); [eexists; split; reflexivity|].
  destruct (includes (toLowerCase text) "corn"); [eexists; split; reflexivity|].
  destruct (includes (toLowerCase text) "rice"); [eexists; split; reflexivity|].
  destruct (includes (toLowerCase text) "tomato"); [reflexivity|].
  destruct (includes (toLowerCase text) "potato"); [reflexivity|].
  destruct (includes (toLowerCase text) "soybean"); reflexivity.
Qed.

Lemma backend_down_always_fails : backend_always_fails backend_down.
Proof. intros prompt s. exists "backend unavailable", s. reflexivity. Defined.

Lemma crop_reply_when_backend_down_witness :
  result_of (generateCropResponse unit backend_down toUpperCase_ascii
               (extractEntities toLowerCase_ascii "Is my tomato plot too wet?")
               "Is my tomato plot too wet?" farmer tt)
  = Ok crop_static_template.
Proof.
  exact (crop_reply_when_backend_down unit backend_down toLowerCase_ascii
           toUpperCase_ascii "Is my tomato plot too wet?" farmer tt
           backend_down_always_fails).
Defined.

(** *** [processMessage] *)

Section ProcessFacts.
Variable Env : Type.
Variable generateContent : string -> Env -> Result string * Env.
Variable toLowerCase : string -> string.
Variable toUpperCase : string -> string.
Variable random_below : nat -> Env -> nat * Env.
Variable Article : Type.
Variable getNewsByCategory : string -> Env -> Result (NewsResult Article) * Env.
Variable formatNewsForTelegram : list Article -> nat -> Result string.
Variable Date_now : Env -> Z * Env.

Local Abbreviation process :=
  (processMessage Env generateContent toLowerCase toUpperCase random_below
                  Article getNewsByCategory formatNewsForTelegram Date_now).

Lemma processMessage_run (text : option string) (user : User) (s : Env) :
  exists r s' t,
    process text user s = (Ok r, s', t) /\
    match text with
    | None => r = error_reply
    | Some text =>
        out_intent r = detectIntent toLowerCase text /\
        out_entities r = Some (extractEntities toLowerCase text) /\
        out_model r = Some "agribot-gemini-v1" /\
        In (out_confidence r) confidence_levels /\
        (exists t0 s0 t1 s1,
            Date_now s = (t0, s0) /\ Date_now s1 = (t1, s') /\
            out_processingTime r = Some (t1 - t0)%Z)
    end.
Proof.
  unfold processMessage, try_catch, bind at 1, now.
  destruct (Date_now s) as [t0 s0] eqn:E0.
  destruct text as [text|].
  - unfold bind at 1, ret at 1. unfold bind at 1.
    destruct (generateResponse_shape Env generateContent toUpperCase random_below
                Article getNewsByCategory formatNewsForTelegram
                (detectIntent toLowerCase text) (extractEntities toLowerCase text)
                text user s0) as (r & s1 & t & E & Hc & _).
    rewrite E. unfold bind, ret.
    destruct (Date_now s1) as [t1 s2] eqn:E1.
    eexists _, _, _. split; [reflexivity|]. cbn.
    repeat split; try assumption.
    exists t0, s0, t1, s1. repeat split; assumption.
  - unfold bind, throw, emit, ret. eexists _, _, _. split; reflexivity.
Qed.

(** X4.  [processMessage] never throws.  For a text it returns the intent
    of [detectIntent], the entities of [extractEntities], the model tag and
    a confidence between 0.5 and 1, never the intent "error"; the apology
    with intent "error" and confidence 0 is returned exactly when the
    argument is not a string. *)
Theorem processMessage_never_throws (text : option string) (user : User) (s : Env) :
  exists r,
    result_of (process text user s) = Ok r /\
    (out_intent r = "error" <-> text = None) /\
    (text = None -> r = error_reply) /\
    (forall t, text = Some t ->
       out_intent r = detectIntent toLowerCase t /\
       out_entities r = Some (extractEntities toLowerCase t) /\
       out_model r = Some "agribot-gemini-v1" /\
       (0.5 <= out_confidence r /\ out_confidence r <= 1)%Q).
Proof.
  destruct (processMessage_run text user s) as (r & s' & t & E & H).
  exists r. rewrite E. split; [reflexivity|].
  destruct text as [text|].
  - destruct H as (Hi & He & Hm & Hc & _).
    split; [|split; [discriminate|]].
    + split; [|discriminate]. intros Herr. exfalso.
      pose proof (detectIntent_names toLowerCase text) as Hn.
      rewrite <- Hi, Herr in Hn. cbn in Hn.
      repeat (destruct Hn as [Hn|Hn]; [discriminate Hn|]). destruct Hn.
    + intros t' [= <-]. repeat split; try assumption;
        cbn in Hc;
        repeat (destruct Hc as [<-|Hc]; [discriminate|]); destruct Hc.
  - subst r. split; [split; reflexivity|].
    split; [reflexivity | discriminate].
Qed.

(** X5.  The [intent] of a reply of [processMessage] is a value of the
    [intent] enum of the Conversation schema only when it is greeting,
    irrigation, fertilizer or help: the intents weather, crops, market,
    pest, news and general, and the "error" of the apology, are not among
    the values the schema admits for the record that the callers save. *)
Theorem processMessage_intent_in_schema (text : option string) (user : User)
    (s : Env) :
  exists r,
    result_of (process text user s) = Ok r /\
    In (out_intent r) (intent_names ++ ["error"]) /\
    (In (out_intent r) ConversationModel.intent_enum
     <-> In (out_intent r) ["greeting"; "irrigation"; "fertilizer"; "help"]).
Proof.
  destruct (processMessage_run text user s) as (r & s' & t & E & H).
  exists r. rewrite E. split; [reflexivity|].
  assert (Hn : In (out_intent r) (intent_names ++ ["error"])).
  { destruct text as [text|].
    - destruct H as (-> & _). apply in_or_app. left. apply detectIntent_names.
    - subst r. apply in_or_app. right. left. reflexivity. }
  split; [assumption|].
  cbn in Hn.
  repeat (destruct Hn as [<-|Hn];
          [cbn; split; intros H';
           repeat (destruct H' as [H'|H']; [discriminate H' || tauto|]);
           tauto|]).
  destruct Hn.
Qed.
End ProcessFacts.

(** *** Reply buttons and callback handlers *)

Lemma split_colon_head_registered (data : string) :
  In data generator_callbacks ->
  (existsb (String.eqb (BotHandler.split_colon_head data)) BotHandler.callbackHandlers
   = true
   <-> String.prefix "news_" data = true).
Proof.
  cbn. intros H.
  repeat (destruct H as [<-|H]; [vm_compute; split; congruence|]).
  destruct H.
Qed.

Section CallbackFacts.
Variable Env : Type.
Variable handler : string -> string -> Env -> Result unit * Env.
Variable answerCallbackQuery : string -> bool -> Env -> Result unit * Env.

(** A query whose action has no registered handler is only answered. *)
Lemma handleCallbackQuery_unregistered (queryId data : string) (s : Env) :
  existsb (String.eqb (BotHandler.split_colon_head data)) BotHandler.callbackHandlers
  = false ->
  List.filter BotHandler.is_handler_event
    (trace_of (BotHandler.handleCallbackQuery Env handler answerCallbackQuery
                 queryId data s)) = [].
Proof.
  intros H. unfold BotHandler.handleCallbackQuery. cbv zeta. rewrite H.
  unfold try_catch, bind, ret, emit, BotHandler.answer, trace_of.
  destruct (answerCallbackQuery queryId false s) as [[[]|e] s1]; cbn;
    [reflexivity|].
  destruct (answerCallbackQuery queryId true s1) as [r s2]; reflexivity.
Qed.
End CallbackFacts.


End AIServiceMoreFacts.

(** ** Effects: loops *)

Module EffFacts.

(** A loop whose turns all complete completes, and what holds of every
    event of every turn holds of every event of the loop. *)
Lemma for_of_Forall {Env Ev A} (P : Ev -> Prop)
    (body : A -> Eff Env Ev Datatypes.unit) (xs : list A) (s : Env) :
  (forall x s, In x xs ->
     exists s' t, body x s = (Ok tt, s', t) /\ List.Forall P t) ->
  exists s' t, for_of xs body s = (Ok tt, s', t) /\ List.Forall P t.
Proof.
  revert s. induction xs as [|x xs IH]; intros s Hbody.
  - exists s, []. split; [reflexivity|constructor].
  - destruct (Hbody x s (or_introl eq_refl)) as (s1 & t1 & Hx & Ht1).
    destruct (IH s1) as (s2 & t2 & Hxs & Ht2).
    { intros y s' Hy. apply Hbody. right. exact Hy. }
    exists s2, (t1 ++ t2). split.
    + cbn [for_of]. unfold bind. rewrite Hx, Hxs. reflexivity.
    + apply List.Forall_app. split; assumption.
Qed.

(** A loop whose turns leave a trace that depends on the element only. *)
Lemma for_of_traces {Env Ev A} (f : A -> list Ev)
    (body : A -> Eff Env Ev Datatypes.unit) (xs : list A) (s : Env) :
  (forall x s, In x xs -> exists s', body x s = (Ok tt, s', f x)) ->
  exists s', for_of xs body s = (Ok tt, s', concat (map f xs)).
Proof.
  revert s. induction xs as [|x xs IH]; intros s Hbody.
  - exists s. reflexivity.
  - destruct (Hbody x s (or_introl eq_refl)) as (s1 & Hx).
    destruct (IH s1) as (s2 & Hxs).
    { intros y s' Hy. apply Hbody. right. exact Hy. }
    exists s2. cbn [for_of map concat]. unfold bind. rewrite Hx, Hxs. reflexivity.
Qed.

End EffFacts.

(** ** Market prices and alerts *)

Module MarketServiceFacts.
Import JS CronJobs CronJobsMore.

(** [Math.round] of a number between two integers lies between them. *)
Lemma Math_round_bounds (x : Q) (lo hi : Z) :
  (inject_Z lo - (1 # 2) <= x)%Q -> (x < inject_Z hi + (1 # 2))%Q ->
  (lo <= Num.Math_round x <= hi)%Z.
Proof.
  intros Hlo Hhi. unfold Num.Math_round. split.
  - rewrite <- (Qfloor_Z lo). apply Qfloor_resp_le. lra.
  - assert (H : (Qfloor (x + (1 # 2)) < hi + 1)%Z); [|lia].
    rewrite Zlt_Qlt. eapply Qle_lt_trans; [apply Qfloor_le|].
    rewrite inject_Z_plus. change (inject_Z 1) with 1%Q. lra.
Qed.

Lemma price_change_small (r : Q) :
  (0 <= r)%Q -> (r < 1)%Q ->
  (inject_Z (Num.Math_abs (Num.Math_round ((r - 0.5) * 0.1 * 100))) <= 5)%Q.
Proof.
  intros H0 H1.
  destruct (Math_round_bounds ((r - 0.5) * 0.1 * 100) (-5) 5) as [Ha Hb].
  - change (inject_Z (-5)) with (-5)%Q. lra.
  - change (inject_Z 5) with 5%Q. lra.
  - unfold Num.Math_abs. change 5%Q with (inject_Z 5). rewrite <- Zle_Qle. lia.
Qed.

Section Prices.
Variable Env : Type.
Variable toLowerCase : string -> string.
Variable toUpperCase : string -> string.
Variable Math_random : Env -> Q * Env.
Variable Date_now : Env -> Z * Env.
Variable saveMarketData :
  list MarketService.PriceData -> Z -> Z -> Env -> Result Datatypes.unit * Env.
Variable findCachedPrices :
  Env -> Result (list (list MarketService.PriceData)) * Env.
Variable show_number : option Q -> string.

Local Abbreviation getCropPrice :=
  (MarketService.getCropPrice Env toLowerCase Math_random Date_now).
Local Abbreviation collect_prices :=
  (MarketService.collect_prices Env toLowerCase Math_random Date_now).
Local Abbreviation storeMarketData :=
  (MarketService.storeMarketData Env Date_now saveMarketData).
Local Abbreviation getMarketPrices :=
  (MarketService.getMarketPrices Env toLowerCase Math_random Date_now
     saveMarketData findCachedPrices).
Local Abbreviation alerts_of :=
  (MarketService.alerts_of Env toUpperCase Date_now show_number).
Local Abbreviation getMarketAlerts :=
  (MarketService.getMarketAlerts Env toLowerCase toUpperCase Math_random Date_now
     saveMarketData findCachedPrices show_number).

Lemma getCropPrice_run (crop : string) (loc : option Location) (s : Env) :
  exists p s', getCropPrice crop loc s = (Ok p, s', []) /\
    simulated toLowerCase crop p /\ drawn_change Math_random p.
Proof.
  unfold MarketService.getCropPrice, try_catch, bind, MarketService.random,
    MarketService.now, ret.
  destruct (Math_random s) as [r1 s1] eqn:E1.
  destruct (Math_random s1) as [r2 s2] eqn:E2.
  destruct (Date_now s2) as [t s3] eqn:E3.
  cbn. eexists _, _. split; [reflexivity|].
  split; [split; reflexivity|].
  exists s1. rewrite E2. reflexivity.
Qed.

Lemma collect_prices_run (crops : list string) (loc : option Location) (s : Env) :
  exists ps s', collect_prices crops loc s = (Ok ps, s', []) /\
    Forall2 (simulated toLowerCase) crops ps /\
    List.Forall (drawn_change Math_random) ps.
Proof.
  revert s. induction crops as [|c rest IH]; intros s.
  - exists [], s. split; [reflexivity|split; constructor].
  - destruct (getCropPrice_run c loc s) as (p & s1 & Hp & Hsim & Hdr).
    destruct (IH s1) as (ps & s2 & Hps & Hall & Hdrs).
    exists (p :: ps), s2. split; [|split; constructor; assumption].
    cbn [MarketService.collect_prices]. unfold bind at 1. unfold try_catch.
    rewrite Hp. unfold bind at 1. rewrite Hps. reflexivity.
Qed.

Lemma storeMarketData_run (ps : list MarketService.PriceData) (s : Env) :
  exists s' t, storeMarketData ps s = (Ok tt, s', t).
Proof.
  unfold MarketService.storeMarketData, try_catch, bind, MarketService.now, emit.
  destruct (Date_now s) as [t1 s1].
  destruct (Date_now s1) as [t2 s2].
  destruct (saveMarketData ps t1 (t2 + 4 * 60 * 60 * 1000)%Z s2) as [[[]|e] s3];
    cbn; eexists _, _; reflexivity.
Qed.

Lemma getMarketPrices_run (crops : list string) (loc : option Location) (s : Env) :
  exists ps s' t, getMarketPrices crops loc s = (Ok ps, s', t) /\
    Forall2 (simulated toLowerCase) crops ps /\
    List.Forall (drawn_change Math_random) ps.
Proof.
  destruct (collect_prices_run crops loc s) as (ps & s1 & Hps & Hall).
  destruct (storeMarketData_run ps s1) as (s2 & t & Hst).
  unfold MarketService.getMarketPrices, try_catch. unfold bind at 1.
  rewrite Hps. unfold bind at 1. rewrite Hst. cbn.
  eexists _, _, _. split; [reflexivity|exact Hall].
Qed.

(** X7.  [getMarketPrices] never fails and never falls back: whatever the
    crops, the place and the state of the store, it returns one simulated
    quote per crop asked, in the order asked; neither the fallback table
    nor the cached prices are ever served. *)
Theorem getMarketPrices_one_quote_per_crop
    (crops : list string) (loc : option Location) (s : Env) :
  exists ps,
    result_of (getMarketPrices crops loc s) = Ok ps /\
    Forall2 (simulated toLowerCase) crops ps.
Proof.
  destruct (getMarketPrices_run crops loc s) as (ps & s' & t & H & Hall & _).
  exists ps. rewrite H. split; [reflexivity|exact Hall].
Qed.

Lemma alerts_of_small (ps : list MarketService.PriceData) (s : Env) :
  List.Forall (fun p => (MarketService.percentage (MarketService.priceChange p) <= 5)%Q) ps ->
  alerts_of ps s = (Ok [], s, []).
Proof.
  induction 1 as [|p ps Hp _ IH]; [reflexivity|].
  cbn [MarketService.alerts_of].
  assert (E : Num.ltb 10 (MarketService.percentage (MarketService.priceChange p)) = false).
  { unfold Num.ltb. apply negb_false_iff. apply Qle_bool_iff. lra. }
  rewrite E. unfold bind at 1. cbn. unfold bind at 1. rewrite IH. reflexivity.
Qed.

Lemma drawn_change_small (p : MarketService.PriceData) :
  unit_interval Math_random -> drawn_change Math_random p ->
  (MarketService.percentage (MarketService.priceChange p) <= 5)%Q.
Proof.
  intros Hu [s0 E]. rewrite E. destruct (Hu s0). apply price_change_small; assumption.
Qed.

Lemma getMarketAlerts_run (user : User) (s : Env) :
  unit_interval Math_random ->
  exists s' t, getMarketAlerts user s = (Ok [], s', t).
Proof.
  intros Hu. unfold MarketService.getMarketAlerts, try_catch.
  destruct (0 <? length (default [] (cropTypes <$> profile user)))%nat.
  - destruct (getMarketPrices_run (default [] (cropTypes <$> profile user))
                (profile user ≫= location) s) as (ps & s1 & t & H & _ & Hdr).
    unfold bind. rewrite H. rewrite alerts_of_small.
    + eexists _, _. reflexivity.
    + eapply List.Forall_impl; [|exact Hdr]. intros p Hp.
      apply drawn_change_small; assumption.
  - eexists _, _. reflexivity.
Qed.

(** X8.  No market alert is ever produced: with [Math.random] in its
    interval, the simulated change of a price is at most 5 percent, below
    the 10 percent an alert asks for, so [getMarketAlerts] returns the
    empty list for every account. *)
Theorem getMarketAlerts_always_empty (user : User) (s : Env) :
  unit_interval Math_random ->
  result_of (getMarketAlerts user s) = Ok [].
Proof.
  intros Hu. destruct (getMarketAlerts_run user s Hu) as (s' & t & H).
  rewrite H. reflexivity.
Qed.

End Prices.

Lemma half_unit_interval : unit_interval half.
Proof. intros s. cbn. split; lra. Qed.

(** Scenario: a wheat and corn grower, every draw one half. *)
Lemma getMarketAlerts_always_empty_witness :
  unit_interval half /\
  result_of (MarketService.getMarketAlerts Datatypes.unit toLowerCase_ascii
               toUpperCase_ascii half clock_zero store_ok no_cache show_none
               (grower 7 false) tt) = Ok [].
Proof.
  split; [exact half_unit_interval|].
  exact (getMarketAlerts_always_empty Datatypes.unit toLowerCase_ascii
           toUpperCase_ascii half clock_zero store_ok no_cache show_none
           (grower 7 false) tt half_unit_interval).
Defined.

End MarketServiceFacts.

Module WeatherServiceFacts.
Import CronJobs CronJobsMore.

(** X9.  [generateWeatherAlerts] returns at most two alerts, and none
    exactly in mild weather: above freezing, below 40 degrees, with wind of
    at most 40 km/h. *)
Theorem generateWeatherAlerts_at_most_two (c : WeatherService.Current) :
  (length (WeatherService.generateWeatherAlerts c) <= 2)%nat /\
  (WeatherService.generateWeatherAlerts c = [] <-> mild c).
Proof.
  unfold WeatherService.generateWeatherAlerts, mild, Num.leb, Num.ltb.
  destruct (Qle_bool (WeatherService.temperature c) 0) eqn:E1;
    destruct (Qle_bool 40 (WeatherService.temperature c)) eqn:E2;
    destruct (Qle_bool (WeatherService.windSpeed c) 40) eqn:E3;
    try (apply Qle_bool_iff in E1); try (apply Qle_bool_iff in E2);
    try (apply Qle_bool_iff in E3);
    try (apply not_true_iff_false in E1; rewrite Qle_bool_iff in E1);
    try (apply not_true_iff_false in E2; rewrite Qle_bool_iff in E2);
    try (apply not_true_iff_false in E3; rewrite Qle_bool_iff in E3);
    cbn; (split; [lia || lra|]); (split; [try discriminate; intros _|]);
    try lra; try (intros (? & ? & ?); lra); try (intros _; reflexivity).
Qed.

Lemma existsb_eqb_In (x : string) (xs : list string) :
  existsb (String.eqb x) xs = true <-> In x xs.
Proof.
  rewrite existsb_exists. split.
  - intros (y & Hy & E). apply String.eqb_eq in E. subst. exact Hy.
  - intros H. exists x. split; [exact H|apply String.eqb_refl].
Qed.

Lemma keys_from_In (x : string) (xs seen : list string) :
  In x (WeatherService.keys_from seen xs) <-> In x xs /\ ~ In x seen.
Proof.
  revert seen. induction xs as [|y xs IH]; intros seen; cbn [WeatherService.keys_from].
  - cbn. tauto.
  - destruct (existsb (String.eqb y) seen) eqn:E.
    + apply existsb_eqb_In in E. rewrite IH. cbn. split.
      * intros [H1 H2]. tauto.
      * intros [[->|H1] H2]; [contradiction|tauto].
    + assert (Hy : ~ In y seen).
      { intros H. apply existsb_eqb_In in H. congruence. }
      cbn [In]. rewrite IH. cbn [In].
      destruct (String.eqb_spec y x) as [->|Hne].
      * tauto.
      * split.
        -- intros [H|[H1 H2]]; [contradiction|tauto].
        -- intros [[H|H1] H2]; [contradiction|]. right. tauto.
Qed.

Lemma count_pos (x : string) (xs : list string) :
  (0 < WeatherService.count x xs)%nat <-> In x xs.
Proof.
  induction xs as [|y xs IH]; cbn [WeatherService.count In]; [lia|].
  destruct (String.eqb_spec x y) as [->|Hne].
  - split; [tauto|lia].
  - rewrite Nat.add_0_l, IH. split; [tauto|]. intros [E|H]; [congruence|exact H].
Qed.

Lemma pick_most (conditions rest : list string) (k : string) :
  let r := fold_left (fun a b => if (WeatherService.count b conditions <?
                                       WeatherService.count a conditions)%nat
                                 then a else b) rest k in
  (r = k \/ In r rest) /\
  (WeatherService.count k conditions <= WeatherService.count r conditions)%nat /\
  (forall x, In x rest ->
     (WeatherService.count x conditions <= WeatherService.count r conditions)%nat).
Proof.
  revert k. induction rest as [|b rest IH]; intros k; cbn [fold_left].
  - cbn. repeat split; [left; reflexivity|lia|tauto].
  - cbv zeta in IH |- *.
    destruct (WeatherService.count b conditions <? WeatherService.count k conditions)%nat eqn:E.
    + apply Nat.ltb_lt in E. destruct (IH k) as (H1 & H2 & H3).
      split; [|split].
      * destruct H1; [left; assumption|right; right; assumption].
      * exact H2.
      * intros x [<-|Hx]; [lia|apply H3; exact Hx].
    + apply Nat.ltb_ge in E. destruct (IH b) as (H1 & H2 & H3).
      split; [|split].
      * right. destruct H1; [left; symmetry; assumption|right; assumption].
      * lia.
      * intros x [<-|Hx]; [exact H2|apply H3; exact Hx].
Qed.



End WeatherServiceFacts.

Module CronJobsMoreFacts.
Import JS CronJobs EffMore CronJobsMore.

Lemma sends_app (t1 t2 : list Event) : sends (t1 ++ t2) = sends t1 ++ sends t2.
Proof. unfold sends. apply omap_app. Qed.

Lemma warnings_app (t1 t2 : list Event) :
  warnings (t1 ++ t2) = warnings t1 ++ warnings t2.
Proof. unfold warnings. apply omap_app. Qed.

Lemma sends_service {E} (f : E -> Event) (t : list E) :
  (forall e, is_send (f e) = false) -> sends (map f t) = [].
Proof.
  intros Hf. induction t as [|e t IH]; [reflexivity|].
  cbn [map]. change (f e :: map f t) with ([f e] ++ map f t).
  rewrite sends_app, IH. specialize (Hf e). destruct (f e) as [[]| |]; try discriminate; reflexivity.
Qed.

Lemma warnings_service {E} (f : E -> Event) (t : list E) :
  (forall e, is_job_warn (f e) = false) -> warnings (map f t) = [].
Proof.
  intros Hf. induction t as [|e t IH]; [reflexivity|].
  cbn [map]. change (f e :: map f t) with ([f e] ++ map f t).
  rewrite warnings_app, IH. specialize (Hf e). destruct (f e) as [[]| |]; try discriminate; reflexivity.
Qed.

(** A loop whose turns all complete: the sends and the warnings of the
    loop are those of its turns, in order. *)
Lemma for_of_sends {Env A} (f g : A -> list Z)
    (body : A -> Eff Env Event Datatypes.unit) (xs : list A) (s : Env) :
  (forall x s, In x xs ->
     exists s' t, body x s = (Ok tt, s', t) /\ sends t = f x /\ warnings t = g x) ->
  exists s' t, for_of xs body s = (Ok tt, s', t) /\
    sends t = concat (map f xs) /\ warnings t = concat (map g xs).
Proof.
  revert s. induction xs as [|x xs IH]; intros s Hbody.
  - exists s, []. repeat split.
  - destruct (Hbody x s (or_introl eq_refl)) as (s1 & t1 & Hx & Hs1 & Hw1).
    destruct (IH s1) as (s2 & t2 & Hxs & Hs2 & Hw2).
    { intros y s' Hy. apply Hbody. right. exact Hy. }
    exists s2, (t1 ++ t2). split; [|split].
    + cbn [for_of]. unfold bind. rewrite Hx, Hxs. reflexivity.
    + rewrite sends_app, Hs1, Hs2. reflexivity.
    + rewrite warnings_app, Hw1, Hw2. reflexivity.
Qed.

Lemma concat_map_nil {A B} (xs : list A) : concat (map (fun _ : A => @nil B) xs) = [].
Proof. induction xs; [reflexivity|assumption]. Qed.

Lemma concat_map_singleton {A B} (f : A -> B) (xs : list A) :
  concat (map (fun x => [f x]) xs) = map f xs.
Proof. induction xs as [|x xs IH]; [reflexivity|]. cbn. f_equal. exact IH. Qed.

Section Jobs.
Variable Env : Type.
Variable profile_interests : Profile -> list string.
Variable Math_random : Env -> Q * Env.
Variable Date_now : Env -> Z * Env.
Variable getHours : Env -> Z * Env.
Variable toLocaleString : Z -> string.
Variable findTips : Env -> Result (list (list Tip)) * Env.
Variable sendMessage : Z -> string -> Env -> Result Datatypes.unit * Env.
Variable getCurrentWeather :
  option Location -> Env -> Result WeatherService.Current * Env.
Variable toLowerCase : string -> string.
Variable toUpperCase : string -> string.
Variable saveMarketData :
  list MarketService.PriceData -> Z -> Z -> Env -> Result Datatypes.unit * Env.
Variable findCachedPrices :
  Env -> Result (list (list MarketService.PriceData)) * Env.
Variable show_number : option Q -> string.

Local Abbreviation market_alert_turn :=
  (CronJobsMore.market_alert_turn Env Math_random Date_now toLocaleString sendMessage
     toLowerCase toUpperCase saveMarketData findCachedPrices show_number).
Local Abbreviation checkMarketAlerts :=
  (CronJobsMore.checkMarketAlerts Env Math_random Date_now toLocaleString sendMessage
     toLowerCase toUpperCase saveMarketData findCachedPrices show_number).

Lemma market_alert_turn_run (user : User) (s : Env) :
  unit_interval Math_random ->
  exists s' t, market_alert_turn user s = (Ok tt, s', t) /\
    sends t = [] /\ warnings t = [].
Proof.
  intros Hu.
  destruct (MarketServiceFacts.getMarketAlerts_run Env toLowerCase toUpperCase
              Math_random Date_now saveMarketData findCachedPrices show_number
              user s Hu) as (s1 & t & H).
  unfold CronJobsMore.market_alert_turn, try_catch. unfold bind at 1.
  unfold lift at 1. rewrite H. cbn.
  eexists _, _. split; [reflexivity|].
  rewrite sends_app, warnings_app, sends_service, warnings_service by reflexivity.
  split; reflexivity.
Qed.

(** X11.  The market alert job never sends anything: with [Math.random] in
    its interval, a run of [checkMarketAlerts] completes without a single
    message and without a warning, whoever is registered. *)
Theorem checkMarketAlerts_never_sends (collection : list User) (s : Env) :
  unit_interval Math_random ->
  result_of (checkMarketAlerts collection s) = Ok tt /\
  sends (trace_of (checkMarketAlerts collection s)) = [] /\
  warnings (trace_of (checkMarketAlerts collection s)) = [].
Proof.
  intros Hu.
  destruct (for_of_sends (fun _ => []) (fun _ => []) market_alert_turn
              (find_market_alert_users collection) s) as (s' & t & H & Hs & Hw).
  { intros u s0 _. apply market_alert_turn_run. exact Hu. }
  unfold CronJobsMore.checkMarketAlerts, try_catch. cbv zeta. rewrite H.
  unfold result_of, trace_of. cbn [fst snd].
  rewrite Hs, Hw, !concat_map_nil. repeat split.
Qed.

Local Abbreviation formatWeatherAlertMessage :=
  (CronJobsMore.formatWeatherAlertMessage Env Date_now toLocaleString).
Local Abbreviation weather_alert_turn :=
  (CronJobsMore.weather_alert_turn Env Date_now toLocaleString sendMessage
     getCurrentWeather).
Local Abbreviation checkWeatherAlerts :=
  (CronJobsMore.checkWeatherAlerts Env Date_now toLocaleString sendMessage
     getCurrentWeather).

Lemma find_weather_alert_users_located (collection : list User) (u : User) :
  In u (find_weather_alert_users collection) ->
  exists p loc, profile u = Some p /\ location p = Some loc.
Proof.
  unfold find_weather_alert_users. rewrite List.filter_In. intros [_ H].
  destruct (profile u) as [p|]; cbn in H.
  - destruct (location p) as [loc|] eqn:El; cbn in H.
    + exists p, loc. split; [reflexivity|exact El].
    + rewrite andb_false_r in H. discriminate.
  - rewrite andb_false_r in H. discriminate.
Qed.

Lemma weather_alert_turn_down (u : User) (s : Env) (p : Profile) :
  weather_unavailable getCurrentWeather ->
  profile u = Some p ->
  exists s', weather_alert_turn u s = (Ok tt, s', silent_turn).
Proof.
  intros Hdown Hp.
  destruct (Hdown (location p) s) as (e & s1 & Hw).
  unfold CronJobsMore.weather_alert_turn. rewrite Hp.
  unfold try_catch at 1. unfold bind at 1. unfold lift at 1.
  unfold WeatherService.getWeatherAlerts, try_catch. unfold bind at 1.
  rewrite Hw. cbn. exists s1. reflexivity.
Qed.


Lemma alert_loop_run (u : User) (p : Profile) (loc : Location)
    (alerts : list WeatherService.Alert) (s : Env) :
  channel_accepts sendMessage ->
  profile u = Some p -> location p = Some loc ->
  exists s' t,
    for_of alerts
      (fun alert =>
         do message <- formatWeatherAlertMessage alert u;
         job Env (bot_sendMessage Env sendMessage (telegramId u) message)) s
    = (Ok tt, s', t) /\
    sends t = repeat (telegramId u) (length alerts) /\ warnings t = [].
Proof.
  intros Hacc Hp Hloc. revert s.
  induction alerts as [|a rest IH]; intros s.
  - exists s, []. repeat split.
  - cbn [for_of]. unfold bind at 1. unfold bind at 1.
    unfold CronJobsMore.formatWeatherAlertMessage at 1. rewrite Hp. cbn [mbind option_bind].
    rewrite Hloc. unfold bind at 1. unfold CronJobsMore.now at 1.
    destruct (Date_now s) as [t0 s0]. cbn [ret].
    unfold job, lift, bot_sendMessage.
    match goal with |- context [sendMessage ?i ?m s0] =>
      destruct (Hacc i m s0) as (s1 & Hsend); rewrite Hsend end.
    destruct (IH s1) as (s2 & t2 & Hrest & Hs & Hw).
    cbn [map app]. unfold job, lift, bot_sendMessage in Hrest. rewrite Hrest.
    eexists _, _. split; [reflexivity|].
    cbn [length repeat]. split.
    + cbn. f_equal. exact Hs.
    + cbn. exact Hw.
Qed.

Lemma weather_alert_turn_up (reading : option Location -> WeatherService.Current)
    (u : User) (s : Env) (p : Profile) (loc : Location) :
  weather_reads getCurrentWeather reading ->
  channel_accepts sendMessage ->
  profile u = Some p -> location p = Some loc ->
  exists s' t, weather_alert_turn u s = (Ok tt, s', t) /\
    sends t = repeat (telegramId u) (alert_count reading u) /\ warnings t = [].
Proof.
  intros Hup Hacc Hp Hloc.
  destruct (Hup (location p) s) as (s1 & Hw).
  unfold alert_count. rewrite Hp.
  unfold CronJobsMore.weather_alert_turn. rewrite Hp.
  unfold try_catch at 1. unfold bind at 1. unfold lift at 1.
  unfold WeatherService.getWeatherAlerts, try_catch. unfold bind at 1.
  rewrite Hw. cbn [ret map app].
  set (alerts := WeatherService.generateWeatherAlerts (reading (location p))).
  unfold bind at 1.
  destruct (alert_loop_run u p loc alerts s1 Hacc Hp Hloc) as (s2 & t & Hloop & Hs & Hwn).
  destruct (0 <? length alerts)%nat eqn:Elen.
  - rewrite Hloop. cbn. eexists _, _. split; [reflexivity|].
    rewrite sends_app, warnings_app, Hs, Hwn. cbn. rewrite app_nil_r. split; reflexivity.
  - apply Nat.ltb_ge in Elen. assert (length alerts = 0)%nat as -> by lia.
    cbn. eexists _, _. split; [reflexivity|]. split; reflexivity.
Qed.

(** X13.  With the weather provider answering and the channel accepting,
    the weather alert job sends every account it serves one message per
    alert of its place, in the order of the accounts, and logs no
    warning. *)
Theorem checkWeatherAlerts_one_message_per_alert
    (reading : option Location -> WeatherService.Current)
    (collection : list User) (s : Env) :
  weather_reads getCurrentWeather reading ->
  channel_accepts sendMessage ->
  sends (trace_of (checkWeatherAlerts collection s)) =
    concat (map (fun u => repeat (telegramId u) (alert_count reading u))
              (find_weather_alert_users collection)) /\
  warnings (trace_of (checkWeatherAlerts collection s)) = [].
Proof.
  intros Hup Hacc.
  destruct (for_of_sends
              (fun u => repeat (telegramId u) (alert_count reading u)) (fun _ => [])
              weather_alert_turn (find_weather_alert_users collection) s)
    as (s' & t & H & Hs & Hw).
  { intros u s0 Hin.
    destruct (find_weather_alert_users_located _ _ Hin) as (p & loc & Hp & Hloc).
    eapply weather_alert_turn_up; eassumption. }
  unfold CronJobsMore.checkWeatherAlerts, try_catch. cbv zeta. rewrite H.
  unfold trace_of. cbn [snd]. rewrite Hs, Hw, concat_map_nil. split; reflexivity.
Qed.

Local Abbreviation getDailyTips := (CronJobsMore.getDailyTips Env findTips).
Local Abbreviation relevant := (CronJobsMore.relevant profile_interests).
Local Abbreviation selectPersonalizedTip :=
  (CronJobsMore.selectPersonalizedTip Env profile_interests Math_random).
Local Abbreviation formatTipMessage := (CronJobsMore.formatTipMessage Env getHours).
Local Abbreviation tip_turn :=
  (CronJobsMore.tip_turn Env profile_interests Math_random getHours sendMessage).
Local Abbreviation sendDailyTips :=
  (CronJobsMore.sendDailyTips Env profile_interests Math_random getHours findTips
     sendMessage).

Lemma index_in_range {A} (xs : list A) (r : Q) :
  xs <> [] -> (0 <= r)%Q -> (r < 1)%Q ->
  exists x,
    index xs (Num.Math_floor (r * inject_Z (Z.of_nat (length xs)))) = Some x /\
    In x xs.
Proof.
  intros Hne H0 H1.
  assert (Hlen : (0 < length xs)%nat) by (destruct xs; [contradiction|cbn; lia]).
  set (n := Z.of_nat (length xs)).
  assert (Hn : (0 < inject_Z n)%Q).
  { change 0%Q with (inject_Z 0). rewrite <- Zlt_Qlt. lia. }
  assert (Hlo : (0 <= Num.Math_floor (r * inject_Z n))%Z).
  { unfold Num.Math_floor. rewrite <- (Qfloor_Z 0). apply Qfloor_resp_le.
    change (inject_Z 0) with 0%Q. apply Qmult_le_0_compat; [exact H0|].
    apply Qlt_le_weak. exact Hn. }
  assert (Hhi : (Num.Math_floor (r * inject_Z n) < n)%Z).
  { unfold Num.Math_floor. rewrite Zlt_Qlt.
    eapply Qle_lt_trans; [apply Qfloor_le|].
    rewrite <- (Qmult_1_l (inject_Z n)) at 2.
    apply Qmult_lt_compat_r; assumption. }
  unfold index.
  destruct (Z.ltb_spec (Num.Math_floor (r * inject_Z n)) 0) as [Hneg|_]; [lia|].
  destruct (nth_error xs (Z.to_nat (Num.Math_floor (r * inject_Z n)))) as [x|] eqn:E.
  - exists x. split; [reflexivity|]. eapply nth_error_In. exact E.
  - apply List.nth_error_None in E. lia.
Qed.

(** X14.  [selectPersonalizedTip] picks a tip of the list, and one that is
    relevant to the account whenever the list holds a relevant one; it
    needs a list that is not empty and [Math.random] in its interval. *)
Theorem selectPersonalizedTip_prefers_relevant
    (tips : list Tip) (user : User) (s : Env) :
  unit_interval Math_random -> tips <> [] ->
  exists tip,
    result_of (selectPersonalizedTip tips user s) = Ok (Some tip) /\
    In tip tips /\
    (existsb (relevant user) tips = true -> relevant user tip = true).
Proof.
  intros Hu Hne.
  unfold CronJobsMore.selectPersonalizedTip, bind, CronJobsMore.random, ret.
  destruct (Math_random s) as [r s1] eqn:Er.
  destruct (Hu s) as [H0 H1]. rewrite Er in H0, H1. cbn [fst] in H0, H1.
  cbv beta iota zeta. unfold result_of. cbn [fst].
  destruct (List.filter (relevant user) tips) as [|t0 ts] eqn:Ef.
  - cbn [length Nat.eqb].
    destruct (index_in_range tips r Hne H0 H1) as (x & Hx & Hin).
    exists x. split; [rewrite Hx; reflexivity|]. split; [exact Hin|].
    intros Hex. apply existsb_exists in Hex. destruct Hex as (y & Hy & Hrel).
    assert (Hyf : In y (List.filter (relevant user) tips)).
    { apply List.filter_In. split; assumption. }
    rewrite Ef in Hyf. destruct Hyf.
  - cbn [length Nat.eqb].
    destruct (index_in_range (t0 :: ts) r ltac:(discriminate) H0 H1) as (x & Hx & Hin).
    exists x. split; [cbn [length] in Hx; rewrite Hx; reflexivity|].
    rewrite <- Ef in Hin. apply List.filter_In in Hin. destruct Hin as [Hin Hrel].
    split; [exact Hin|]. intros _. exact Hrel.
Qed.

Lemma selectPersonalizedTip_run
    (tips : list Tip) (user : User) (s : Env) :
  unit_interval Math_random -> tips <> [] ->
  exists tip s', selectPersonalizedTip tips user s = (Ok (Some tip), s', []).
Proof.
  intros Hu Hne.
  unfold CronJobsMore.selectPersonalizedTip, bind, CronJobsMore.random, ret.
  destruct (Math_random s) as [r s1] eqn:Er.
  destruct (Hu s) as [H0 H1]. rewrite Er in H0, H1. cbn [fst] in H0, H1.
  cbv beta iota zeta.
  destruct (List.filter (relevant user) tips) as [|t0 ts] eqn:Ef.
  - cbn [length Nat.eqb].
    destruct (index_in_range tips r Hne H0 H1) as (x & Hx & Hin).
    exists x, s1. rewrite Hx. reflexivity.
  - cbn [length Nat.eqb].
    destruct (index_in_range (t0 :: ts) r ltac:(discriminate) H0 H1) as (x & Hx & Hin).
    exists x, s1. cbn [length] in Hx. rewrite Hx. reflexivity.
Qed.

Lemma getDailyTips_down (s : Env) :
  tips_unavailable findTips ->
  exists s', getDailyTips s = (Ok [], s', [Job (LogError "Error getting daily tips:")]).
Proof.
  intros Hdown. destruct (Hdown s) as (e & s1 & H).
  unfold CronJobsMore.getDailyTips, try_catch, bind, job, lift, call.
  rewrite H. cbn. exists s1. reflexivity.
Qed.

Lemma getDailyTips_up (s : Env) :
  tips_available findTips ->
  exists tips s', getDailyTips s = (Ok tips, s', []) /\ tips <> [].
Proof.
  intros Hup. destruct (Hup s) as (docs & s1 & H & Hdocs).
  unfold CronJobsMore.getDailyTips, try_catch, bind, job, lift, call.
  rewrite H. destruct docs as [|d ds].
  - cbn. eexists _, _. split; [reflexivity|discriminate].
  - cbn. eexists _, _. split; [reflexivity|].
    inversion Hdocs as [|? ? Hd _]; subst. destruct d; [contradiction|discriminate].
Qed.

Lemma tip_turn_without_tips (user : User) (s : Env) :
  exists s', tip_turn [] user s =
             (Ok tt, s', [Job (LogWarn "Failed to send tip to user" (telegramId user))]).
Proof.
  unfold CronJobsMore.tip_turn, try_catch. unfold bind at 1.
  unfold CronJobsMore.selectPersonalizedTip, bind at 1, CronJobsMore.random, ret.
  destruct (Math_random s) as [r s1].
  assert (E : forall i, index (@nil Tip) i = None).
  { intros i. unfold index. destruct (_ <? 0)%Z; [reflexivity|].
    apply List.nth_error_None. cbn. lia. }
  cbn [List.filter length Nat.eqb]. rewrite E.
  unfold bind at 1. unfold CronJobsMore.formatTipMessage, bind at 1, CronJobsMore.hours.
  destruct (getHours s1) as [h s2]. cbn. exists s2. reflexivity.
Qed.

Lemma sendDailyTips_down_run (collection : list User) (s : Env) :
  tips_unavailable findTips ->
  exists s', sendDailyTips collection s =
    (Ok tt, s',
     [Job (LogInfo "Sending daily tips to" (length (find_tip_users collection)));
      Job (LogError "Error getting daily tips:")]
     ++ map (fun u => Job (LogWarn "Failed to send tip to user" (telegramId u)))
          (find_tip_users collection)).
Proof.
  intros Hdown.
  unfold CronJobsMore.sendDailyTips, try_catch. cbv zeta.
  unfold bind at 1. unfold emit at 1. unfold bind at 1.
  destruct (getDailyTips_down s Hdown) as (s1 & Hd). rewrite Hd.
  destruct (EffFacts.for_of_traces
              (fun u => [Job (LogWarn "Failed to send tip to user" (telegramId u))])
              (tip_turn []) (find_tip_users collection) s1) as (s2 & H).
  { intros u s0 _. apply tip_turn_without_tips. }
  rewrite H, concat_map_singleton. exists s2. reflexivity.
Qed.

(** X15.  When the tip store cannot be read, the daily tip job completes
    without sending anything: every recipient is logged as a failed
    delivery, in order, and nobody receives a message. *)
Theorem sendDailyTips_nothing_sent_without_tips (collection : list User) (s : Env) :
  tips_unavailable findTips ->
  result_of (sendDailyTips collection s) = Ok tt /\
  sends (trace_of (sendDailyTips collection s)) = [] /\
  warnings (trace_of (sendDailyTips collection s)) =
    map telegramId (find_tip_users collection).
Proof.
  intros Hdown.
  destruct (sendDailyTips_down_run collection s Hdown) as (s' & H). rewrite H.
  unfold result_of, trace_of. cbn [fst snd].
  split; [reflexivity|].
  rewrite sends_app, warnings_app.
  set (us := find_tip_users collection). clearbody us.
  induction us as [|u us IH]; [split; reflexivity|].
  destruct IH as [IH1 IH2]. cbn [map].
  change (?a :: map ?f us) with ([a] ++ map f us).
  rewrite !sends_app in *. rewrite !warnings_app in *. cbn in *.
  split; [exact IH1|]. f_equal. exact IH2.
Qed.

Lemma tip_turn_with_tips (tips : list Tip) (user : User) (s : Env) :
  unit_interval Math_random -> channel_accepts sendMessage -> tips <> [] ->
  exists s' t, tip_turn tips user s = (Ok tt, s', t) /\
    sends t = [telegramId user] /\ warnings t = [].
Proof.
  intros Hu Hacc Hne.
  destruct (selectPersonalizedTip_run tips user s Hu Hne)
    as (tip & s1 & Hsel).
  unfold CronJobsMore.tip_turn, try_catch. unfold bind at 1. rewrite Hsel.
  unfold bind at 1. unfold CronJobsMore.formatTipMessage, bind at 1, CronJobsMore.hours.
  destruct (getHours s1) as [h s2]. cbn [ret].
  unfold bind at 1. unfold job, lift, bot_sendMessage.
  match goal with |- context [sendMessage ?i ?m s2] =>
    destruct (Hacc i m s2) as (s3 & Hsend); rewrite Hsend end.
  cbn. eexists _, _. split; [reflexivity|]. split; reflexivity.
Qed.

Lemma sendDailyTips_up_run (collection : list User) (s : Env) :
  tips_available findTips -> unit_interval Math_random ->
  channel_accepts sendMessage ->
  exists s' t, sendDailyTips collection s = (Ok tt, s', t) /\
    sends t = map telegramId (find_tip_users collection) /\ warnings t = [].
Proof.
  intros Hup Hu Hacc.
  unfold CronJobsMore.sendDailyTips, try_catch. cbv zeta.
  unfold bind at 1. unfold emit at 1. unfold bind at 1.
  destruct (getDailyTips_up s Hup) as (tips & s1 & Hd & Hne). rewrite Hd.
  destruct (for_of_sends (fun u => [telegramId u]) (fun _ => [])
              (tip_turn tips) (find_tip_users collection) s1)
    as (s2 & t & H & Hs & Hw).
  { intros u s0 _. apply tip_turn_with_tips; assumption. }
  rewrite H. eexists _, _. split; [reflexivity|].
  cbn [app]. change (?a :: t) with ([a] ++ t).
  rewrite sends_app, warnings_app, Hs, Hw, concat_map_nil, concat_map_singleton.
  split; reflexivity.
Qed.

(** X16.  With the tip store answering, [Math.random] in its interval and
    the channel accepting, the daily tip job sends every recipient exactly
    one message, in order, and logs no warning. *)
Theorem sendDailyTips_one_tip_each (collection : list User) (s : Env) :
  tips_available findTips -> unit_interval Math_random ->
  channel_accepts sendMessage ->
  sends (trace_of (sendDailyTips collection s)) =
    map telegramId (find_tip_users collection) /\
  warnings (trace_of (sendDailyTips collection s)) = [].
Proof.
  intros Hup Hu Hacc.
  destruct (sendDailyTips_up_run collection s Hup Hu Hacc) as (s' & t & H & Hs & Hw).
  rewrite H. unfold trace_of. cbn [snd]. split; assumption.
Qed.

End Jobs.
(** Scenarios: three accounts, the second one banned. *)

Lemma no_weather_unavailable : weather_unavailable no_weather.
Proof. intros loc s. exists "ECONNREFUSED", s. reflexivity. Qed.

Lemma frost_everywhere_reads : weather_reads frost_everywhere (fun _ => frost).
Proof. intros loc s. exists s. reflexivity. Qed.

Lemma accept_accepts : channel_accepts accept.
Proof. intros chatId text s. exists s. reflexivity. Qed.

Lemma no_tips_unavailable : tips_unavailable no_tips.
Proof. intros s. exists "MongoNetworkError", s. reflexivity. Qed.

Lemma stored_tips_available : tips_available stored_tips.
Proof.
  intros s. exists [fallbackTips], s. split; [reflexivity|].
  constructor; [discriminate|constructor].
Qed.

Lemma checkMarketAlerts_never_sends_witness :
  sends (trace_of (checkMarketAlerts Datatypes.unit half clock_zero show_date accept
                     toLowerCase_ascii toUpperCase_ascii store_ok no_cache show_none
                     growers tt)) = [].
Proof.
  exact (proj1 (proj2 (checkMarketAlerts_never_sends Datatypes.unit half clock_zero
                         show_date accept toLowerCase_ascii toUpperCase_ascii
                         store_ok no_cache show_none growers tt
                         MarketServiceFacts.half_unit_interval))).
Defined.


Lemma checkWeatherAlerts_one_message_per_alert_witness :
  sends (trace_of (checkWeatherAlerts Datatypes.unit clock_zero show_date accept
                     frost_everywhere growers tt))
  = [7; 7; 9; 9]%Z.
Proof.
  exact (proj1 (checkWeatherAlerts_one_message_per_alert Datatypes.unit clock_zero
                  show_date accept frost_everywhere (fun _ => frost) growers tt
                  frost_everywhere_reads accept_accepts)).
Defined.

Lemma selectPersonalizedTip_prefers_relevant_witness :
  exists tip,
    result_of (selectPersonalizedTip Datatypes.unit no_interests half fallbackTips
                 (grower 7 false) tt) = Ok (Some tip) /\
    In tip fallbackTips /\
    (existsb (relevant no_interests (grower 7 false)) fallbackTips = true ->
     relevant no_interests (grower 7 false) tip = true).
Proof.
  apply (selectPersonalizedTip_prefers_relevant Datatypes.unit no_interests half
           fallbackTips (grower 7 false) tt MarketServiceFacts.half_unit_interval).
  discriminate.
Defined.

Lemma sendDailyTips_nothing_sent_without_tips_witness :
  warnings (trace_of (sendDailyTips Datatypes.unit no_interests half clock_zero
                        no_tips accept growers tt)) = [7; 9]%Z.
Proof.
  exact (proj2 (proj2 (sendDailyTips_nothing_sent_without_tips Datatypes.unit
                         no_interests half clock_zero no_tips accept growers tt
                         no_tips_unavailable))).
Defined.

Lemma sendDailyTips_one_tip_each_witness :
  sends (trace_of (sendDailyTips Datatypes.unit no_interests half clock_zero
                     stored_tips accept growers tt)) = [7; 9]%Z.
Proof.
  exact (proj1 (sendDailyTips_one_tip_each Datatypes.unit no_interests half
                  clock_zero stored_tips accept growers tt stored_tips_available
                  MarketServiceFacts.half_unit_interval accept_accepts)).
Defined.

End CronJobsMoreFacts.

Module RateLimiterMoreFacts.
Import RateLimiter RateLimiterMore.

Lemma prefixed_neq (p u : string) : p <> EmptyString -> (p ++ u)%string <> u.
Proof.
  intros Hp E. apply (f_equal String.length) in E.
  assert (L : forall a b : string,
             String.length (a ++ b)%string = (String.length a + String.length b)%nat).
  { intros a b. induction a as [|c a IH]; [reflexivity|].
    change (S (String.length (a ++ b)%string) = S (String.length a + String.length b)).
    rewrite IH. reflexivity. }
  rewrite L in E. destruct p; [contradiction|]. cbn in E. lia.
Qed.

Lemma consume_frame opts now key key' store :
  key' <> key -> (consume opts now key store).2 !! key' = store !! key'.
Proof.
  intros Hne. unfold consume. cbn [snd]. apply lookup_insert_ne. congruence.
Qed.

Lemma check_frame limiter now key key' store :
  key' <> key -> (check limiter now key store).2 !! key' = store !! key'.
Proof.
  intros Hne. unfold check.
  pose proof (consume_frame limiter now key key' store Hne) as H.
  destruct (consume limiter now key store) as [[res|res] store']; exact H.
Qed.

Lemma check_all_frame limiter times key key' store :
  key' <> key -> (check_all limiter times key store).2 !! key' = store !! key'.
Proof.
  intros Hne. revert store. induction times as [|now rest IH]; intros store.
  - reflexivity.
  - cbn [check_all].
    pose proof (check_frame limiter now key key' store Hne) as H.
    destruct (check limiter now key store) as [c store1].
    specialize (IH store1).
    destruct (check_all limiter rest key store1) as [cs store2].
    cbn [snd] in *. congruence.
Qed.

(** The answer of a check depends on the entry of its key only. *)
Lemma check_local limiter now key store1 store2 :
  store1 !! key = store2 !! key ->
  (check limiter now key store1).1 = (check limiter now key store2).1.
Proof.
  intros E. unfold check, consume. rewrite E.
  destruct (store2 !! key) as [e|]; cbn;
    repeat match goal with |- context [if ?b then _ else _] => destruct b end;
    reflexivity.
Qed.

Section Library.
Variable get :
  Options -> Z -> string -> gmap string Entry -> Result (option RateLimiterRes).
Variable delete :
  string -> gmap string Entry -> Result bool * gmap string Entry.
Variable apiOptions : Options.

(** X17.  [getRateLimitStatus] does not see what [checkBotRateLimit] and
    [checkMessageRateLimit] consume: they count under the identity, the
    status is read under the identity prefixed with [bot_] or [message_].
    Whatever commands and messages an identity has sent, its status for
    both kinds is the full allowance, not blocked. *)
Theorem getRateLimitStatus_blind_to_bot_traffic
    (now : Z) (commands messages : list Z) (userId : string) (stores : Stores) :
  get_absent get ->
  botStore stores !! ("bot_" ++ userId)%string = None ->
  messageStore stores !! ("message_" ++ userId)%string = None ->
  getRateLimitStatus get apiOptions now userId "bot"
    (after_traffic commands messages userId stores) = untouched botLimiter /\
  getRateLimitStatus get apiOptions now userId "message"
    (after_traffic commands messages userId stores) = untouched messageLimiter.
Proof.
  intros Hget Hbot Hmsg. unfold getRateLimitStatus, after_traffic.
  change (String.eqb "bot" "bot") with true.
  change (String.eqb "message" "bot") with false.
  change (String.eqb "message" "message") with true.
  cbv iota beta. cbn [botStore messageStore].
  rewrite !Hget; [split; reflexivity| |].
  - rewrite check_all_frame; [exact Hmsg|]. apply prefixed_neq. discriminate.
  - rewrite check_all_frame; [exact Hbot|]. apply prefixed_neq. discriminate.
Qed.

(** X18.  [resetRateLimit] does not reset what the bot checks count: it
    deletes the keys prefixed with [bot_] and [message_], the checks count
    under the identity itself.  After a reset of any type the next command
    and the next message of the identity are answered as without the
    reset. *)
Theorem resetRateLimit_keeps_bot_counters
    (now : Z) (userId type : string) (stores : Stores) :
  delete_frame delete ->
  let stores' := (resetRateLimit delete userId type stores).1.2 in
  (checkBotRateLimit now userId (botStore stores')).1
    = (checkBotRateLimit now userId (botStore stores)).1 /\
  (checkMessageRateLimit now userId (messageStore stores')).1
    = (checkMessageRateLimit now userId (messageStore stores)).1.
Proof.
  intros Hdel. cbv zeta.
  assert (Hb : botStore (resetRateLimit delete userId type stores).1.2 !! userId
               = botStore stores !! userId).
  { unfold resetRateLimit.
    destruct (String.eqb type "all" || String.eqb type "api");
      destruct (String.eqb type "all" || String.eqb type "bot");
      destruct (String.eqb type "all" || String.eqb type "message");
      repeat match goal with
             | |- context [delete ?k ?st] =>
                 let H := fresh "H" in
                 pose proof (Hdel k userId st) as H;
                 destruct (delete k st) as [[?|?] ?]
             end;
      cbn [fst snd botStore] in *; try reflexivity;
      match goal with
      | H : _ -> ?x !! userId = botStore stores !! userId |- _ =>
          apply H; intros E; symmetry in E; revert E; apply prefixed_neq; discriminate
      end. }
  assert (Hm : messageStore (resetRateLimit delete userId type stores).1.2 !! userId
               = messageStore stores !! userId).
  { unfold resetRateLimit.
    destruct (String.eqb type "all" || String.eqb type "api");
      destruct (String.eqb type "all" || String.eqb type "bot");
      destruct (String.eqb type "all" || String.eqb type "message");
      repeat match goal with
             | |- context [delete ?k ?st] =>
                 let H := fresh "H" in
                 pose proof (Hdel k userId st) as H;
                 destruct (delete k st) as [[?|?] ?]
             end;
      cbn [fst snd messageStore] in *; try reflexivity;
      match goal with
      | H : _ -> ?x !! userId = messageStore stores !! userId |- _ =>
          apply H; intros E; symmetry in E; revert E; apply prefixed_neq; discriminate
      end. }
  split; apply check_local; assumption.
Qed.
End Library.

Lemma getAdjustedLimit_100_pos (this : AdaptiveRateLimiter) (userId : Z) :
  (1 <= getAdjustedLimit this userId 100)%Z.
Proof.
  unfold getAdjustedLimit.
  repeat match goal with |- context [if ?b then _ else _] => destruct b end;
    vm_compute; discriminate.
Qed.

Section Adaptive.
Variable apiOptions : Options.
Variable keyOf : Z -> string.

(** X19.  [adaptiveRateLimiter] never limits an identified account: the
    limiter it consumes from is made anew for every request, so that the
    first point of a fresh allowance is always there.  Unless the account
    is blocked, the request passes, whatever its trust score, the time and
    the requests before it, and the store of [apiLimiter] is left as it
    was. *)
Theorem adaptiveRateLimiter_never_limits
    (adaptiveLimiter : AdaptiveRateLimiter) (now userId : Z) (ip : string)
    (store : gmap string Entry) :
  userId <> 0%Z ->
  shouldBlock adaptiveLimiter userId = false ->
  adaptiveRateLimiter apiOptions keyOf adaptiveLimiter now (Some userId) ip store
  = (Passed, store).
Proof.
  intros Hid Hblock. unfold adaptiveRateLimiter.
  pose proof (getAdjustedLimit_100_pos adaptiveLimiter userId) as Hl.
  destruct userId as [|p|p]; [contradiction| |]; rewrite Hblock;
    unfold consume; rewrite lookup_empty; cbn [value points];
    match goal with |- context [(?a <? 1)%Z] =>
      destruct (Z.ltb_spec a 1) as [Hlt|_]; [lia|reflexivity] end.
Qed.
End Adaptive.

Lemma get_memory_absent : get_absent get_memory.
Proof. intros opts now key store H. unfold get_memory. rewrite H. reflexivity. Qed.

Lemma delete_memory_frame : delete_frame delete_memory.
Proof.
  intros key key' store Hne. unfold delete_memory. cbn [snd].
  apply lookup_delete_ne. congruence.
Qed.

(** Scenario: forty commands in one instant, ten more than allowed. *)
Lemma getRateLimitStatus_blind_to_bot_traffic_witness :
  (check_all botLimiter (repeat 0%Z 40) "42" ∅).1 !! 39%nat
    = Some {| allowed := false; remainingTime := Some 60%Z |} /\
  getRateLimitStatus get_memory botLimiter 0 "42" "bot"
    (after_traffic (repeat 0%Z 40) [] "42" no_stores) = untouched botLimiter.
Proof.
  split; [vm_compute; reflexivity|].
  exact (proj1 (getRateLimitStatus_blind_to_bot_traffic get_memory botLimiter 0
                  (repeat 0%Z 40) [] "42" no_stores get_memory_absent
                  (lookup_empty _) (lookup_empty _))).
Defined.

Lemma resetRateLimit_keeps_bot_counters_witness :
  let stores := after_traffic (repeat 0%Z 40) [] "42" no_stores in
  let stores' := (resetRateLimit delete_memory "42" "all" stores).1.2 in
  (checkBotRateLimit 0 "42" (botStore stores')).1
  = (checkBotRateLimit 0 "42" (botStore stores)).1.
Proof.
  exact (proj1 (resetRateLimit_keeps_bot_counters delete_memory 0 "42" "all"
                  (after_traffic (repeat 0%Z 40) [] "42" no_stores)
                  delete_memory_frame)).
Defined.

Lemma adaptiveRateLimiter_never_limits_witness :
  adaptiveRateLimiter botLimiter (fun _ => "42") new_AdaptiveRateLimiter 0 (Some 42%Z)
    "10.0.0.1" ∅ = (Passed, ∅).
Proof.
  apply (adaptiveRateLimiter_never_limits botLimiter (fun _ => "42")
           new_AdaptiveRateLimiter 0 42 "10.0.0.1" ∅); [discriminate|].
  vm_compute. reflexivity.
Defined.

End RateLimiterMoreFacts.

Module AuthMoreFacts.
Import JS Auth AuthSpec AuthMore.

(** *** The order of strings *)

Lemma ascii_compare_N (a b : ascii) :
  Ascii.compare a b = N.compare (N_of_ascii a) (N_of_ascii b).
Proof. reflexivity. Qed.

Lemma string_compare_le_trans (s1 s2 s3 : string) :
  String.compare s1 s2 <> Gt -> String.compare s2 s3 <> Gt ->
  String.compare s1 s3 <> Gt.
Proof.
  revert s2 s3. induction s1 as [|a s1 IH]; intros [|b s2] [|c s3]; cbn;
    try congruence.
  rewrite !ascii_compare_N.
  destruct (N.compare_spec (N_of_ascii a) (N_of_ascii b)) as [Eab|Lab|Gab];
    destruct (N.compare_spec (N_of_ascii b) (N_of_ascii c)) as [Ebc|Lbc|Gbc];
    try congruence; intros H1 H2.
  - rewrite Eab, Ebc, N.compare_refl. eapply IH; eassumption.
  - rewrite Eab. apply N.compare_lt_iff in Lbc. rewrite Lbc. discriminate.
  - rewrite <- Ebc. apply N.compare_lt_iff in Lab. rewrite Lab. discriminate.
  - assert (L : (N_of_ascii a < N_of_ascii c)%N) by lia.
    apply N.compare_lt_iff in L. rewrite L. discriminate.
Qed.

Lemma leb_trans (s1 s2 s3 : string) :
  String.leb s1 s2 = true -> String.leb s2 s3 = true -> String.leb s1 s3 = true.
Proof.
  unfold String.leb. intros H1 H2.
  pose proof (string_compare_le_trans s1 s2 s3) as H.
  destruct (String.compare s1 s2); destruct (String.compare s2 s3);
    destruct (String.compare s1 s3); try reflexivity; try discriminate;
    exfalso; apply H; congruence.
Qed.

Lemma insert_sorted_perm (x : string) (xs : list string) :
  Permutation (insert_sorted x xs) (x :: xs).
Proof.
  induction xs as [|y xs IH]; cbn [insert_sorted]; [reflexivity|].
  destruct (String.leb x y); [reflexivity|].
  rewrite IH. apply perm_swap.
Qed.

Lemma sort_perm (xs : list string) : Permutation (sort xs) xs.
Proof.
  induction xs as [|x xs IH]; [reflexivity|].
  unfold sort in *. cbn [fold_right]. rewrite insert_sorted_perm, IH. reflexivity.
Qed.

Lemma insert_sorted_sorted (x : string) (xs : list string) :
  StronglySorted (fun a b => String.leb a b = true) xs ->
  StronglySorted (fun a b => String.leb a b = true) (insert_sorted x xs).
Proof.
  induction 1 as [|y xs Hs IH Hy]; cbn [insert_sorted].
  - repeat constructor.
  - destruct (String.leb x y) eqn:E.
    + constructor; [constructor; assumption|].
      constructor; [exact E|].
      eapply List.Forall_impl; [|exact Hy]. intros z Hz. cbv beta in *.
      eapply leb_trans; eassumption.
    + constructor; [exact IH|].
      assert (Hyx : String.leb y x = true).
      { destruct (String.leb_total x y) as [H|H]; [congruence|exact H]. }
      rewrite List.Forall_forall in *. intros z Hz.
      apply (Permutation_in _ (insert_sorted_perm x xs)) in Hz.
      destruct Hz as [<-|Hz]; [exact Hyx|apply Hy; exact Hz].
Qed.

Lemma sort_sorted (xs : list string) :
  StronglySorted (fun a b => String.leb a b = true) (sort xs).
Proof.
  induction xs as [|x xs IH]; [constructor|].
  unfold sort in *. cbn [fold_right]. apply insert_sorted_sorted. exact IH.
Qed.

Lemma sorted_unique (xs ys : list string) :
  StronglySorted (fun a b => String.leb a b = true) xs ->
  StronglySorted (fun a b => String.leb a b = true) ys ->
  Permutation xs ys -> xs = ys.
Proof.
  intros Hx. revert ys. induction Hx as [|x xs Hxs IH Hx]; intros ys Hy Hp.
  - apply Permutation_nil in Hp. congruence.
  - destruct Hy as [|y ys Hys Hy].
    + symmetry in Hp. apply Permutation_nil in Hp. discriminate.
    + assert (E : x = y).
      { rewrite List.Forall_forall in Hx, Hy.
        assert (Hin1 : In y (x :: xs)).
        { eapply Permutation_in; [symmetry; exact Hp|left; reflexivity]. }
        assert (Hin2 : In x (y :: ys)).
        { eapply Permutation_in; [exact Hp|left; reflexivity]. }
        destruct Hin1 as [E|Hin1]; [exact E|].
        destruct Hin2 as [E|Hin2]; [congruence|].
        apply String.leb_antisym; [apply Hx; exact Hin1|apply Hy; exact Hin2]. }
      subst y. f_equal. apply IH; [exact Hys|].
      eapply Permutation_cons_inv. exact Hp.
Qed.

(** Sorting forgets the order of its input. *)
Lemma sort_permutation (xs ys : list string) :
  Permutation xs ys -> sort xs = sort ys.
Proof.
  intros Hp. apply sorted_unique; [apply sort_sorted|apply sort_sorted|].
  rewrite !sort_perm. exact Hp.
Qed.

Lemma lookup_field_In (key v : string) (data : list (string * string)) :
  List.NoDup (map fst data) ->
  lookup_field key data = Some v <-> In (key, v) data.
Proof.
  induction data as [|[k w] data IH]; cbn [lookup_field map fst In].
  - intros _. split; [discriminate|tauto].
  - intros Hnd. inversion Hnd as [|? ? Hk Hnd']; subst.
    destruct (String.eqb_spec k key) as [ -> | Hne ].
    + split.
      * intros E; injection E as ->. left. reflexivity.
      * intros [E|Hin]; [injection E as ->; reflexivity|].
        exfalso. apply Hk. apply (in_map fst) in Hin. exact Hin.
    + rewrite (IH Hnd'). split; [tauto|]. intros [E|Hin]; [injection E as E _; congruence|exact Hin].
Qed.

Lemma lookup_field_permutation (key : string) (data data' : list (string * string)) :
  List.NoDup (map fst data) -> Permutation data data' ->
  lookup_field key data = lookup_field key data'.
Proof.
  intros Hnd Hp.
  assert (Hnd' : List.NoDup (map fst data')).
  { eapply Permutation_NoDup; [|exact Hnd]. apply Permutation_map. exact Hp. }
  destruct (lookup_field key data) as [v|] eqn:E.
  - apply (lookup_field_In _ _ _ Hnd) in E. symmetry.
    apply (lookup_field_In _ _ _ Hnd'). eapply Permutation_in; eassumption.
  - destruct (lookup_field key data') as [v|] eqn:E'; [|reflexivity].
    apply (lookup_field_In _ _ _ Hnd') in E'.
    apply (Permutation_in _ (Permutation_sym Hp)) in E'.
    apply (lookup_field_In _ _ _ Hnd) in E'. congruence.
Qed.

Section Validate.
Variable hmac_hex : string -> string.
Variable parseInt : string -> option Z.

(** X20.  The login check does not depend on the order in which the
    fields of the request arrive: two bodies with the same fields, each
    under its own name, are accepted or rejected alike, with the same
    error. *)
Theorem validateTelegramLogin_field_order
    (now : Z) (hash : option string) (data data' : list (string * string)) :
  List.NoDup (map fst data) -> Permutation data data' ->
  validateTelegramLogin hmac_hex parseInt now hash data
  = validateTelegramLogin hmac_hex parseInt now hash data'.
Proof.
  intros Hnd Hp. unfold validateTelegramLogin.
  rewrite (sort_permutation (map (fun kv => (kv.1 ++ "=" ++ kv.2)%string) data)
             (map (fun kv => (kv.1 ++ "=" ++ kv.2)%string) data'))
    by (apply Permutation_map; exact Hp).
  rewrite (lookup_field_permutation "auth_date" data data' Hnd Hp).
  reflexivity.
Qed.

Lemma validateTelegramLogin_errors
    (now : Z) (hash : option string) (data : list (string * string)) (e : string) :
  validateTelegramLogin hmac_hex parseInt now hash data = Throw e ->
  e = "Hash is required" \/ e = "Invalid authentication data"
  \/ e = "Authentication data is too old".
Proof.
  unfold validateTelegramLogin.
  destruct hash as [[|c h]|]; [intros E; injection E as <-; tauto| |intros E; injection E as <-; tauto].
  destruct (negb _); [intros E; injection E as <-; tauto|].
  destruct (_ ≫= _) as [seconds|]; [|discriminate].
  destruct (_ <? _)%Z; [intros E; injection E as <-; tauto|discriminate].
Qed.

(** X21.  A login that fails the check is answered 400 with the message
    of the check, never 500, and writes nothing: no account is created or
    changed. *)
Theorem post_telegram_rejected_login
    (fields : AuthData -> list (string * string)) (generateToken : User -> string)
    (now : Z) (authData : AuthData) (db : gmap Z User) (e : string) :
  validate_body hmac_hex parseInt now fields authData = Throw e ->
  post_telegram (validate_body hmac_hex parseInt now fields) generateToken now
    authData db
  = (Ok (BadRequest e), db, [LogError "Telegram authentication error:"]).
Proof.
  intros Hv. unfold post_telegram, try_catch. unfold bind at 1. rewrite Hv.
  unfold bind, emit, ret.
  apply validateTelegramLogin_errors in Hv.
  destruct Hv as [ -> | [ -> | -> ] ]; reflexivity.
Qed.
End Validate.

Section Handlers.
Variable validateTelegramLogin : AuthData -> Result Datatypes.unit.
Variable generateToken : User -> string.
Variable jwt_verify : string -> Result Z.

Lemma telegramAuth_run (now : Z) (token : option string) (db : gmap Z User) :
  exists reply db' t,
    telegramAuth jwt_verify now token db = (Ok reply, db', t) /\
    match reply with
    | NextWith user =>
        exists k old, db !! k = Some old /\ isBanned old = false /\
                      user = stamped now old /\
                      db' = <[telegramId old := user]> db
    | Json _ _ => False
    | _ => db' = db
    end.
Proof.
  unfold telegramAuth, try_catch.
  destruct token as [token|]; [|eexists _, _, _; split; reflexivity].
  unfold bind at 1. destruct (jwt_verify token) as [decoded|e].
  - unfold bind at 1. unfold findOne at 1.
    destruct (db !! decoded) as [user|] eqn:Ef;
      [|eexists _, _, _; split; reflexivity].
    destruct (isBanned user) eqn:Eb; [eexists _, _, _; split; reflexivity|].
    unfold bind, updateLastInteraction, save. cbn [firstName].
    destruct (firstName user) as [n|] eqn:En.
    + eexists _, _, _. split; [reflexivity|]. cbn.
      exists decoded, user. unfold stamped. rewrite En.
      repeat split; assumption || reflexivity.
    + cbn. eexists _, _, _. split; [reflexivity|]. reflexivity.
  - cbn. destruct (String.eqb e "JsonWebTokenError");
      [|destruct (String.eqb e "TokenExpiredError")];
      eexists _, _, _; split; reflexivity.
Qed.

(** X22.  [telegramAuth] rejects before any side effect: it always
    answers, it lets a request pass only for a stored account that is not
    banned, and every other answer leaves the accounts as they were. *)
Theorem telegramAuth_rejects_without_writing
    (now : Z) (token : option string) (db : gmap Z User) :
  exists reply,
    result_of (telegramAuth jwt_verify now token db) = Ok reply /\
    match reply with
    | NextWith user =>
        exists k old, db !! k = Some old /\ isBanned old = false /\
                      user = stamped now old /\
                      env_of (telegramAuth jwt_verify now token db)
                      = <[telegramId old := user]> db
    | Json _ _ => False
    | _ => env_of (telegramAuth jwt_verify now token db) = db
    end.
Proof.
  destruct (telegramAuth_run now token db) as (reply & db' & t & H & Hr).
  exists reply. rewrite H. unfold result_of, env_of. cbn [fst snd].
  split; [reflexivity|exact Hr].
Qed.

Lemma post_telegram_run (now : Z) (authData : AuthData) (db : gmap Z User) :
  keyed db ->
  exists r db' t,
    post_telegram validateTelegramLogin generateToken now authData db = (r, db', t) /\
    (forall k, k <> id authData -> db' !! k = db !! k) /\
    (forall old new,
       db !! id authData = Some old -> db' !! id authData = Some new ->
       isBanned new = isBanned old /\ banReason new = banReason old /\
       messageCount new = messageCount old).
Proof.
  intros Hkeyed.
  unfold post_telegram, try_catch. unfold bind at 1.
  destruct (validateTelegramLogin authData) as [[]|e].
  2:{ cbn. destruct (invalid_login_message e); cbn; eexists _, _, _;
        (split; [reflexivity|]);
        (split; [reflexivity
                |intros old new Eo En; rewrite Eo in En; injection En as <-;
                 repeat split]). }
  unfold bind at 1. unfold findOne at 1.
  destruct (db !! id authData) as [user|] eqn:Ef.
  - pose proof (Hkeyed _ _ Ef) as Hid.
    destruct (negb (bool_decide (username user = auth_username authData))
              || negb (bool_decide (firstName user = first_name authData))
              || negb (bool_decide (lastName user = last_name authData)));
      unfold bind, updateLastInteraction, save, ret; cbn [firstName telegramId];
      destruct (first_name authData) as [n|]; cbn;
      try (destruct (invalid_login_message _); cbn);
      try (destruct (isBanned user) eqn:Eb; cbn);
      rewrite ?Hid;
      eexists _, _, _; (split; [reflexivity|]);
      (split;
       [ intros k Hk; rewrite ?lookup_insert_ne by congruence; reflexivity
       | intros old new Eo; injection Eo as <-;
         rewrite ?insert_insert_eq, ?lookup_insert_eq, ?Ef;
         intros En; injection En as <-; repeat split; cbn; congruence ]).
  - unfold bind, save, new_User, emit, ret. cbn [firstName telegramId].
    destruct (first_name authData) as [n|]; cbn;
      try (destruct (invalid_login_message _); cbn);
      eexists _, _, _; (split; [reflexivity|]);
      (split;
       [ intros k Hk; rewrite ?lookup_insert_ne by congruence; reflexivity
       | intros old new Eo; discriminate Eo ]).
Qed.

(** X23.  A login never lifts a ban and never touches another account:
    whatever the route answers, the accounts of the other identifiers are
    as before, and the account of the caller, if it existed, keeps its
    ban, the reason of the ban and its message count. *)
Theorem post_telegram_keeps_ban
    (now : Z) (authData : AuthData) (db : gmap Z User) :
  keyed db ->
  let db' := env_of (post_telegram validateTelegramLogin generateToken now
                       authData db) in
  (forall k, k <> id authData -> db' !! k = db !! k) /\
  (forall old new,
     db !! id authData = Some old -> db' !! id authData = Some new ->
     isBanned new = isBanned old /\ banReason new = banReason old /\
     messageCount new = messageCount old).
Proof.
  intros Hkeyed. cbv zeta.
  destruct (post_telegram_run now authData db Hkeyed) as (r & db' & t & H & H1 & H2).
  rewrite H. unfold env_of. cbn [fst snd]. split; assumption.
Qed.

Lemma optionalAuth_run (now : Z) (token : option string) (db : gmap Z User) :
  exists attached db' t,
    optionalAuth jwt_verify now token db = (Ok attached, db', t) /\
    match attached with
    | Some user =>
        exists k old, db !! k = Some old /\ isBanned old = false /\
                      user = stamped now old
    | None => db' = db
    end.
Proof.
  unfold optionalAuth, try_catch.
  destruct token as [token|]; [|eexists _, _, _; split; reflexivity].
  unfold bind at 1. destruct (jwt_verify token) as [decoded|e];
    [|eexists _, _, _; split; reflexivity].
  unfold bind at 1. unfold findOne at 1.
  destruct (db !! decoded) as [user|] eqn:Ef;
    [|eexists _, _, _; split; reflexivity].
  destruct (isBanned user) eqn:Eb; [eexists _, _, _; split; reflexivity|].
  cbn [negb]. unfold bind, try_catch, bind, updateLastInteraction, save, ret.
  cbn [firstName].
  destruct (firstName user) as [n|] eqn:En; cbn;
    (eexists _, _, _; split; [reflexivity|]; exists decoded, user;
     repeat split; assumption).
Qed.

(** X24.  [optionalAuth] always lets the request continue, and attaches
    an account only when the token names a stored account that is not
    banned; when it attaches none, the accounts are as before. *)
Theorem optionalAuth_attaches_only_unbanned
    (now : Z) (token : option string) (db : gmap Z User) :
  exists attached,
    result_of (optionalAuth jwt_verify now token db) = Ok attached /\
    match attached with
    | Some user =>
        exists k old, db !! k = Some old /\ isBanned old = false /\
                      user = stamped now old
    | None => env_of (optionalAuth jwt_verify now token db) = db
    end.
Proof.
  destruct (optionalAuth_run now token db) as (attached & db' & t & H & Hr).
  exists attached. rewrite H. unfold result_of, env_of. cbn [fst snd].
  split; [reflexivity|exact Hr].
Qed.
End Handlers.

(** Scenarios: the login of account 42. *)

Lemma login_fields_distinct : List.NoDup (map fst login_fields).
Proof.
  repeat constructor; cbn; intros H;
    repeat (destruct H as [H|H]; [discriminate H|]); exact H.
Qed.

Lemma accounts_keyed : keyed accounts.
Proof.
  intros k u H. unfold accounts in H.
  apply lookup_singleton_Some in H. destruct H as [<- <-]. reflexivity.
Qed.

Lemma validateTelegramLogin_field_order_witness :
  validateTelegramLogin hmac_fixed parse_seconds 1700000060000 (Some "5f2c")
    login_fields
  = validateTelegramLogin hmac_fixed parse_seconds 1700000060000 (Some "5f2c")
      (rev login_fields).
Proof.
  exact (validateTelegramLogin_field_order hmac_fixed parse_seconds 1700000060000
           (Some "5f2c") login_fields (rev login_fields) login_fields_distinct
           (Permutation_rev login_fields)).
Defined.

Lemma post_telegram_rejected_login_witness :
  post_telegram
    (validate_body hmac_fixed parse_seconds 1800000000000 (fun _ => login_fields))
    fixed_token 1800000000000 login_again accounts
  = (Ok (BadRequest "Authentication data is too old"), accounts,
     [LogError "Telegram authentication error:"]).
Proof.
  apply (post_telegram_rejected_login hmac_fixed parse_seconds
           (fun _ => login_fields) fixed_token 1800000000000 login_again accounts
           "Authentication data is too old").
  vm_compute. reflexivity.
Defined.

Lemma post_telegram_keeps_ban_witness :
  let db' := env_of (post_telegram accept_login fixed_token 5000 login_again
                       accounts) in
  (forall k, k <> id login_again -> db' !! k = accounts !! k) /\
  (forall old new,
     accounts !! id login_again = Some old -> db' !! id login_again = Some new ->
     isBanned new = isBanned old /\ banReason new = banReason old /\
     messageCount new = messageCount old).
Proof.
  exact (post_telegram_keeps_ban accept_login fixed_token 5000 login_again accounts
           accounts_keyed).
Defined.

End AuthMoreFacts.

Module BotHandlerAIFacts.
Import JS AIService AIServiceSpec AIServiceMore EffMore BotHandlerAI.

Lemma sent_texts_app (t1 t2 : list Event) :
  sent_texts (t1 ++ t2) = sent_texts t1 ++ sent_texts t2.
Proof. unfold sent_texts. apply omap_app. Qed.

Lemma stored_app (t1 t2 : list Event) : stored (t1 ++ t2) = stored t1 ++ stored t2.
Proof. unfold stored. apply omap_app. Qed.

Lemma sent_texts_ai (t : list AIService.Event) : sent_texts (map Ai t) = [].
Proof. induction t as [|e t IH]; [reflexivity|exact IH]. Qed.

Lemma stored_ai (t : list AIService.Event) : stored (map Ai t) = [].
Proof. induction t as [|e t IH]; [reflexivity|exact IH]. Qed.

(** An intent of [detectIntent] that is none of the four storable ones is
    not a value of the schema. *)
Lemma unstorable_intent (toLowerCase : string -> string) (text : string) :
  ~ In (detectIntent toLowerCase text) storable_intents ->
  ~ In (detectIntent toLowerCase text) ConversationModel.intent_enum.
Proof.
  pose proof (AIServiceMoreFacts.detectIntent_names toLowerCase text) as Hn.
  remember (detectIntent toLowerCase text) as i eqn:Ei. clear Ei.
  intros Hs He. apply Hs. clear Hs. cbn in Hn.
  repeat (destruct Hn as [Hn|Hn];
          [subst i; cbn in He |- *;
           repeat (destruct He as [He|He]; [discriminate He|]);
           first [contradiction | auto 10]|]).
  destruct Hn.
Qed.

Section Reply.
Variable Env : Type.
Variable generateContent : string -> Env -> Result string * Env.
Variable toLowerCase : string -> string.
Variable toUpperCase : string -> string.
Variable random_below : nat -> Env -> nat * Env.
Variable Article : Type.
Variable getNewsByCategory : string -> Env -> Result (NewsResult Article) * Env.
Variable formatNewsForTelegram : list Article -> nat -> Result string.
Variable Date_now : Env -> Z * Env.
Variable sendChatAction : Z -> Env -> Result Datatypes.unit * Env.
Variable sendMessage : Z -> string -> Env -> Result Datatypes.unit * Env.
Variable save : Conversation -> Env -> Result Datatypes.unit * Env.

Local Abbreviation handleAIResponse :=
  (BotHandlerAI.handleAIResponse Env generateContent toLowerCase toUpperCase
     random_below Article getNewsByCategory formatNewsForTelegram Date_now
     sendChatAction sendMessage save).

Lemma handleAIResponse_unstorable_run (msg : Message) (user : User) (s : Env)
    (text : string) :
  validates_intent save -> channel_up sendChatAction sendMessage ->
  msg_text msg = Some text ->
  ~ In (detectIntent toLowerCase text) storable_intents ->
  exists reply s' t,
    handleAIResponse msg user s = (Ok tt, s', t) /\
    sent_texts t = [reply; rephrase] /\ stored t = [].
Proof.
  intros Hval [Hchat Hsend] Htext Hint.
  unfold BotHandlerAI.handleAIResponse, try_catch.
  unfold bind at 1. unfold bot_sendChatAction at 1.
  destruct (Hchat (chat_id msg) s) as (s1 & E1). rewrite E1.
  unfold bind at 1. unfold lift at 1.
  destruct (AIServiceMoreFacts.processMessage_run Env generateContent toLowerCase
              toUpperCase random_below Article getNewsByCategory
              formatNewsForTelegram Date_now (msg_text msg) user s1)
    as (r & s2 & t & E2 & Hr).
  rewrite E2. rewrite Htext in Hr. destruct Hr as (Hi & _).
  unfold bind at 1. unfold bot_sendMessage at 1.
  destruct (Hsend (chat_id msg) (out_text r) s2) as (s3 & E3). rewrite E3.
  unfold conversation_save.
  match goal with |- context [save ?c s3] =>
    destruct (Hval c s3) as (e & s4 & E4);
      [cbn [intent]; rewrite Hi; apply unstorable_intent; exact Hint|];
      rewrite E4 end.
  unfold bind, emit. unfold bot_sendMessage.
  destruct (Hsend (chat_id msg) rephrase s4) as (s5 & E5). rewrite E5.
  eexists (out_text r), _, _. split; [reflexivity|].
  rewrite !sent_texts_app, !stored_app, sent_texts_ai, stored_ai.
  split; reflexivity.
Qed.

(** X25.  A plain message whose intent is not one of greeting, irrigation,
    fertilizer and help is answered twice.  The store checks the intent
    against the enum of the schema; [handleAIResponse] sends the reply,
    fails to store the conversation, and sends the request to rephrase
    after it.  Nothing is stored. *)
Theorem handleAIResponse_reply_then_apology (msg : Message) (user : User) (s : Env)
    (text : string) :
  validates_intent save -> channel_up sendChatAction sendMessage ->
  msg_text msg = Some text ->
  ~ In (detectIntent toLowerCase text) storable_intents ->
  result_of (handleAIResponse msg user s) = Ok tt /\
  (exists reply,
     sent_texts (trace_of (handleAIResponse msg user s)) = [reply; rephrase]) /\
  stored (trace_of (handleAIResponse msg user s)) = [].
Proof.
  intros Hval Hup Htext Hint.
  destruct (handleAIResponse_unstorable_run msg user s text Hval Hup Htext Hint)
    as (reply & s' & t & H & Hs & Hst).
  rewrite H. unfold result_of, trace_of. cbn [fst snd].
  split; [reflexivity|]. split; [exists reply; exact Hs|exact Hst].
Qed.
End Reply.

Lemma save_checked_validates : validates_intent save_checked.
Proof.
  intros c s Hn. unfold save_checked.
  destruct (existsb (String.eqb (intent c)) ConversationModel.intent_enum) eqn:E.
  - exfalso. apply Hn. apply existsb_exists in E. destruct E as (x & Hx & Ex).
    apply String.eqb_eq in Ex. subst x. exact Hx.
  - eexists _, _. reflexivity.
Qed.

Lemma channel_up_ok : channel_up typing_ok send_ok.
Proof. split; intros; eexists; reflexivity. Qed.

(** Scenario: a question about rain, the backend down. *)
Lemma handleAIResponse_reply_then_apology_witness :
  exists reply,
    sent_texts (trace_of (BotHandlerAI.handleAIResponse Datatypes.unit backend_down
                            toLowerCase_ascii toUpperCase_ascii random_zero
                            Datatypes.unit news_down format_news clock
                            typing_ok send_ok save_checked rain_question farmer tt))
    = [reply; rephrase].
Proof.
  refine (proj1 (proj2 (handleAIResponse_reply_then_apology Datatypes.unit backend_down
                          toLowerCase_ascii toUpperCase_ascii random_zero
                          Datatypes.unit news_down format_news clock
                          typing_ok send_ok save_checked rain_question farmer tt
                          "will it rain tomorrow" save_checked_validates
                          channel_up_ok eq_refl _))).
  vm_compute. intros H. repeat (destruct H as [H|H]; [discriminate H|]). exact H.
Defined.

End BotHandlerAIFacts.
